(** * Snooz BLE WebSocket service: device orchestration and gateway layer

    A shallow embedding of [ble_ws_service/ble_snooz.py],
    [ble_ws_service/snooz_manager.py] and [ble_ws_service/ws_server.py],
    followed by the properties of the discovery scan, the rescan loop, the
    state-change debouncer, the BLE operation gate and the WebSocket
    command handler.

    Conventions of the embedding.
    - A Python [str] is a [string]; [upper], [lower] and [strip] are
      Python's on ASCII text ([isascii]): hardware addresses are MACs or
      UUIDs, and the rule of the scan is stated for ASCII names. Python
      also folds the case of letters outside the ASCII range and trims
      the white space outside it, which these functions do not.
    - A [dict] that is only looked up is a [gmap]; a [dict] that is iterated
      ([found.items()]) is an association list in insertion order; a [set]
      that is iterated is the list of its elements in iteration order.
    - A coroutine is a [Task]: a tree of the effects it awaits (the gate,
      the device library, the socket), with [Raise] for an exception.
    - Time is in milliseconds, an integer. *)

From Stdlib Require Import ZArith QArith Qround Ascii String List Bool Lia.
From stdpp Require Import gmap strings list fin_maps pretty.

Set Warnings "-register-all".

Open Scope string_scope.
Open Scope Z_scope.

(** ** Python strings *)

(** [str.isspace] on one ASCII character: TAB, LF, VT, FF, CR, FS, GS, RS,
    US and the space. *)
Definition py_isspace (c : ascii) : bool :=
  let n := nat_of_ascii c in
  ((9 <=? n)%nat && (n <=? 13)%nat) || ((28 <=? n)%nat && (n <=? 32)%nat).

Definition ascii_upper (c : ascii) : ascii :=
  let n := nat_of_ascii c in
  if ((97 <=? n)%nat && (n <=? 122)%nat)%bool then ascii_of_nat (n - 32) else c.

Definition ascii_lower (c : ascii) : ascii :=
  let n := nat_of_ascii c in
  if ((65 <=? n)%nat && (n <=? 90)%nat)%bool then ascii_of_nat (n + 32) else c.

Fixpoint str_map (f : ascii -> ascii) (s : string) : string :=
  match s with
  | EmptyString => EmptyString
  | String c r => String (f c) (str_map f r)
  end.

(** [s.upper()] and [s.lower()], for a string in the ASCII range. *)
Definition upper : string -> string := str_map ascii_upper.
Definition lower : string -> string := str_map ascii_lower.

Fixpoint lstrip (s : string) : string :=
  match s with
  | EmptyString => EmptyString
  | String c r => if py_isspace c then lstrip r else s
  end.

Fixpoint rstrip (s : string) : string :=
  match s with
  | EmptyString => EmptyString
  | String c r =>
      match rstrip r with
      | EmptyString => if py_isspace c then EmptyString else String c EmptyString
      | r' => String c r'
      end
  end.

(** [s.strip()], for a string in the ASCII range. *)
Definition strip (s : string) : string := rstrip (lstrip s).

(** Truth value of a [str]: the empty string is falsy. *)
Definition str_truthy (s : string) : bool :=
  match s with EmptyString => false | _ => true end.

(** [x or y] on optional strings ([None] and the empty string are falsy). *)
Definition opt_or (x : option string) (y : option string) : option string :=
  match x with
  | Some s => if str_truthy s then x else y
  | None => y
  end.

(** [x or ""] at the end of an [or] chain. *)
Definition or_empty (x : option string) : string :=
  match x with Some s => s | None => "" end.

(** [s.startswith(p)]. *)
Fixpoint startswith (p s : string) : bool :=
  match p, s with
  | EmptyString, _ => true
  | String a p', String b s' => if Ascii.eqb a b then startswith p' s' else false
  | String _ _, EmptyString => false
  end.

(** ** Python exceptions *)

Inductive exn : Type :=
| ValueError (msg : string)
| RuntimeError (msg : string)
| KeyError (key : string)
| TypeError (msg : string)
| AttributeError (msg : string)
| AssertionError
| LibraryError (msg : string)
| OverflowError (msg : string).

(** ** JSON values, as [json.loads] returns them *)

(** The values of a Python [float] that are not numbers of their own:
    [json.loads] returns them for [Infinity], [-Infinity], [NaN] and for
    a literal too large for a float (1e400). *)
Inductive NonFinite : Type := PosInf | NegInf | NaN.

(** A Python [float]. *)
Inductive PyFloat : Type :=
| Finite (q : Q)
| NotFinite (x : NonFinite).

Inductive json : Type :=
| JNull
| JBool (b : bool)
| JInt (z : Z)
| JFloat (q : Q)
| JNonFinite (x : NonFinite)
| JStr (s : string)
| JArr (l : list json)
| JObj (kvs : list (string * json)).

(** [d.get(k)]: [None] when the key is absent. *)
Fixpoint assoc_get {A : Type} (k : string) (kvs : list (string * A)) : option A :=
  match kvs with
  | [] => None
  | (k', v) :: rest => if String.eqb k k' then Some v else assoc_get k rest
  end.

Definition dict_get (k : string) (kvs : list (string * json)) : json :=
  match assoc_get k kvs with Some v => v | None => JNull end.

(** Truth value of a decoded JSON value ([not x] is its negation). *)
Definition truthy (j : json) : bool :=
  match j with
  | JNull => false
  | JBool b => b
  | JInt z => negb (z =? 0)
  | JFloat q => negb (Qeq_bool q 0)
  | JNonFinite _ => true
  | JStr s => str_truthy s
  | JArr l => match l with [] => false | _ => true end
  | JObj kvs => match kvs with [] => false | _ => true end
  end.

(** [x == "literal"] for a decoded JSON value. *)
Definition is_str (j : json) (s : string) : bool :=
  match j with JStr s' => String.eqb s' s | _ => false end.

Definition opt_json {A : Type} (f : A -> json) (x : option A) : json :=
  match x with Some a => f a | None => JNull end.

(** Builtins of the interpreter that this layer only passes values through:
    [repr] of a string, [str] of a decoded value that is not a string
    (inside an f-string), [int] and [float] of a string ([None] is
    [ValueError]), and [json.loads] on a text frame ([None] is
    [JSONDecodeError], the one exception [_handle_message] catches).
    The frames on which [json.loads] raises something else are not frames
    of this model: a nesting too deep ([RecursionError]), an integer
    literal beyond the digit limit ([ValueError]) and a binary frame that
    is not UTF-8 ([UnicodeDecodeError]). In the code such an exception
    leaves [_handle_message] with nothing sent and ends [_handler], as the
    [AttributeError] of a frame that decodes to a non-object does. *)
Class PyBuiltins : Type := {
  py_repr : string -> string;
  py_format : json -> string;
  int_of_str : string -> option Z;
  float_of_str : string -> option PyFloat;
  json_loads : string -> option json;
}.

Definition type_name (j : json) : string :=
  match j with
  | JNull => "NoneType" | JBool _ => "bool" | JInt _ => "int" | JFloat _ => "float"
  | JNonFinite _ => "float"
  | JStr _ => "str" | JArr _ => "list" | JObj _ => "dict"
  end.

Section Builtins.
Context `{PyBuiltins}.

(** [int(x)]: a float is truncated towards zero. *)
Definition py_int (j : json) : exn + Z :=
  match j with
  | JInt z => inr z
  | JBool b => inr (if b then 1 else 0)
  | JFloat q => inr (Z.quot (Qnum q) (Zpos (Qden q)))
  | JNonFinite NaN => inl (ValueError "cannot convert float NaN to integer")
  | JNonFinite _ => inl (OverflowError "cannot convert float infinity to integer")
  | JStr s =>
      match int_of_str s with
      | Some z => inr z
      | None => inl (ValueError ("invalid literal for int() with base 10: " ++ py_repr s))
      end
  | _ =>
      inl (TypeError ("int() argument must be a string, a bytes-like object or a real number, not '"
                      ++ type_name j ++ "'"))
  end.

(** The least magnitude of an [int] that [float] refuses: it would round
    to 2^1024. *)
Definition FLOAT_INT_LIMIT : Z := 2 ^ 1024 - 2 ^ 970.

(** [float(x)].  [Finite q] stands for the double nearest to [q]; an
    [int] below 2^53 in magnitude is its own double. *)
Definition py_float (j : json) : exn + PyFloat :=
  match j with
  | JInt z =>
      if Z.abs z <? FLOAT_INT_LIMIT then inr (Finite (inject_Z z))
      else inl (OverflowError "int too large to convert to float")
  | JBool b => inr (Finite (if b then 1%Q else 0%Q))
  | JFloat q => inr (Finite q)
  | JNonFinite x => inr (NotFinite x)
  | JStr s =>
      match float_of_str s with
      | Some x => inr x
      | None => inl (ValueError ("could not convert string to float: " ++ py_repr s))
      end
  | _ =>
      inl (TypeError ("float() argument must be a string or a real number, not '"
                      ++ type_name j ++ "'"))
  end.

(** [datetime.timedelta(seconds=x)] for a float [x].  The days of the
    interval must fit a C [int] and then have magnitude at most
    999999999; an infinity or a NaN fails where the seconds are turned
    into an integer.  A timedelta is kept as the seconds it was built
    from (the library rounds them to microseconds). *)
Definition MAX_DELTA_DAYS : Z := 999999999.

Definition timedelta_days (q : Q) : Z := Qfloor (Qdiv q (inject_Z 86400)).

Definition timedelta (seconds : PyFloat) : exn + Q :=
  match seconds with
  | NotFinite NaN => inl (ValueError "cannot convert float NaN to integer")
  | NotFinite _ => inl (OverflowError "cannot convert float infinity to integer")
  | Finite q =>
      let days := timedelta_days q in
      if (days <? - 2 ^ 31) || (2 ^ 31 <=? days) then
        inl (OverflowError "Python int too large to convert to C int")
      else if (days <? - MAX_DELTA_DAYS) || (MAX_DELTA_DAYS <? days) then
        inl (OverflowError ("days=" ++ py_format (JInt days)
                            ++ "; must have magnitude <= 999999999"))
      else inr q
  end.

(** [str(exc)]. *)
Definition exn_str (e : exn) : string :=
  match e with
  | ValueError m | RuntimeError m | TypeError m | AttributeError m | LibraryError m
  | OverflowError m => m
  | KeyError k => py_repr k
  | AssertionError => ""
  end.

End Builtins.

(** ** The device library (pysnooz) and the radio stack (bleak), as far as
    this layer reads them *)

Inductive SnoozFirmwareVersion : Type :=
| V2 | V3 | V4 | V5 | V6
| VOther (name : string).

Definition firmware_name (fw : SnoozFirmwareVersion) : string :=
  match fw with
  | V2 => "V2" | V3 => "V3" | V4 => "V4" | V5 => "V5" | V6 => "V6"
  | VOther n => n
  end.

Definition firmware_eqb (a b : SnoozFirmwareVersion) : bool :=
  match a, b with
  | V2, V2 | V3, V3 | V4, V4 | V5, V5 | V6, V6 => true
  | VOther n, VOther m => String.eqb n m
  | _, _ => false
  end.

Inductive SnoozDeviceModel : Type := ORIGINAL | PRO | BREEZ | UNSUPPORTED.

Definition model_name (m : SnoozDeviceModel) : string :=
  match m with
  | ORIGINAL => "ORIGINAL" | PRO => "PRO" | BREEZ => "BREEZ"
  | UNSUPPORTED => "UNSUPPORTED"
  end.

Record SnoozAdvertisementData : Type := {
  model : SnoozDeviceModel;
  firmware_version : SnoozFirmwareVersion;
  password : string;
}.

Record SnoozDeviceState : Type := {
  on : option bool;
  volume : option Z;
  light_on : option bool;
  light_brightness : option Z;
  night_mode_enabled : option bool;
}.

(** What this layer reads of a [pysnooz.device.SnoozDevice]:
    [connection_status] is the name of the enum member. *)
Record SnoozDevice : Type := {
  is_connected : bool;
  connection_status : string;
  state : option SnoozDeviceState;
}.

Record BLEDevice : Type := {
  ble_address : string;
  ble_name : option string;
}.

(** [manufacturer_data] is a dict from company id to payload (bytes as
    integers 0..255), in insertion order. *)
Record AdvertisementData : Type := {
  local_name : option string;
  manufacturer_data : list (Z * list Z);
}.

(** Constants and constructors imported from pysnooz. *)
Class PySnooz : Type := {
  FIRMWARE_PAIRING_FLAGS : Z;
  FIRMWARE_VERSION_BY_FLAGS : Z -> option SnoozFirmwareVersion;
  SNOOZ_ADVERTISEMENT_LENGTH : nat;
  get_device_display_name : string -> string -> string;
  new_SnoozDevice : BLEDevice -> SnoozAdvertisementData -> SnoozDevice;
}.

(** ** ble_snooz.py *)

Record DiscoveredSnooz : Type := {
  ble_device : BLEDevice;
  advertisement_data : AdvertisementData;
  snooz_adv : SnoozAdvertisementData;
  display_name : string;
}.

Inductive TaskStatus : Type := Sleeping | Finished | Cancelled.

(** The task created by [_on_state_change]: it sleeps until [wake_at]
    (milliseconds), then emits. *)
Record EmitTask : Type := {
  wake_at : Z;
  task_status : TaskStatus;
}.

(** [Task.done()]. *)
Definition task_done (t : EmitTask) : bool :=
  match task_status t with Sleeping => false | _ => true end.

(** [Task.cancel()]: a finished task stays as it is. *)
Definition task_cancel (t : EmitTask) : EmitTask :=
  match task_status t with
  | Sleeping => {| wake_at := wake_at t; task_status := Cancelled |}
  | _ => t
  end.

Record BleSnooz : Type := {
  device_name : string;
  address : string;
  match_name : option string;
  password_hex : string;
  _device : option SnoozDevice;
  _discovered : option DiscoveredSnooz;
  _event_task : option EmitTask;
}.

(** [BleSnooz.__init__]. *)
Definition BleSnooz_init (device_name address password_hex : string)
    (match_name : option string) : BleSnooz :=
  {| device_name := device_name;
     address := if str_truthy address then upper address else "";
     match_name := match_name;
     password_hex := lower password_hex;
     _device := None;
     _discovered := None;
     _event_task := None |}.

Definition is_ready (self : BleSnooz) : bool :=
  match _device self, _discovered self with
  | Some _, Some _ => true
  | _, _ => false
  end.

Fixpoint mfg_get (k : Z) (mfg : list (Z * list Z)) : option (list Z) :=
  match mfg with
  | [] => None
  | (k', v) :: rest => if k =? k' then Some v else mfg_get k rest
  end.

Section BleSnoozPy.
Context `{PySnooz}.

Definition _parse_firmware_flags (flags : Z) : option SnoozFirmwareVersion * bool :=
  let is_pairing := Z.land FIRMWARE_PAIRING_FLAGS flags =? FIRMWARE_PAIRING_FLAGS in
  let flags_without_pairing := Z.land flags (Z.lnot FIRMWARE_PAIRING_FLAGS) in
  (FIRMWARE_VERSION_BY_FLAGS flags_without_pairing, is_pairing).

Definition parse_snooz_advertisement_from_bleak (name : string)
    (adv : AdvertisementData) (password_hex : string)
  : option SnoozAdvertisementData :=
  let mfg := manufacturer_data adv in
  let payload :=
    match mfg_get 65535 mfg with
    | Some p => Some p
    | None => match mfg with (_, p) :: _ => Some p | [] => None end
    end in
  match payload with
  | None | Some [] => None
  | Some ((b0 :: _) as p) =>
      if negb (Nat.eqb (length p) SNOOZ_ADVERTISEMENT_LENGTH) then None
      else
        match fst (_parse_firmware_flags b0) with
        | None => None
        | Some fw =>
            let lower_name := lower name in
            let model :=
              if startswith "breez" lower_name then BREEZ
              else if startswith "snooz" lower_name then
                match fw with
                | V2 | V3 | V4 | V5 => ORIGINAL
                | _ => PRO
                end
              else if firmware_eqb fw V6 then PRO else UNSUPPORTED in
            match model with
            | UNSUPPORTED => None
            | _ => Some {| model := model; firmware_version := fw;
                           password := password_hex |}
            end
        end
  end.

(** [bind_discovery]: the session after the call and the returned flag. *)
Definition bind_discovery (self : BleSnooz) (ble : BLEDevice)
    (adv : AdvertisementData) : BleSnooz * bool :=
  let name := or_empty (opt_or (opt_or (local_name adv) (ble_name ble)) (Some "Snooz")) in
  match parse_snooz_advertisement_from_bleak name adv (password_hex self) with
  | None => (self, false)
  | Some sa =>
      let display := get_device_display_name name (ble_address ble) in
      ({| device_name := device_name self;
          address := upper (ble_address ble);
          match_name := match_name self;
          password_hex := password_hex self;
          _device := Some (new_SnoozDevice ble sa);
          _discovered := Some {| ble_device := ble; advertisement_data := adv;
                                 snooz_adv := sa; display_name := display |};
          _event_task := _event_task self |}, true)
  end.

End BleSnoozPy.

Definition jbool_opt (x : option bool) : json := opt_json JBool x.
Definition jint_opt (x : option Z) : json := opt_json JInt x.

(** [snapshot]: a pure read of the cached fields. *)
Definition snapshot (self : BleSnooz) : json :=
  let disc := _discovered self in
  let dev := _device self in
  let state := match dev with Some d => state d | None => None end in
  JObj [
    ("device_name", JStr (device_name self));
    ("address", JStr (address self));
    ("display_name", opt_json (fun d => JStr (display_name d)) disc);
    ("connected", JBool (match dev with Some d => is_connected d | None => false end));
    ("connection_status",
       JStr (match dev with Some d => connection_status d | None => "UNKNOWN" end));
    ("model", opt_json (fun d => JStr (model_name (model (snooz_adv d)))) disc);
    ("firmware_version",
       opt_json (fun d => JStr (firmware_name (firmware_version (snooz_adv d)))) disc);
    ("state", JObj [
       ("on", match state with Some s => jbool_opt (on s) | None => JNull end);
       ("volume", match state with Some s => jint_opt (volume s) | None => JNull end);
       ("light_on", match state with Some s => jbool_opt (light_on s) | None => JNull end);
       ("light_brightness",
          match state with Some s => jint_opt (light_brightness s) | None => JNull end);
       ("night_mode_enabled",
          match state with Some s => jbool_opt (night_mode_enabled s) | None => JNull end)
    ])
  ].

(** *** The state-change debouncer *)

Definition with_device (d : option SnoozDevice) (self : BleSnooz) : BleSnooz :=
  {| device_name := device_name self; address := address self;
     match_name := match_name self; password_hex := password_hex self;
     _device := d; _discovered := _discovered self;
     _event_task := _event_task self |}.

Definition with_event_task (t : option EmitTask) (self : BleSnooz) : BleSnooz :=
  {| device_name := device_name self; address := address self;
     match_name := match_name self; password_hex := password_hex self;
     _device := _device self; _discovered := _discovered self;
     _event_task := t |}.

(** [asyncio.sleep(0.25)]. *)
Definition DEBOUNCE_MS : Z := 250.

(** [_on_state_change] at time [now]: the task held in [_event_task] is
    cancelled when it is not done, and a new task that sleeps for the
    debounce delay replaces it. The second component is the replaced task
    as the call leaves it; the event loop still knows it, and would run it
    had it not been cancelled.

    [_event_lock] is taken by a task before its sleep and left when the
    task ends or is cancelled. A task is created only after the one before
    it has been cancelled, so the lock is free whenever a task starts (no
    detached task is asleep, see [loop_settled]); it is not represented. *)
Definition _on_state_change (now : Z) (self : BleSnooz) : BleSnooz * option EmitTask :=
  let replaced :=
    match _event_task self with
    | Some t => Some (if negb (task_done t) then task_cancel t else t)
    | None => None
    end in
  (with_event_task (Some {| wake_at := now + DEBOUNCE_MS; task_status := Sleeping |}) self,
   replaced).

(** The event built by [_emit] after its sleep. *)
Definition emit_event (self : BleSnooz) : json :=
  JObj [("type", JStr "device_state");
        ("device_name", JStr (device_name self));
        ("state", snapshot self)].

(** The event loop as one session sees it: the clock, the session, the
    tasks the session no longer refers to, and the events handed to the
    state callbacks, oldest first, each with the time of its emission. *)
Record SessionLoop : Type := {
  clock : Z;
  session : BleSnooz;
  detached : list EmitTask;
  emitted : list (Z * json);
}.

Definition task_due (t : Z) (k : EmitTask) : bool :=
  match task_status k with
  | Sleeping => wake_at k <=? t
  | _ => false
  end.

Definition task_finish (k : EmitTask) : EmitTask :=
  {| wake_at := wake_at k; task_status := Finished |}.

(** Sleeping tasks of [ks] whose delay has elapsed at [t] wake up: each
    emits the snapshot of [self] and finishes. *)
Fixpoint wake_tasks (t : Z) (self : BleSnooz) (ks : list EmitTask)
  : list EmitTask * list (Z * json) :=
  match ks with
  | [] => ([], [])
  | k :: rest =>
      let '(rest', evs) := wake_tasks t self rest in
      if task_due t k then (task_finish k :: rest', (wake_at k, emit_event self) :: evs)
      else (k :: rest', evs)
  end.

(** The loop runs until time [t] with no notification in between. *)
Definition run_until (t : Z) (L : SessionLoop) : SessionLoop :=
  let '(det, evs1) := wake_tasks t (session L) (detached L) in
  let '(cur, evs2) :=
    match _event_task (session L) with
    | Some k =>
        if task_due t k then (Some (task_finish k), [(wake_at k, emit_event (session L))])
        else (Some k, [])
    | None => (None, [])
    end in
  {| clock := Z.max (clock L) t;
     session := with_event_task cur (session L);
     detached := det;
     emitted := emitted L ++ evs1 ++ evs2 |}.

(** The device library stores a new state and calls the subscribed
    callback. *)
Definition store_state (s : SnoozDeviceState) (self : BleSnooz) : BleSnooz :=
  match _device self with
  | Some d =>
      with_device (Some {| is_connected := is_connected d;
                           connection_status := connection_status d;
                           state := Some s |}) self
  | None => self
  end.

(** A raw state-change notification [gap] milliseconds after the current
    clock, carrying state [s]. *)
Definition notify (gap : Z) (s : SnoozDeviceState) (L : SessionLoop) : SessionLoop :=
  let L1 := run_until (clock L + gap) L in
  let '(self', replaced) := _on_state_change (clock L1) (store_state s (session L1)) in
  {| clock := clock L1;
     session := self';
     detached := match replaced with Some k => detached L1 ++ [k] | None => detached L1 end;
     emitted := emitted L1 |}.

(** A burst: each notification with its distance to the previous one. *)
Fixpoint notify_all (burst : list (Z * SnoozDeviceState)) (L : SessionLoop) : SessionLoop :=
  match burst with
  | [] => L
  | (gap, s) :: rest => notify_all rest (notify gap s L)
  end.

(** A loop on which no task has been created yet. *)
Definition loop_init (now : Z) (self : BleSnooz) : SessionLoop :=
  {| clock := now; session := with_event_task None self; detached := []; emitted := [] |}.

(** A loop in which nothing is overdue: no detached task is still asleep,
    and the delay of the task the session holds has not elapsed. Every
    loop reached from [loop_init] by [notify] and [run_until] is so. *)
Definition loop_settled (L : SessionLoop) : Prop :=
  Forall (fun k => task_status k <> Sleeping) (detached L)
  /\ forall k, _event_task (session L) = Some k -> task_status k = Sleeping ->
               clock L < wake_at k.

(** The time a burst spans after its first notification, and the state its
    last notification carries. *)
Definition burst_span (rest : list (Z * SnoozDeviceState)) : Z :=
  fold_right (fun gs acc => fst gs + acc) 0 rest.

Definition last_state (s1 : SnoozDeviceState) (rest : list (Z * SnoozDeviceState))
  : SnoozDeviceState :=
  List.last (List.map snd rest) s1.

Definition fresh_task (now : Z) : EmitTask :=
  {| wake_at := now + DEBOUNCE_MS; task_status := Sleeping |}.

(** ** snooz_manager.py *)

(** [_devices] is looked up by name; [_names] keeps the keys in insertion
    order for the places that iterate over the dict. *)
Record SnoozManager : Type := {
  _devices : gmap string BleSnooz;
  _names : list string;
  _running : bool;
}.

Definition SnoozManager_init : SnoozManager :=
  {| _devices := ∅; _names := []; _running := false |}.

Definition add_device (dev : BleSnooz) (self : SnoozManager) : exn + SnoozManager :=
  match _devices self !! device_name dev with
  | Some _ => inl (ValueError ("Duplicate device_name: " ++ device_name dev))
  | None =>
      inr {| _devices := <[device_name dev := dev]> (_devices self);
             _names := _names self ++ [device_name dev];
             _running := _running self |}
  end.

Definition get_device_names (self : SnoozManager) : list string := _names self.

(** The session object stored under [name] is mutated in place. *)
Definition set_device (name : string) (dev : BleSnooz) (self : SnoozManager) : SnoozManager :=
  {| _devices := <[name := dev]> (_devices self);
     _names := _names self;
     _running := _running self |}.

(** *** Discovery scan *)

(** One detection callback of the scanner. *)
Definition Detection : Type := BLEDevice * AdvertisementData.

(** [found]: name to detection, in insertion order. *)
Definition Found : Type := list (string * Detection).

(** The two lookup maps built from the targets, in the order the target set
    is iterated. [self._devices[name]] raises [KeyError] for a name that is
    not registered. *)
Fixpoint build_lookup (devices : gmap string BleSnooz) (targets : list string)
    (addr_to_device_name name_to_device_name : gmap string string)
  : exn + (gmap string string * gmap string string) :=
  match targets with
  | [] => inr (addr_to_device_name, name_to_device_name)
  | target :: rest =>
      match devices !! target with
      | None => inl (KeyError target)
      | Some dev =>
          let addr := address dev in
          let a2d :=
            if str_truthy addr then <[upper addr := target]> addr_to_device_name
            else addr_to_device_name in
          let n2d :=
            match match_name dev with
            | Some m =>
                if str_truthy m then <[lower (strip m) := target]> name_to_device_name
                else name_to_device_name
            | None => name_to_device_name
            end in
          build_lookup devices rest a2d n2d
      end
  end.

(** The first half of [cb]: the name the advertisement is matched to. *)
Definition matched_device_name (a2d n2d : gmap string string) (d : Detection)
  : option string :=
  let addr := upper (ble_address (fst d)) in
  let adv_name := strip (or_empty (opt_or (local_name (snd d)) (ble_name (fst d)))) in
  let adv_name_l := lower adv_name in
  match (if str_truthy addr then a2d !! addr else None) with
  | Some n => Some n
  | None => if str_truthy adv_name_l then n2d !! adv_name_l else None
  end.

Definition in_found (name : string) (found : Found) : bool :=
  match assoc_get name found with Some _ => true | None => false end.

(** [targets.issubset(found.keys())]. *)
Definition all_found (targets : list string) (found : Found) : bool :=
  forallb (fun t => in_found t found) targets.

(** [cb]: the new [found] and whether [done] was set by this call. *)
Definition cb (a2d n2d : gmap string string) (targets : list string)
    (found : Found) (d : Detection) : Found * bool :=
  match matched_device_name a2d n2d d with
  | Some name =>
      if str_truthy name && negb (in_found name found) then
        let found' := (found ++ [(name, d)])%list in
        (found', all_found targets found')
      else (found, false)
  | None => (found, false)
  end.

Record ScanResult : Type := {
  found_devices : Found;
  stopped_at : Z;
  callbacks_run : nat;
}.

(** [wait_for(done.wait(), timeout)] with the scanner running: detections
    arrive with their time since the start of the scan (milliseconds); the
    wait ends when a callback sets [done], or at the timeout. *)
Fixpoint scan_wait (a2d n2d : gmap string string) (targets : list string)
    (timeout : Z) (detections : list (Z * Detection)) (found : Found) (n : nat)
  : ScanResult :=
  match detections with
  | [] => {| found_devices := found; stopped_at := timeout; callbacks_run := n |}
  | (t, d) :: rest =>
      if timeout <=? t then
        {| found_devices := found; stopped_at := timeout; callbacks_run := n |}
      else
        let '(found', done) := cb a2d n2d targets found d in
        if done then
          {| found_devices := found'; stopped_at := t; callbacks_run := S n |}
        else scan_wait a2d n2d targets timeout rest found' (S n)
  end.

Definition _scan_for_targets (self : SnoozManager) (device_names : list string)
    (timeout : Z) (detections : list (Z * Detection)) : exn + ScanResult :=
  match build_lookup (_devices self) device_names ∅ ∅ with
  | inl e => inl e
  | inr (a2d, n2d) => inr (scan_wait a2d n2d device_names timeout detections [] 0)
  end.

(** *** The matching rule, stated on the configured identities *)

(** The key an identity contributes to [addr_to_device_name] and to
    [name_to_device_name]. *)
Definition addr_key (dev : BleSnooz) : option string :=
  if str_truthy (address dev) then Some (upper (address dev)) else None.

Definition name_key (dev : BleSnooz) : option string :=
  match match_name dev with
  | Some m => if str_truthy m then Some (lower (strip m)) else None
  | None => None
  end.

(** One lookup map alone: a later target overwrites an earlier one with
    the same key. *)
Fixpoint build_map (key : BleSnooz -> option string) (devices : gmap string BleSnooz)
    (targets : list string) (m : gmap string string) : gmap string string :=
  match targets with
  | [] => m
  | target :: rest =>
      match devices !! target with
      | None => m
      | Some dev =>
          build_map key devices rest
            (match key dev with Some k => <[k := target]> m | None => m end)
      end
  end.

(** No two targets share a configured address or a normalized matchName. *)
Definition distinct_keys (devices : gmap string BleSnooz) (targets : list string) : Prop :=
  forall key t1 t2 dev1 dev2 k,
    (key = addr_key \/ key = name_key) ->
    In t1 targets -> In t2 targets ->
    devices !! t1 = Some dev1 -> devices !! t2 = Some dev2 ->
    key dev1 = Some k -> key dev2 = Some k -> t1 = t2.

(** The advertised name the callback compares: trimmed. *)
Definition advertised_name (d : Detection) : string :=
  strip (or_empty (opt_or (local_name (snd d)) (ble_name (fst d)))).

(** The address of the advertisement equals the configured address under
    case normalization. *)
Definition address_matches (dev : BleSnooz) (d : Detection) : Prop :=
  upper (ble_address (fst d)) = upper (address dev).

(** The advertised name equals the configured matchName, trimmed and
    case-insensitive (neither being empty). *)
Definition name_matches (dev : BleSnooz) (d : Detection) : Prop :=
  exists m, match_name dev = Some m /\ m <> ""
            /\ lower (advertised_name d) <> ""
            /\ lower (advertised_name d) = lower (strip m).

(** The address of the advertisement is the configured address of no
    target. *)
Definition address_unknown (devices : gmap string BleSnooz) (targets : list string)
    (d : Detection) : Prop :=
  forall t dev, In t targets -> devices !! t = Some dev ->
                address dev = "" \/ ~ address_matches dev d.

(** The rule as the specification words it for an identity with a
    configured address: a detection binds the identity exactly when the
    addresses are equal. *)
Definition address_only_rule (a2d n2d : gmap string string) (targets : list string)
    (target : string) (dev : BleSnooz) (found : Found) (d : Detection) : Prop :=
  in_found target found = false ->
  (assoc_get target (fst (cb a2d n2d targets found d)) = Some d <-> address_matches dev d).

(** *** The scan, stated on what was heard *)

(** The name [cb] records for a detection, when that name is not in
    [found] yet. *)
Definition recorded (a2d n2d : gmap string string) (d : Detection) : option string :=
  match matched_device_name a2d n2d d with
  | Some n => if str_truthy n then Some n else None
  | None => None
  end.

Definition records (a2d n2d : gmap string string) (t : string) (d : Detection) : bool :=
  match recorded a2d n2d d with
  | Some n => String.eqb n t
  | None => false
  end.

(** The first detection of [ds] matched to [t]. *)
Fixpoint first_match (a2d n2d : gmap string string) (ds : list Detection) (t : string)
  : option Detection :=
  match ds with
  | [] => None
  | d :: rest => if records a2d n2d t d then Some d else first_match a2d n2d rest t
  end.

(** [found] holds, for every name, the first detection of [pre] matched to
    it. *)
Definition agrees (a2d n2d : gmap string string) (found : Found) (pre : list Detection)
  : Prop :=
  forall t, assoc_get t found = first_match a2d n2d pre t.

(** Every target is matched by some detection of [ds]. *)
Definition complete (a2d n2d : gmap string string) (targets : list string)
    (ds : list Detection) : bool :=
  forallb (fun t => match first_match a2d n2d ds t with Some _ => true | None => false end)
    targets.

(** The detections that arrive before the timeout. *)
Fixpoint in_time (timeout : Z) (detections : list (Z * Detection)) : list (Z * Detection) :=
  match detections with
  | [] => []
  | (t, d) :: rest => if timeout <=? t then [] else (t, d) :: in_time timeout rest
  end.

(** The first [k] detections heard before the timeout. *)
Definition heard (timeout : Z) (detections : list (Z * Detection)) (k : nat)
  : list Detection :=
  List.map snd (take k (in_time timeout detections)).

(** The scan stops at the first moment every target has been matched. *)
Definition stops_when_all_matched (a2d n2d : gmap string string) (targets : list string)
    (timeout : Z) (detections : list (Z * Detection)) (r : ScanResult) : Prop :=
  forall k,
    (k <= length (in_time timeout detections))%nat ->
    complete a2d n2d targets (heard timeout detections k) = true ->
    (forall j, (j < k)%nat -> complete a2d n2d targets (heard timeout detections j) = false) ->
    callbacks_run r = k.

(** *** Session start *)

(** What the device library does during one [start]: the device object
    after [async_get_info] and whether that call raised; whether the
    private [_api] and [_store] exist; the forced state read and whether
    it raised; whether [store.patch] reported a change. *)
Record StartOutcome : Type := {
  info_device : SnoozDevice;
  info_raises : option exn;
  has_api_store : bool;
  read_raises : option exn;
  read_state : SnoozDeviceState;
  patched : bool;
}.

(** [refresh_state] at time [now]; [None] means it returned. *)
Definition refresh_state (now : Z) (o : StartOutcome) (self : BleSnooz)
  : BleSnooz * option exn :=
  match _device self with
  | None => (self, None)
  | Some d =>
      if negb (is_connected d) then (self, None)
      else if negb (has_api_store o) then (self, None)
      else
        match read_raises o with
        | Some e => (self, Some e)
        | None =>
            if patched o then
              (fst (_on_state_change now (store_state (read_state o) self)), None)
            else (self, None)
        end
  end.

(** [BleSnooz.start] at time [now]; the exception, if any, is re-raised to
    the caller after it is logged. *)
Definition start (now : Z) (o : StartOutcome) (self : BleSnooz) : BleSnooz * option exn :=
  match _device self with
  | None =>
      (self, Some (RuntimeError ("[" ++ device_name self ++ "] Device not discovered/bound yet")))
  | Some _ =>
      let self1 := with_device (Some (info_device o)) self in
      match info_raises o with
      | Some e => (self1, Some e)
      | None => refresh_state now o self1
      end
  end.

(** *** Initial discovery and the rescan loop *)

Section ManagerPy.
Context `{PySnooz}.

(** The loop over [found.items()]. With [guard] the session is bound only
    if it is not ready at that moment (the rescan loop); an exception of
    [start] is logged and the loop goes on. The result is the manager as
    the loop leaves it, and the exception that ended the loop early. *)
Fixpoint bind_found (guard : bool) (now : Z) (starts : string -> StartOutcome)
    (found : Found) (self : SnoozManager) : SnoozManager * option exn :=
  match found with
  | [] => (self, None)
  | (devname, (ble_dev, adv)) :: rest =>
      match _devices self !! devname with
      | None => (self, Some (KeyError devname))
      | Some dev =>
          if guard && is_ready dev then bind_found guard now starts rest self
          else
            let '(dev1, bound) := bind_discovery dev ble_dev adv in
            if bound then
              let '(dev2, _) := start now (starts devname) dev1 in
              bind_found guard now starts rest (set_device devname dev2 self)
            else bind_found guard now starts rest (set_device devname dev1 self)
      end
  end.

Definition INITIAL_SCAN_TIMEOUT_MS : Z := 12000.
Definition RESCAN_TIMEOUT_MS : Z := 8000.

Definition _initial_discovery_and_connect (now : Z)
    (detections : list (Z * Detection)) (starts : string -> StartOutcome)
    (self : SnoozManager) : SnoozManager * option exn :=
  let target_names := _names self in
  match _scan_for_targets self target_names INITIAL_SCAN_TIMEOUT_MS detections with
  | inl e => (self, Some e)
  | inr r => bind_found false (now + stopped_at r) starts (found_devices r) self
  end.

(** [{name for name, dev in self._devices.items() if not dev.is_ready()}],
    iterated in registration order. *)
Definition missing_names (self : SnoozManager) : list string :=
  List.filter
    (fun name =>
       match _devices self !! name with
       | Some dev => negb (is_ready dev)
       | None => false
       end)
    (_names self).

(** What one pass of the rescan loop meets after its sleep: the time, the
    detections of its scan and the outcomes of the starts. *)
Record Tick : Type := {
  tick_time : Z;
  tick_detections : list (Z * Detection);
  tick_starts : string -> StartOutcome;
}.

(** One pass of the body of [_rescan_loop], after the sleep. An exception
    is logged by the loop, which then goes on with the manager as it is. *)
Definition rescan_tick (tk : Tick) (self : SnoozManager) : SnoozManager :=
  match missing_names self with
  | [] => self
  | missing =>
      match _scan_for_targets self missing RESCAN_TIMEOUT_MS (tick_detections tk) with
      | inl _ => self
      | inr r =>
          fst (bind_found true (tick_time tk + stopped_at r) (tick_starts tk)
                 (found_devices r) self)
      end
  end.

(** The names a pass scans for ([None]: the pass skips the scan). *)
Definition rescan_targets (self : SnoozManager) : option (list string) :=
  match missing_names self with
  | [] => None
  | missing => Some missing
  end.

Fixpoint _rescan_loop (ticks : list Tick) (self : SnoozManager) : SnoozManager :=
  match ticks with
  | [] => self
  | tk :: rest => if _running self then _rescan_loop rest (rescan_tick tk self) else self
  end.

End ManagerPy.

(** *** Coroutines *)

Inductive SnoozCommandResultStatus : Type :=
| SUCCESSFUL
| OtherStatus (name : string).

Definition status_name (s : SnoozCommandResultStatus) : string :=
  match s with SUCCESSFUL => "SUCCESSFUL" | OtherStatus n => n end.

(** [duration] is in seconds; [response] is already JSON-like. *)
Record SnoozCommandResult : Type := {
  status : SnoozCommandResultStatus;
  duration : option Q;
  response : json;
}.

(** The command objects of pysnooz this layer builds. [turn_on] receives
    the [volume] of the message as it is; [turn_off] receives a timedelta
    (see [timedelta]) or [None]. *)
Inductive SnoozCommandData : Type :=
| turn_on (vol : json)
| turn_off (dur : option Q)
| set_volume (vol : Z)
| turn_light_on
| turn_light_off
| set_light_brightness (brightness : Z).

(** A coroutine of this layer, as the tree of what it awaits.
    - [SemAcquire], [SemRelease]: entering and leaving
      [async with self._ble_op_sem].
    - [ReadSession]: a read of the shared session object at that moment.
    - [ExecuteCommand]: [dev._device.async_execute_command(c)], the radio
      transaction; it returns a result or raises.
    - [Now]: [time.time()].
    - [Send]: [_safe_send], which swallows a failed send. *)
Inductive Task (A : Type) : Type :=
| Ret (a : A)
| Raise (e : exn)
| SemAcquire (k : Task A)
| SemRelease (k : Task A)
| ReadSession (name : string) (k : option BleSnooz -> Task A)
| ExecuteCommand (name : string) (c : SnoozCommandData)
    (k : exn + SnoozCommandResult -> Task A)
| Now (k : Q -> Task A)
| Send (payload : json) (k : Task A).

Arguments Ret {A} a.
Arguments Raise {A} e.
Arguments SemAcquire {A} k.
Arguments SemRelease {A} k.
Arguments ReadSession {A} name k.
Arguments ExecuteCommand {A} name c k.
Arguments Now {A} k.
Arguments Send {A} payload k.

Fixpoint bind {A B : Type} (t : Task A) (f : A -> Task B) : Task B :=
  match t with
  | Ret a => f a
  | Raise e => Raise e
  | SemAcquire k => SemAcquire (bind k f)
  | SemRelease k => SemRelease (bind k f)
  | ReadSession n k => ReadSession n (fun x => bind (k x) f)
  | ExecuteCommand n c k => ExecuteCommand n c (fun x => bind (k x) f)
  | Now k => Now (fun x => bind (k x) f)
  | Send p k => Send p (bind k f)
  end.

(** [try: t except Exception as exc: h exc]. *)
Fixpoint try_except {A : Type} (t : Task A) (h : exn -> Task A) : Task A :=
  match t with
  | Ret a => Ret a
  | Raise e => h e
  | SemAcquire k => SemAcquire (try_except k h)
  | SemRelease k => SemRelease (try_except k h)
  | ReadSession n k => ReadSession n (fun x => try_except (k x) h)
  | ExecuteCommand n c k => ExecuteCommand n c (fun x => try_except (k x) h)
  | Now k => Now (fun x => try_except (k x) h)
  | Send p k => Send p (try_except k h)
  end.

(** The exit of [async with self._ble_op_sem]: the gate is released when
    the body returns and when it raises. *)
Fixpoint sem_exit {A : Type} (t : Task A) : Task A :=
  match t with
  | Ret a => SemRelease (Ret a)
  | Raise e => SemRelease (Raise e)
  | SemAcquire k => SemAcquire (sem_exit k)
  | SemRelease k => SemRelease (sem_exit k)
  | ReadSession n k => ReadSession n (fun x => sem_exit (k x))
  | ExecuteCommand n c k => ExecuteCommand n c (fun x => sem_exit (k x))
  | Now k => Now (fun x => sem_exit (k x))
  | Send p k => Send p (sem_exit k)
  end.

Definition _with_ble_lock {A : Type} (device_name op_name : string)
    (coro_factory : Task A) : Task A :=
  SemAcquire (sem_exit coro_factory).

(** *** Commands *)

Section Commands.
Context `{PyBuiltins}.

(** [get_device]; the gateway passes the [device_name] of the message as it
    is. A list or a dict is not hashable. *)
Definition get_device (self : SnoozManager) (device_name : json) : exn + (string * BleSnooz) :=
  match device_name with
  | JStr s =>
      match _devices self !! s with
      | Some dev => inr (s, dev)
      | None => inl (KeyError ("Unknown device_name: " ++ s))
      end
  | JArr _ | JObj _ => inl (TypeError ("unhashable type: '" ++ type_name device_name ++ "'"))
  | _ => inl (KeyError ("Unknown device_name: " ++ py_format device_name))
  end.

Definition cmd_get_state (self : SnoozManager) (device_name : json) : Task json :=
  match get_device self device_name with
  | inl e => Raise e
  | inr (_, dev) => Ret (snapshot dev)
  end.

(** The body shared by every [_do]: the assertion on the session as it is
    when the gate has been acquired, then the radio transaction. *)
Definition execute_on (name : string) (c : SnoozCommandData) : Task SnoozCommandResult :=
  ReadSession name (fun cur =>
    match cur with
    | Some dev =>
        match _device dev with
        | Some _ =>
            ExecuteCommand name c (fun r =>
              match r with inl e => Raise e | inr res => Ret res end)
        | None => Raise AssertionError
        end
    | None => Raise AssertionError
    end).

Definition cmd_noise_on (self : SnoozManager) (device_name : json) (vol : json)
  : Task SnoozCommandResult :=
  match get_device self device_name with
  | inl e => Raise e
  | inr (name, dev) =>
      if negb (is_ready dev) then Raise (RuntimeError "device_unavailable")
      else _with_ble_lock name "noise_on" (execute_on name (turn_on vol))
  end.

(** [_sec_to_timedelta]: [float(seconds)], then the timedelta. *)
Definition _sec_to_timedelta (seconds : json) : exn + option Q :=
  match seconds with
  | JNull => inr None
  | _ =>
      match py_float seconds with
      | inl e => inl e
      | inr x =>
          match timedelta x with
          | inl e => inl e
          | inr d => inr (Some d)
          end
      end
  end.

(** [_sec_to_timedelta] is reached inside [_do], with the gate held. *)
Definition cmd_noise_off (self : SnoozManager) (device_name : json) (duration_s : json)
  : Task SnoozCommandResult :=
  match get_device self device_name with
  | inl e => Raise e
  | inr (name, dev) =>
      if negb (is_ready dev) then Raise (RuntimeError "device_unavailable")
      else
        _with_ble_lock name "noise_off"
          match duration_s with
          | JNull => execute_on name (turn_off None)
          | _ =>
              ReadSession name (fun cur =>
                match cur with
                | Some dev' =>
                    match _device dev' with
                    | Some _ =>
                        match _sec_to_timedelta duration_s with
                        | inl e => Raise e
                        | inr dur =>
                            ExecuteCommand name (turn_off dur) (fun r =>
                              match r with inl e => Raise e | inr res => Ret res end)
                        end
                    | None => Raise AssertionError
                    end
                | None => Raise AssertionError
                end)
          end
  end.

Definition cmd_set_volume (self : SnoozManager) (device_name : json) (vol : Z)
  : Task SnoozCommandResult :=
  match get_device self device_name with
  | inl e => Raise e
  | inr (name, dev) =>
      if negb (is_ready dev) then Raise (RuntimeError "device_unavailable")
      else if negb ((0 <=? vol) && (vol <=? 100)) then Raise (ValueError "volume must be 0..100")
      else _with_ble_lock name "set_volume" (execute_on name (set_volume vol))
  end.

Definition cmd_light_on (self : SnoozManager) (device_name : json) : Task SnoozCommandResult :=
  match get_device self device_name with
  | inl e => Raise e
  | inr (name, dev) =>
      if negb (is_ready dev) then Raise (RuntimeError "device_unavailable")
      else _with_ble_lock name "light_on" (execute_on name turn_light_on)
  end.

Definition cmd_light_off (self : SnoozManager) (device_name : json) : Task SnoozCommandResult :=
  match get_device self device_name with
  | inl e => Raise e
  | inr (name, dev) =>
      if negb (is_ready dev) then Raise (RuntimeError "device_unavailable")
      else _with_ble_lock name "light_off" (execute_on name turn_light_off)
  end.

Definition cmd_set_light_brightness (self : SnoozManager) (device_name : json)
    (brightness : Z) : Task SnoozCommandResult :=
  match get_device self device_name with
  | inl e => Raise e
  | inr (name, dev) =>
      if negb (is_ready dev) then Raise (RuntimeError "device_unavailable")
      else if negb ((0 <=? brightness) && (brightness <=? 100)) then
        Raise (ValueError "brightness must be 0..100")
      else
        _with_ble_lock name "set_light_brightness"
          (execute_on name (set_light_brightness brightness))
  end.

(** The six commands that reach the radio, with their arguments. *)
Inductive DeviceCommand : Type :=
| NoiseOn (device_name : json) (vol : json)
| NoiseOff (device_name : json) (duration_s : json)
| SetVolume (device_name : json) (vol : Z)
| LightOn (device_name : json)
| LightOff (device_name : json)
| SetLightBrightness (device_name : json) (brightness : Z).

Definition run_command (self : SnoozManager) (c : DeviceCommand) : Task SnoozCommandResult :=
  match c with
  | NoiseOn n v => cmd_noise_on self n v
  | NoiseOff n d => cmd_noise_off self n d
  | SetVolume n v => cmd_set_volume self n v
  | LightOn n => cmd_light_on self n
  | LightOff n => cmd_light_off self n
  | SetLightBrightness n b => cmd_set_light_brightness self n b
  end.

Definition result_to_dict (result : SnoozCommandResult) : json :=
  JObj [("status", JStr (status_name (status result)));
        ("duration_s", opt_json JFloat (duration result));
        ("response", response result)].

Definition ensure_success (result : SnoozCommandResult) : Task unit :=
  match status result with
  | SUCCESSFUL => Ret tt
  | s => Raise (RuntimeError ("command_failed: " ++ status_name s))
  end.

End Commands.

(** ** ws_server.py *)

Section Gateway.
Context `{PyBuiltins}.

Definition ok_response (request_id : json) (data : json) : json :=
  JObj [("type", JStr "response"); ("request_id", request_id);
        ("status", JStr "ok"); ("data", data)].

Definition error_response (request_id : json) (error : string) : json :=
  JObj [("type", JStr "response"); ("request_id", request_id);
        ("status", JStr "error"); ("error", JStr error)].

Definition _send_ok (request_id : json) (data : json) : Task unit :=
  Send (ok_response request_id data) (Ret tt).

Definition _send_error (request_id : json) (error : string) : Task unit :=
  Send (error_response request_id error) (Ret tt).

Definition DEVICE_COMMAND_NAMES : list string :=
  ["get_state"; "noise_on"; "noise_off"; "set_volume"; "light_on"; "light_off";
   "set_light_brightness"].

(** Every command name [_handle_message] compares with. *)
Definition KNOWN_COMMAND_NAMES : list string :=
  "heartbeat" :: "list_devices" :: DEVICE_COMMAND_NAMES.

(** [command in (...)]. *)
Definition command_in (command : json) (names : list string) : bool :=
  existsb (is_str command) names.

(** [str(x)] inside an f-string. *)
Definition py_str (j : json) : string :=
  match j with JStr s => s | _ => py_format j end.

(** The tail shared by the action commands: [ensure_success], then the ok
    response. *)
Definition reply_result (request_id : json) (t : Task SnoozCommandResult) : Task unit :=
  bind t (fun result =>
    bind (ensure_success result) (fun _ =>
      _send_ok request_id (result_to_dict result))).

(** The body of the [try] of [_handle_message]. *)
Definition dispatch (self : SnoozManager) (msg : list (string * json))
    (request_id command device_name : json) : Task unit :=
  if is_str command "heartbeat" then
    Now (fun t => _send_ok request_id (JObj [("server_time", JFloat t)]))
  else if is_str command "list_devices" then
    _send_ok request_id (JObj [("devices", JArr (List.map JStr (get_device_names self)))])
  else if command_in command DEVICE_COMMAND_NAMES && negb (truthy device_name) then
    Raise (ValueError "device_name is required")
  else if is_str command "get_state" then
    bind (cmd_get_state self device_name) (fun snap => _send_ok request_id snap)
  else if is_str command "noise_on" then
    reply_result request_id (cmd_noise_on self device_name (dict_get "volume" msg))
  else if is_str command "noise_off" then
    reply_result request_id (cmd_noise_off self device_name (dict_get "duration_s" msg))
  else if is_str command "set_volume" then
    match assoc_get "volume" msg with
    | None => Raise (KeyError "volume")
    | Some v =>
        match py_int v with
        | inl e => Raise e
        | inr vol => reply_result request_id (cmd_set_volume self device_name vol)
        end
    end
  else if is_str command "light_on" then
    reply_result request_id (cmd_light_on self device_name)
  else if is_str command "light_off" then
    reply_result request_id (cmd_light_off self device_name)
  else if is_str command "set_light_brightness" then
    match assoc_get "brightness" msg with
    | None => Raise (KeyError "brightness")
    | Some v =>
        match py_int v with
        | inl e => Raise e
        | inr b => reply_result request_id (cmd_set_light_brightness self device_name b)
        end
    end
  else Raise (ValueError ("unknown_command: " ++ py_str command)).

(** [_handle_message]. A decoded value that is not an object has no [get]:
    the [AttributeError] is raised outside the [try]. *)
Definition _handle_message (self : SnoozManager) (raw : string) : Task unit :=
  match json_loads raw with
  | None => _send_error JNull "invalid_json"
  | Some (JObj msg) =>
      let msg_type := dict_get "type" msg in
      let request_id := dict_get "request_id" msg in
      if negb (is_str msg_type "command") then
        _send_error request_id "type_must_be_command"
      else
        let command := dict_get "command" msg in
        let device_name := dict_get "device_name" msg in
        try_except (dispatch self msg request_id command device_name)
          (fun exc => _send_error request_id (exn_str exc))
  | Some v =>
      Raise (AttributeError ("'" ++ type_name v ++ "' object has no attribute 'get'"))
  end.

End Gateway.

(** ** Running coroutines *)

(** What a coroutine meets while it runs alone: the outcome of each radio
    transaction, the wall clock, and the registry as [ReadSession] finds
    it. *)
Record World : Type := {
  exec_outcome : string -> SnoozCommandData -> exn + SnoozCommandResult;
  wall_clock : Q;
  sessions : SnoozManager;
}.

Inductive Event : Type :=
| EvAcquire
| EvRelease
| EvExecute (name : string) (c : SnoozCommandData)
| EvSend (payload : json).

Inductive Outcome (A : Type) : Type :=
| Returned (a : A)
| Raised (e : exn)
| Blocked.

Arguments Returned {A} a.
Arguments Raised {A} e.
Arguments Blocked {A}.

(** One coroutine run to its end with [sem] permits in the gate: what it
    did, the permits left, and how it ended. Acquiring with no permit and
    nobody to release blocks. *)
Fixpoint run {A : Type} (w : World) (sem : nat) (t : Task A)
  : list Event * nat * Outcome A :=
  match t with
  | Ret a => ([], sem, Returned a)
  | Raise e => ([], sem, Raised e)
  | SemAcquire k =>
      match sem with
      | O => ([], sem, Blocked)
      | S n => let '(evs, sem', o) := run w n k in (EvAcquire :: evs, sem', o)
      end
  | SemRelease k =>
      let '(evs, sem', o) := run w (S sem) k in (EvRelease :: evs, sem', o)
  | ReadSession name k => run w sem (k (_devices (sessions w) !! name))
  | ExecuteCommand name c k =>
      let '(evs, sem', o) := run w sem (k (exec_outcome w name c)) in
      (EvExecute name c :: evs, sem', o)
  | Now k => run w sem (k (wall_clock w))
  | Send p k => let '(evs, sem', o) := run w sem k in (EvSend p :: evs, sem', o)
  end.

Definition events_of {A : Type} (r : list Event * nat * Outcome A) : list Event :=
  fst (fst r).
Definition permits_of {A : Type} (r : list Event * nat * Outcome A) : nat :=
  snd (fst r).
Definition outcome_of {A : Type} (r : list Event * nat * Outcome A) : Outcome A :=
  snd r.

(** How the message loop of one connection ends: the peer closed the
    socket ([async for] is exhausted), an exception left
    [_handle_message] (the handler returns and the connection is closed),
    or a message is still waiting for the gate. *)
Inductive ConnectionEnd : Type :=
| PeerClosed
| HandlerError (e : exn)
| Waiting.

Section Handler.
Context `{PyBuiltins}.

(** [_handler]: the frames of one connection, in order. *)
Fixpoint _handler (w : World) (self : SnoozManager) (sem : nat) (frames : list string)
  : list Event * ConnectionEnd :=
  match frames with
  | [] => ([], PeerClosed)
  | raw :: rest =>
      let '(evs, sem', o) := run w sem (_handle_message self raw) in
      match o with
      | Returned _ =>
          let '(evs', e) := _handler w self sem' rest in ((evs ++ evs')%list, e)
      | Raised e => (evs, HandlerError e)
      | Blocked => (evs, Waiting)
      end
  end.

End Handler.

(** ** Interleaved commands *)

(** A command in flight: its remaining coroutine, or the radio transaction
    it is in the middle of. [held] says whether it is inside
    [async with self._ble_op_sem]. *)
Inductive Thread : Type :=
| Running (held : bool) (t : Task SnoozCommandResult)
| InRadio (held : bool) (name : string) (c : SnoozCommandData)
    (k : exn + SnoozCommandResult -> Task SnoozCommandResult).

(** The service while commands are in flight: the permits of
    [_ble_op_sem], the commands, and the registry. *)
Record System : Type := {
  sem_value : nat;
  threads : list Thread;
  manager : SnoozManager;
}.

(** [asyncio.Semaphore(1)], no command yet. *)
Definition system_init (m : SnoozManager) : System :=
  {| sem_value := 1; threads := []; manager := m |}.

Definition set_thread (i : nat) (th : Thread) (s : System) : System :=
  {| sem_value := sem_value s; threads := <[i := th]> (threads s); manager := manager s |}.

Definition set_sem (n : nat) (s : System) : System :=
  {| sem_value := n; threads := threads s; manager := manager s |}.

Section Interleaving.
Context `{PyBuiltins}.

(** One step of the event loop. A waiter may enter the gate only when a
    permit is left; which waiter enters is not fixed here. *)
Inductive step : System -> System -> Prop :=
| step_submit s c :
    step s {| sem_value := sem_value s;
              threads := threads s ++ [Running false (run_command (manager s) c)];
              manager := manager s |}
| step_registry s m :
    step s {| sem_value := sem_value s; threads := threads s; manager := m |}
| step_acquire s i h k n :
    threads s !! i = Some (Running h (SemAcquire k)) ->
    sem_value s = S n ->
    step s (set_sem n (set_thread i (Running true k) s))
| step_release s i h k :
    threads s !! i = Some (Running h (SemRelease k)) ->
    step s (set_sem (S (sem_value s)) (set_thread i (Running false k) s))
| step_read s i h name k :
    threads s !! i = Some (Running h (ReadSession name k)) ->
    step s (set_thread i (Running h (k (_devices (manager s) !! name))) s)
| step_radio_begin s i h name c k :
    threads s !! i = Some (Running h (ExecuteCommand name c k)) ->
    step s (set_thread i (InRadio h name c k) s)
| step_radio_end s i h name c k r :
    threads s !! i = Some (InRadio h name c k) ->
    step s (set_thread i (Running h (k r)) s)
| step_now s i h k t :
    threads s !! i = Some (Running h (Now k)) ->
    step s (set_thread i (Running h (k t)) s)
| step_send s i h p k :
    threads s !! i = Some (Running h (Send p k)) ->
    step s (set_thread i (Running h k) s).

Inductive reachable (m : SnoozManager) : System -> Prop :=
| reach_init : reachable m (system_init m)
| reach_step s s' : reachable m s -> step s s' -> reachable m s'.

End Interleaving.

Definition in_radio (th : Thread) : bool :=
  match th with InRadio _ _ _ _ => true | Running _ _ => false end.

Definition holds_gate (th : Thread) : bool :=
  match th with InRadio h _ _ _ => h | Running h _ => h end.

(** No two commands are inside a radio transaction at once. *)
Definition radio_exclusive (s : System) : Prop :=
  forall i j thi thj,
    threads s !! i = Some thi -> threads s !! j = Some thj ->
    in_radio thi = true -> in_radio thj = true -> i = j.

(** A command inside a radio transaction holds the gate. *)
Definition radio_under_gate (s : System) : Prop :=
  forall i th, threads s !! i = Some th -> in_radio th = true -> holds_gate th = true.

(** A command whose coroutine has returned or raised. *)
Definition completed (th : Thread) : bool :=
  match th with
  | Running _ (Ret _) | Running _ (Raise _) => true
  | _ => false
  end.

(** What a command run alone may do to the gate and the radio: nothing, or
    one acquisition, at most one transaction, and one release, in that
    order. *)
Definition bracketed (evs : list Event) : Prop :=
  evs = [] \/ evs = [EvAcquire; EvRelease]
  \/ exists name c, evs = [EvAcquire; EvExecute name c; EvRelease].

(** The number of commands inside the gate. *)
Definition holders (ths : list Thread) : nat :=
  length (List.filter holds_gate ths).

(** The discipline a coroutine follows towards the gate, read off its
    tree: [gate_ok h t] says that [t], started with the gate held iff [h],
    transacts only inside the gate, releases only what it acquired, ends
    outside, and sends nothing (a command leaves the answer to the
    gateway). *)
Inductive gate_ok {A : Type} : bool -> Task A -> Prop :=
| ok_ret a : gate_ok false (Ret a)
| ok_raise e : gate_ok false (Raise e)
| ok_acquire k : gate_ok true k -> gate_ok false (SemAcquire k)
| ok_release k : gate_ok false k -> gate_ok true (SemRelease k)
| ok_read h name k : (forall x, gate_ok h (k x)) -> gate_ok h (ReadSession name k)
| ok_execute name c k : (forall r, gate_ok true (k r)) -> gate_ok true (ExecuteCommand name c k)
| ok_now h k : (forall x, gate_ok h (k x)) -> gate_ok h (Now k).

(** A body that does not touch the gate itself. *)
Inductive gate_free {A : Type} : Task A -> Prop :=
| free_ret a : gate_free (Ret a)
| free_raise e : gate_free (Raise e)
| free_read name k : (forall x, gate_free (k x)) -> gate_free (ReadSession name k)
| free_execute name c k : (forall r, gate_free (k r)) -> gate_free (ExecuteCommand name c k)
| free_now k : (forall x, gate_free (k x)) -> gate_free (Now k).

Definition thread_ok (th : Thread) : Prop :=
  match th with
  | Running h t => gate_ok h t
  | InRadio h _ _ k => h = true /\ forall r, gate_ok true (k r)
  end.

(** The invariant of the interleaving. *)
Definition gate_invariant (s : System) : Prop :=
  Forall thread_ok (threads s) /\ (sem_value s + holders (threads s) = 1)%nat.

(** A response that answers the request [request_id]: an ok response or an
    error response carrying that id. *)
Definition correlated (request_id : json) (payload : json) : Prop :=
  (exists data, payload = ok_response request_id data)
  \/ (exists error, payload = error_response request_id error).

(** The payloads sent, in order. *)
Fixpoint sent (evs : list Event) : list json :=
  match evs with
  | [] => []
  | EvSend p :: rest => p :: sent rest
  | _ :: rest => sent rest
  end.

(** A coroutine that answers exactly once on every path, with a payload in
    [P], follows the gate discipline, and returns. *)
Inductive answers_once (P : json -> Prop) : bool -> Task unit -> Prop :=
| ans_send p : P p -> answers_once P false (Send p (Ret tt))
| ans_acquire k : answers_once P true k -> answers_once P false (SemAcquire k)
| ans_release k : answers_once P false k -> answers_once P true (SemRelease k)
| ans_read h name k :
    (forall x, answers_once P h (k x)) -> answers_once P h (ReadSession name k)
| ans_execute name c k :
    (forall r, answers_once P true (k r)) -> answers_once P true (ExecuteCommand name c k)
| ans_now h k : (forall x, answers_once P h (k x)) -> answers_once P h (Now k).

(** ** Sample data for the examples

    The values of the imported constants are placeholders: every property
    below holds for all of them. [sample_loads] decodes the frames the
    examples send. *)

Definition sample_get_state_frame : string :=
  "{'type':'command','request_id':'x1','command':'get_state','device_name':'bedroom'}".

Definition sample_get_state_msg : list (string * json) :=
  [("type", JStr "command"); ("request_id", JStr "x1");
   ("command", JStr "get_state"); ("device_name", JStr "bedroom")].

Definition sample_set_volume_frame : string :=
  "{'type':'command','request_id':'x2','command':'set_volume','device_name':'bedroom','volume':150}".

Definition sample_set_volume_msg : list (string * json) :=
  [("type", JStr "command"); ("request_id", JStr "x2");
   ("command", JStr "set_volume"); ("device_name", JStr "bedroom");
   ("volume", JInt 150)].

Definition sample_noise_on_frame : string :=
  "{'type':'command','request_id':'x3','command':'noise_on','device_name':'bedroom','volume':150}".

Definition sample_noise_on_msg : list (string * json) :=
  [("type", JStr "command"); ("request_id", JStr "x3");
   ("command", JStr "noise_on"); ("device_name", JStr "bedroom");
   ("volume", JInt 150)].

Definition sample_loads (raw : string) : option json :=
  if String.eqb raw sample_get_state_frame then Some (JObj sample_get_state_msg)
  else if String.eqb raw sample_set_volume_frame then Some (JObj sample_set_volume_msg)
  else if String.eqb raw sample_noise_on_frame then Some (JObj sample_noise_on_msg)
  else if String.eqb raw "[]" then Some (JArr [])
  else None.

Definition sample_py : PyBuiltins :=
  {| py_repr := fun s => "'" ++ s ++ "'";
     py_format := fun j => match j with
                           | JNull => "None"
                           | JBool true => "True"
                           | JBool false => "False"
                           | _ => "?"
                           end;
     int_of_str := fun _ => None;
     float_of_str := fun _ => None;
     json_loads := sample_loads |}.

Definition sample_pysnooz : PySnooz :=
  {| FIRMWARE_PAIRING_FLAGS := 1;
     FIRMWARE_VERSION_BY_FLAGS := fun flags => if flags =? 12 then Some V6 else None;
     SNOOZ_ADVERTISEMENT_LENGTH := 3;
     get_device_display_name := fun name addr => name;
     new_SnoozDevice := fun _ _ =>
       {| is_connected := false; connection_status := "DISCONNECTED"; state := None |} |}.

Definition bedroom : BleSnooz :=
  BleSnooz_init "bedroom" "aa:bb:cc:dd:ee:ff" "0123456789ABCDEF" (Some "Snooz-1234").

Definition nursery : BleSnooz :=
  BleSnooz_init "nursery" "" "0011223344556677" (Some " Breez-77 ").

Definition sample_manager : SnoozManager :=
  {| _devices := <["nursery" := nursery]> (<["bedroom" := bedroom]> ∅);
     _names := ["bedroom"; "nursery"];
     _running := true |}.

Definition bedroom_ble : BLEDevice :=
  {| ble_address := "AA:BB:CC:DD:EE:FF"; ble_name := Some "Snooz-1234" |}.

Definition snooz_adv_payload : AdvertisementData :=
  {| local_name := Some "Snooz-1234"; manufacturer_data := [(65535, [12; 0; 0])] |}.

(** An advertisement from another address that carries the name configured
    for [bedroom]. *)
Definition stranger_ble : BLEDevice :=
  {| ble_address := "11:22:33:44:55:66"; ble_name := None |}.

Definition stranger_adv : AdvertisementData :=
  {| local_name := Some " snooz-1234"; manufacturer_data := [(65535, [12; 0; 0])] |}.

Definition bedroom_bound : BleSnooz :=
  fst (@bind_discovery sample_pysnooz bedroom bedroom_ble snooz_adv_payload).

Definition sample_bound_manager : SnoozManager :=
  set_device "bedroom" bedroom_bound sample_manager.

Definition sample_result : SnoozCommandResult :=
  {| status := SUCCESSFUL; duration := Some (1 # 2)%Q; response := JNull |}.

Definition sample_world : World :=
  {| exec_outcome := fun _ _ => inr sample_result;
     wall_clock := 0%Q;
     sessions := sample_bound_manager |}.

(** A reachable state of the interleaving: [set_volume] on [bedroom] is
    inside its radio transaction while [light_on] waits at the gate. *)
Definition sample_after_radio (r : exn + SnoozCommandResult) : Task SnoozCommandResult :=
  sem_exit (match r with inl e => Raise e | inr res => Ret res end).

Definition sample_system : System :=
  {| sem_value := 0;
     threads := [InRadio true "bedroom" (set_volume 40) sample_after_radio;
                 Running false (@run_command sample_py sample_bound_manager
                                  (LightOn (JStr "bedroom")))];
     manager := sample_bound_manager |}.

(** Three states of a burst on [bedroom]. *)
Definition state_quiet : SnoozDeviceState :=
  {| on := Some true; volume := Some 10; light_on := Some false;
     light_brightness := Some 0; night_mode_enabled := Some false |}.

Definition state_louder : SnoozDeviceState :=
  {| on := Some true; volume := Some 35; light_on := Some false;
     light_brightness := Some 0; night_mode_enabled := Some false |}.

Definition state_loud : SnoozDeviceState :=
  {| on := Some true; volume := Some 60; light_on := Some true;
     light_brightness := Some 80; night_mode_enabled := Some false |}.

Definition sample_loop : SessionLoop := loop_init 1000 bedroom_bound.

Definition sample_burst_rest : list (Z * SnoozDeviceState) :=
  [(100, state_louder); (249, state_loud)].

Definition nursery_ble : BLEDevice :=
  {| ble_address := "77:66:55:44:33:22"; ble_name := Some "BREEZ-77" |}.

Definition nursery_adv : AdvertisementData :=
  {| local_name := None; manufacturer_data := [(76, [12; 1; 2])] |}.

(** What a scan hears: [bedroom] by address, a stranger by the name of
    [bedroom], [nursery] by name, and [bedroom] again. *)
Definition sample_detections : list (Z * Detection) :=
  [(100, (bedroom_ble, snooz_adv_payload));
   (200, (stranger_ble, stranger_adv));
   (300, (nursery_ble, nursery_adv));
   (400, (bedroom_ble, snooz_adv_payload))].

(** A pass of the rescan loop that hears [sample_detections] and whose
    starts all fail while connecting. *)
Definition failing_start : StartOutcome :=
  {| info_device := {| is_connected := false; connection_status := "DISCONNECTED";
                       state := None |};
     info_raises := Some (LibraryError "connect failed");
     has_api_store := true;
     read_raises := None;
     read_state := state_quiet;
     patched := false |}.

Definition sample_tick : Tick :=
  {| tick_time := 30000;
     tick_detections := sample_detections;
     tick_starts := fun _ => failing_start |}.

(** * The rest of the service, and the tools *)

(** ** ws_server.py: the handshake *)

Fixpoint str_drop (n : nat) (s : string) : string :=
  match n, s with
  | O, _ => s
  | S n', String _ r => str_drop n' r
  | S _, EmptyString => EmptyString
  end.

(** [s.removeprefix(p)]. *)
Definition removeprefix (p s : string) : string :=
  if startswith p s then str_drop (String.length p) s else s.

Definition newline : string := String (ascii_of_nat 10) EmptyString.

(** What [process_request] returns to reject a handshake: status code,
    headers, body. *)
Definition Rejection : Type := Z * list (string * string) * string.

Definition UNAUTHORIZED : Z := 401.
Definition FORBIDDEN : Z := 403.

(** [_process_request]: [auth_token] is the configured token,
    [authorization] is [request.headers.get("Authorization")]; [None] lets
    the handshake go on. *)
Definition _process_request (auth_token : option string) (authorization : option string)
  : option Rejection :=
  if negb (str_truthy (or_empty auth_token)) then None
  else
    match authorization with
    | None =>
        Some (UNAUTHORIZED, [("WWW-Authenticate", "Bearer")],
              "Missing Authorization header" ++ newline)
    | Some auth_header =>
        if negb (str_truthy auth_header) || negb (startswith "Bearer " auth_header) then
          Some (UNAUTHORIZED, [("WWW-Authenticate", "Bearer")],
                "Missing Authorization header" ++ newline)
        else
          let token := strip (removeprefix "Bearer " auth_header) in
          if negb (String.eqb token (or_empty auth_token)) then
            Some (FORBIDDEN, [], "Invalid auth token" ++ newline)
          else None
    end.

(** ** tools/ble_service_client_cli.py: the header of the shell *)

(** [InteractiveShell.__init__]: the [Authorization] header the client
    sends, if any. *)
Definition shell_authorization (auth_token : option string) : option string :=
  match auth_token with
  | Some t => if str_truthy t then Some ("Bearer " ++ t) else None
  | None => None
  end.

(** ** config.py *)

(** ["".join(ch for ch in s if f ch)]. *)
Fixpoint str_filter (f : ascii -> bool) (s : string) : string :=
  match s with
  | EmptyString => EmptyString
  | String c r => if f c then String c (str_filter f r) else str_filter f r
  end.

(** [ch in s] for a string [ch] of one character. *)
Fixpoint char_in (ch : ascii) (s : string) : bool :=
  match s with
  | EmptyString => false
  | String c r => Ascii.eqb ch c || char_in ch r
  end.

(** The characters [_normalize_hex_password] keeps of [value]: the
    lower-case hexadecimal digits of its lower-cased text. *)
Definition hex_digits (value : string) : string :=
  str_filter (fun ch => char_in ch "0123456789abcdef") (lower value).

(** Every character of [s] satisfies [f]. *)
Fixpoint str_forall (f : ascii -> bool) (s : string) : bool :=
  match s with
  | EmptyString => true
  | String c r => f c && str_forall f r
  end.

(** Truth value of an optional string. *)
Definition opt_truthy (x : option string) : bool :=
  match x with Some s => str_truthy s | None => false end.

Module config.

Record SnoozDeviceConfig : Type := {
  device_name : string;
  password : string;
  address : option string;
  name : option string;
}.

Section Config.
Context `{PyBuiltins}.

Definition _normalize_hex_password (value : string) : exn + string :=
  let cleaned := str_filter (fun ch => char_in ch "0123456789abcdef") (lower (strip value)) in
  if negb (Nat.eqb (String.length cleaned) 16) then
    inl (ValueError ("Invalid Snooz password hex length: expected 16 hex chars, got "
                     ++ py_format (JInt (Z.of_nat (String.length cleaned)))))
  else inr cleaned.

(** The [SnoozDeviceConfig] built from one item of [service.devices], a
    mapping. Keyword arguments are evaluated in the order they are
    written. *)
Definition device_config (entry : list (string * json)) : exn + SnoozDeviceConfig :=
  match assoc_get "device_name" entry with
  | None => inl (KeyError "device_name")
  | Some dn =>
      let address :=
        if truthy (dict_get "address" entry)
        then Some (upper (py_str (dict_get "address" entry))) else None in
      let name :=
        if truthy (dict_get "name" entry)
        then Some (py_str (dict_get "name" entry)) else None in
      match assoc_get "password" entry with
      | None => inl (KeyError "password")
      | Some pw =>
          match _normalize_hex_password (py_str pw) with
          | inl e => inl e
          | inr p =>
              inr {| device_name := py_str dn; password := p;
                     address := address; name := name |}
          end
      end
  end.

(** The loop that fills [devices]. *)
Fixpoint device_configs (entries : list (list (string * json)))
  : exn + list SnoozDeviceConfig :=
  match entries with
  | [] => inr []
  | entry :: rest =>
      match device_config entry with
      | inl e => inl e
      | inr d =>
          match device_configs rest with
          | inl e => inl e
          | inr ds => inr (d :: ds)
          end
      end
  end.

End Config.

Record WebSocketConfig : Type := {
  host : json;
  port : Z;
  auth_token : json;
}.

Record ServiceConfig : Type := {
  websocket : WebSocketConfig;
  devices : list SnoozDeviceConfig;
}.

Section Load.
Context `{PyBuiltins}.

(** [load_config] on a decoded file of the documented shape:
    [service.websocket] is the mapping [ws_raw] (empty when absent) and
    [service.devices] the list [entries] of mappings (empty when absent). *)
Definition load_config (ws_raw : list (string * json))
    (entries : list (list (string * json))) : exn + ServiceConfig :=
  match py_int (match assoc_get "port" ws_raw with Some v => v | None => JInt 8765 end) with
  | inl e => inl e
  | inr port =>
      let websocket :=
        {| host := match assoc_get "host" ws_raw with Some v => v | None => JStr "0.0.0.0" end;
           port := port;
           auth_token := dict_get "auth_token" ws_raw |} in
      match device_configs entries with
      | inl e => inl e
      | inr [] => inl (ValueError "No devices configured (service.devices is empty)")
      | inr devices =>
          match List.find (fun d => negb (opt_truthy (address d)) && negb (opt_truthy (name d)))
                  devices with
          | Some d =>
              inl (ValueError ("Device '" ++ device_name d
                               ++ "' must specify either 'address' or 'name'"))
          | None =>
              let names := List.map device_name devices in
              if negb (Nat.eqb (length names) (length (remove_dups names))) then
                inl (ValueError "Duplicate device_name found in config")
              else inr {| websocket := websocket; devices := devices |}
          end
      end
  end.

End Load.

End config.

(** ** main.py *)

(** The session [main] creates for a configured device. *)
Definition new_session (dc : config.SnoozDeviceConfig) : BleSnooz :=
  BleSnooz_init (config.device_name dc)
    (or_empty (opt_or (config.address dc) (Some "")))
    (config.password dc) (config.name dc).

(** The loop of [main] that creates a session for every configured device
    and registers it. *)
Fixpoint register_devices (devices : list config.SnoozDeviceConfig) (manager : SnoozManager)
  : exn + SnoozManager :=
  match devices with
  | [] => inr manager
  | dc :: rest =>
      match add_device (new_session dc) manager with
      | inl e => inl e
      | inr manager' => register_devices rest manager'
      end
  end.

(** The registry as [add_device] builds it: the names in order without
    repetition, one session under each, and each session under its own
    name. *)
Definition registry_ok (self : SnoozManager) : Prop :=
  NoDup (_names self)
  /\ (forall n, In n (_names self) <-> is_Some (_devices self !! n))
  /\ (forall n dev, _devices self !! n = Some dev -> device_name dev = n).

Definition sample_entries : list (list (string * json)) :=
  [[("device_name", JStr "bedroom"); ("address", JStr "aa:bb:cc:dd:ee:ff");
    ("name", JStr "Snooz-1234"); ("password", JStr "01:23:45:67:89:AB:CD:EF")];
   [("device_name", JStr "nursery"); ("name", JStr " Breez-77 ");
    ("password", JStr "0011223344556677")]].

(** The names in [found] are distinct, not empty, and values of the lookup
    maps. *)
Definition keys_ok (a2d n2d : gmap string string) (found : Found) : Prop :=
  NoDup (List.map fst found)
  /\ forall n, In n (List.map fst found) ->
               n <> "" /\ exists k, a2d !! k = Some n \/ n2d !! k = Some n.

(** What identifies a session to its users: the name it is registered
    under, the advertised name it is matched by, and the password. *)
Definition same_identity (a b : BleSnooz) : Prop :=
  device_name a = device_name b
  /\ match_name a = match_name b
  /\ password_hex a = password_hex b.

(** ** ble_snooz.py: pairing mode *)

Section PairingMode.
Context `{PySnooz}.

(** Two payloads of the same length whose first bytes differ at most in
    the pairing flags. *)
Definition same_firmware (p p' : list Z) : Prop :=
  length p = length p'
  /\ match p, p' with
     | b :: _, b' :: _ =>
         Z.land b (Z.lnot FIRMWARE_PAIRING_FLAGS) = Z.land b' (Z.lnot FIRMWARE_PAIRING_FLAGS)
     | _, _ => True
     end.

(** Two advertisements with the same company ids in the same order and,
    under each, payloads alike in that sense. *)
Definition same_advertiser (adv adv' : AdvertisementData) : Prop :=
  Forall2 (fun kv kv' => fst kv = fst kv' /\ same_firmware (snd kv) (snd kv'))
    (manufacturer_data adv) (manufacturer_data adv').

(** The payload with the pairing flags set or cleared. *)
Definition set_pairing (on : bool) (p : list Z) : list Z :=
  match p with
  | [] => []
  | b :: rest =>
      (if on then Z.lor b FIRMWARE_PAIRING_FLAGS
       else Z.land b (Z.lnot FIRMWARE_PAIRING_FLAGS)) :: rest
  end.

End PairingMode.

(** ** tools/discover_snooz.py *)

(** One digit of [bytes.hex()]. *)
Definition hex_digit (n : Z) : ascii :=
  match String.get (Z.to_nat n) "0123456789abcdef" with
  | Some c => c
  | None => "0"%char
  end.

(** [payload.hex()]: two lower-case digits for every byte (0..255). *)
Fixpoint bytes_hex (p : list Z) : string :=
  match p with
  | [] => ""
  | b :: rest => String (hex_digit (b / 16)) (String (hex_digit (b mod 16)) (bytes_hex rest))
  end.

(** [d[k] = v] on a dict kept in insertion order: a key that is present
    keeps its place. *)
Fixpoint dict_set {A : Type} (k : string) (v : A) (kvs : list (string * A))
  : list (string * A) :=
  match kvs with
  | [] => [(k, v)]
  | (k', v') :: rest =>
      if String.eqb k k' then (k', v) :: rest else (k', v') :: dict_set k v rest
  end.

(** [bool(member)] for a member of an enumeration of pysnooz. *)
Class PyEnum : Type := {
  firmware_bool : SnoozFirmwareVersion -> bool;
}.

(** The payloads of an advertisement are [bytes]. *)
Definition bytes_ok (adv : AdvertisementData) : Prop :=
  Forall (fun kv => Forall (fun b => 0 <= b < 256) (snd kv)) (manufacturer_data adv).

Module discover_snooz.

Section Tool.
Context `{PySnooz} `{PyEnum}.

Definition parse_password_if_pairing (adv : AdvertisementData) : option string :=
  let mfg := manufacturer_data adv in
  let payload :=
    match mfg_get 65535 mfg with
    | Some p => Some p
    | None => match mfg with (_, p) :: _ => Some p | [] => None end
    end in
  match payload with
  | None | Some [] => None
  | Some ((flags :: rest) as p) =>
      if negb (Nat.eqb (length p) SNOOZ_ADVERTISEMENT_LENGTH) then None
      else
        let is_pairing := Z.land FIRMWARE_PAIRING_FLAGS flags =? FIRMWARE_PAIRING_FLAGS in
        if negb is_pairing then None
        else Some (bytes_hex rest)
  end.

Definition parse_fw (adv : AdvertisementData) : option string :=
  let mfg := manufacturer_data adv in
  let payload :=
    match mfg_get 65535 mfg with
    | Some p => Some p
    | None => match mfg with (_, p) :: _ => Some p | [] => None end
    end in
  match payload with
  | None | Some [] => None
  | Some ((b0 :: _) as p) =>
      if negb (Nat.eqb (length p) SNOOZ_ADVERTISEMENT_LENGTH) then None
      else
        let flags_without_pairing := Z.land b0 (Z.lnot FIRMWARE_PAIRING_FLAGS) in
        match FIRMWARE_VERSION_BY_FLAGS flags_without_pairing with
        | Some fw => if firmware_bool fw then Some (firmware_name fw) else None
        | None => None
        end
  end.

(** The detection callback of [scan]. *)
Definition cb (match_mac : option string) (found : Found) (d : Detection) : Found :=
  let '(device, adv) := d in
  let addr := upper (ble_address device) in
  if opt_truthy match_mac && negb (String.eqb addr (or_empty match_mac)) then found
  else
    let name := or_empty (opt_or (local_name adv) (ble_name device)) in
    let pw := parse_password_if_pairing adv in
    let fw := parse_fw adv in
    if opt_truthy pw || opt_truthy fw
       || startswith "snooz" (lower name) || startswith "breez" (lower name)
    then dict_set addr d found
    else found.

(** [scan]: the scanner runs for [timeout]; every detection heard before
    that goes through the callback. *)
Definition scan (timeout : Z) (match_mac : option string)
    (detections : list (Z * Detection)) : Found :=
  fold_left (cb match_mac) (List.map snd (in_time timeout detections)) [].

(** The filter [main] passes to [scan] for the option [--mac]. *)
Definition main_mac (mac : option string) : option string :=
  match mac with
  | Some m => if str_truthy m then Some (upper m) else None
  | None => None
  end.

(** Whether the callback stores a detection. *)
Definition listed (match_mac : option string) (d : Detection) : bool :=
  negb (opt_truthy match_mac
        && negb (String.eqb (upper (ble_address (fst d))) (or_empty match_mac)))
  && (opt_truthy (parse_password_if_pairing (snd d)) || opt_truthy (parse_fw (snd d))
      || startswith "snooz" (lower (or_empty (opt_or (local_name (snd d)) (ble_name (fst d)))))
      || startswith "breez" (lower (or_empty (opt_or (local_name (snd d)) (ble_name (fst d)))))).

(** The last detection of [ds] stored under address [a]. *)
Fixpoint latest (match_mac : option string) (a : string) (ds : list Detection)
  : option Detection :=
  match ds with
  | [] => None
  | d :: rest =>
      match latest match_mac a rest with
      | Some x => Some x
      | None =>
          if listed match_mac d && String.eqb (upper (ble_address (fst d))) a
          then Some d else None
      end
  end.

End Tool.

End discover_snooz.

Definition sample_enum : PyEnum := {| firmware_bool := fun _ => true |}.

(** [bedroom] in pairing mode, advertising its password, and out of it. *)
Definition pairing_adv : AdvertisementData :=
  {| local_name := Some "Snooz-1234"; manufacturer_data := [(65535, [13; 171; 205])] |}.

Definition quiet_adv : AdvertisementData :=
  {| local_name := Some "Snooz-1234"; manufacturer_data := [(65535, [12; 0; 0])] |}.

(** A library whose advertisements have nine bytes. *)
Definition nine_byte_pysnooz : PySnooz :=
  {| FIRMWARE_PAIRING_FLAGS := 1;
     FIRMWARE_VERSION_BY_FLAGS := fun flags => if flags =? 12 then Some V6 else None;
     SNOOZ_ADVERTISEMENT_LENGTH := 9;
     get_device_display_name := fun name addr => name;
     new_SnoozDevice := fun _ _ =>
       {| is_connected := false; connection_status := "DISCONNECTED"; state := None |} |}.

Definition nine_byte_adv : AdvertisementData :=
  {| local_name := Some "Snooz-1234";
     manufacturer_data := [(65535, [13; 1; 35; 69; 103; 137; 171; 205; 239])] |}.

(** ** tools/ble_service_client_cli.py: the client *)

(** An [asyncio.Future] of the client. *)
Inductive Future : Type :=
| Pending
| Resolved (data : json)
| Failed (error : json)
| FutureCancelled.

Module client.

(** [_pending] maps a request id to its future; [futures] holds the state
    of every future created so far, the future being its position. *)
Record SnoozWebSocketClient : Type := {
  _pending : gmap string nat;
  futures : list Future;
}.

(** The payload [_send_command] builds. *)
Definition command_payload (request_id command : string) (device_name : option string)
    (kwargs : list (string * json)) : list (string * json) :=
  let payload := [("type", JStr "command"); ("request_id", JStr request_id);
                  ("command", JStr command)] in
  let payload :=
    if opt_truthy device_name
    then dict_set "device_name" (JStr (or_empty device_name)) payload
    else payload in
  fold_left (fun p kv => dict_set (fst kv) (snd kv) p) kwargs payload.

(** [_send_command] with the value [uuid4().hex] returned: the client
    after the call, the future the caller awaits, and the payload sent. *)
Definition _send_command (request_id command : string) (device_name : option string)
    (kwargs : list (string * json)) (self : SnoozWebSocketClient)
  : SnoozWebSocketClient * nat * list (string * json) :=
  let future := length (futures self) in
  ({| _pending := <[request_id := future]> (_pending self);
      futures := futures self ++ [Pending] |},
   future,
   command_payload request_id command device_name kwargs).

(** The calls of the API, with arguments of the types the shell passes. *)
Inductive Call : Type :=
| list_devices
| get_state (device_name : string)
| noise_on (device_name : string) (volume : option Z)
| noise_off (device_name : string) (duration_s : option Q)
| set_volume (device_name : string) (volume : Z)
| light_on (device_name : string)
| light_off (device_name : string)
| set_light_brightness (device_name : string) (brightness : Z).

(** The arguments each API method passes to [_send_command]. *)
Definition call_command (c : Call) : string * option string * list (string * json) :=
  match c with
  | list_devices => ("list_devices", None, [])
  | get_state device_name => ("get_state", Some device_name, [])
  | noise_on device_name volume =>
      ("noise_on", Some device_name,
       match volume with Some v => [("volume", JInt v)] | None => [] end)
  | noise_off device_name duration_s =>
      ("noise_off", Some device_name,
       match duration_s with Some d => [("duration_s", JFloat d)] | None => [] end)
  | set_volume device_name volume => ("set_volume", Some device_name, [("volume", JInt volume)])
  | light_on device_name => ("light_on", Some device_name, [])
  | light_off device_name => ("light_off", Some device_name, [])
  | set_light_brightness device_name brightness =>
      ("set_light_brightness", Some device_name, [("brightness", JInt brightness)])
  end.

Definition call (request_id : string) (c : Call) (self : SnoozWebSocketClient)
  : SnoozWebSocketClient * nat * list (string * json) :=
  let '(command, device_name, kwargs) := call_command c in
  _send_command request_id command device_name kwargs self.

Definition set_future (future : nat) (f : Future) (self : SnoozWebSocketClient)
  : SnoozWebSocketClient :=
  {| _pending := _pending self; futures := <[future := f]> (futures self) |}.

Section Listen.
Context `{PyBuiltins}.

(** The body of the loop of [_listen] on one frame: the client after it,
    and whether the loop goes on ([false]: an exception ended the
    listener). *)
Definition _listen (raw : string) (self : SnoozWebSocketClient)
  : SnoozWebSocketClient * bool :=
  match json_loads raw with
  | None => (self, false)
  | Some (JObj msg) =>
      let msg_type := dict_get "type" msg in
      if is_str msg_type "response" then
        match dict_get "request_id" msg with
        | JArr _ | JObj _ => (self, false)
        | JStr req_id =>
            match _pending self !! req_id with
            | None => (self, true)
            | Some fut =>
                let self1 := {| _pending := delete req_id (_pending self);
                                futures := futures self |} in
                match futures self !! fut with
                | Some Pending =>
                    match assoc_get "status" msg with
                    | None => (self1, false)
                    | Some status =>
                        if is_str status "ok"
                        then (set_future fut (Resolved (dict_get "data" msg)) self1, true)
                        else (set_future fut (Failed (dict_get "error" msg)) self1, true)
                    end
                | _ => (self1, true)
                end
            end
        | _ => (self, true)
        end
      else (self, true)
  | Some _ => (self, false)
  end.

End Listen.

End client.

(** The manager command a call of the client asks for. *)
Definition server_command (c : client.Call) : option DeviceCommand :=
  match c with
  | client.noise_on device_name volume =>
      Some (NoiseOn (JStr device_name) (opt_json JInt volume))
  | client.noise_off device_name duration_s =>
      Some (NoiseOff (JStr device_name) (opt_json JFloat duration_s))
  | client.set_volume device_name volume => Some (SetVolume (JStr device_name) volume)
  | client.light_on device_name => Some (LightOn (JStr device_name))
  | client.light_off device_name => Some (LightOff (JStr device_name))
  | client.set_light_brightness device_name brightness =>
      Some (SetLightBrightness (JStr device_name) brightness)
  | _ => None
  end.

Definition call_device_name (c : client.Call) : option string :=
  snd (fst (client.call_command c)).

Section Answers.
Context `{PyBuiltins}.

(** What [_handle_message] answers to a frame that does not decode, or
    that decodes to an object. *)
Definition answers (raw : string) (p : json) : Prop :=
  (json_loads raw = None /\ p = error_response JNull "invalid_json")
  \/ exists msg, json_loads raw = Some (JObj msg)
                 /\ correlated (dict_get "request_id" msg) p.

(** The response to an action command whose manager call ended with
    outcome [o]. *)
Definition action_response (request_id : json) (o : Outcome SnoozCommandResult) : json :=
  match o with
  | Returned result =>
      match status result with
      | SUCCESSFUL => ok_response request_id (result_to_dict result)
      | s => error_response request_id ("command_failed: " ++ status_name s)
      end
  | Raised e => error_response request_id (exn_str e)
  | Blocked => JNull
  end.

End Answers.

(** ** Shutdown *)

(** [BleSnooz.stop]: the emission that is still asleep is cancelled, the
    subscription to the device library is dropped (no notification
    reaches the session afterwards) and the device is disconnected;
    [disconnected] is the device object as [async_disconnect] leaves it,
    whether it returned or raised. The session keeps its device and its
    discovery. *)
Definition stop (disconnected : SnoozDevice) (self : BleSnooz) : BleSnooz :=
  let self1 :=
    match _event_task self with
    | Some t => with_event_task (Some (if negb (task_done t) then task_cancel t else t)) self
    | None => self
    end in
  match _device self1 with
  | Some _ => with_device (Some disconnected) self1
  | None => self1
  end.

(** The event loop of a session when the session is stopped. *)
Definition loop_stop (disconnected : SnoozDevice) (L : SessionLoop) : SessionLoop :=
  {| clock := clock L;
     session := stop disconnected (session L);
     detached := detached L;
     emitted := emitted L |}.

(** [SnoozManager.stop]: the rescan loop is told to end and every session
    is stopped. *)
Definition SnoozManager_stop (disconnected : string -> SnoozDevice) (self : SnoozManager)
  : SnoozManager :=
  {| _devices := (fun dev => stop (disconnected (device_name dev)) dev) <$> _devices self;
     _names := _names self;
     _running := false |}.

Definition sample_disconnected : SnoozDevice :=
  {| is_connected := false; connection_status := "DISCONNECTED"; state := Some state_loud |}.

(** ** A command on a ready session *)

Section RadioCommand.
Context `{PyBuiltins}.

Definition command_device (c : DeviceCommand) : json :=
  match c with
  | NoiseOn n _ | NoiseOff n _ | SetVolume n _ | LightOn n | LightOff n
  | SetLightBrightness n _ => n
  end.

(** The command object handed to [async_execute_command], or the
    exception raised while it is built. *)
Definition radio_command (c : DeviceCommand) : exn + SnoozCommandData :=
  match c with
  | NoiseOn _ v => inr (turn_on v)
  | NoiseOff _ JNull => inr (turn_off None)
  | NoiseOff _ d =>
      match _sec_to_timedelta d with
      | inl e => inl e
      | inr dur => inr (turn_off dur)
      end
  | SetVolume _ v => inr (set_volume v)
  | LightOn _ => inr turn_light_on
  | LightOff _ => inr turn_light_off
  | SetLightBrightness _ b => inr (set_light_brightness b)
  end.

Definition argument_in_range (c : DeviceCommand) : Prop :=
  match c with
  | SetVolume _ v | SetLightBrightness _ v => 0 <= v <= 100
  | _ => True
  end.

End RadioCommand.

(** Every session that is ready in [before] is registered and has a
    device in [after]. *)
Definition still_bound (before after : SnoozManager) : Prop :=
  forall name dev,
    _devices before !! name = Some dev -> is_ready dev = true ->
    exists dev', _devices after !! name = Some dev' /\ _device dev' <> None.

(** ** ASCII text *)

(** [s.isascii()]. On such a string [upper], [lower] and [strip] above are
    Python's [str.upper], [str.lower] and [str.strip]; on other strings
    Python also folds the case of letters outside the ASCII range and
    trims the white space outside it. *)
Definition isascii (s : string) : bool :=
  str_forall (fun c => (nat_of_ascii c <? 128)%nat) s.

(** The strings of an identity that the scan normalizes. *)
Definition ascii_identity (dev : BleSnooz) : Prop :=
  isascii (address dev) = true
  /\ forall m, match_name dev = Some m -> isascii m = true.

Definition ascii_targets (devices : gmap string BleSnooz) (targets : list string) : Prop :=
  forall t dev, In t targets -> devices !! t = Some dev -> ascii_identity dev.

(** The strings of an advertisement that the callback normalizes. *)
Definition ascii_detection (d : Detection) : Prop :=
  isascii (ble_address (fst d)) = true
  /\ (forall n, local_name (snd d) = Some n -> isascii n = true)
  /\ (forall n, ble_name (fst d) = Some n -> isascii n = true).

(** ** Sample frames with other arguments *)

(** Two targets configured with the same address, and a target registered
    under the empty name. *)
Definition twin_a : BleSnooz := BleSnooz_init "twin_a" "aa:bb:cc:dd:ee:ff" "0123456789ABCDEF" None.
Definition twin_b : BleSnooz := BleSnooz_init "twin_b" "AA:BB:CC:DD:EE:FF" "0011223344556677" None.
Definition nameless : BleSnooz := BleSnooz_init "" "AA:BB:CC:DD:EE:FF" "0123456789ABCDEF" None.

Definition twin_devices : gmap string BleSnooz :=
  <["twin_b" := twin_b]> (<["twin_a" := twin_a]> ∅).

Definition nameless_devices : gmap string BleSnooz := <["" := nameless]> ∅.

Definition sample_fraction_frame : string :=
  "{'type':'command','request_id':'x4','command':'set_volume','device_name':'bedroom','volume':100.9}".

Definition sample_fraction_msg : list (string * json) :=
  [("type", JStr "command"); ("request_id", JStr "x4");
   ("command", JStr "set_volume"); ("device_name", JStr "bedroom");
   ("volume", JFloat (1009 # 10))].

Definition sample_no_volume_frame : string :=
  "{'type':'command','request_id':'x5','command':'set_volume','device_name':'bedroom'}".

Definition sample_no_volume_msg : list (string * json) :=
  [("type", JStr "command"); ("request_id", JStr "x5");
   ("command", JStr "set_volume"); ("device_name", JStr "bedroom")].

Definition sample_huge_volume_frame : string :=
  "{'type':'command','request_id':'x6','command':'set_volume','device_name':'bedroom','volume':1e400}".

Definition sample_huge_volume_msg : list (string * json) :=
  [("type", JStr "command"); ("request_id", JStr "x6");
   ("command", JStr "set_volume"); ("device_name", JStr "bedroom");
   ("volume", JNonFinite PosInf)].

Definition sample_null_frame : string := "null".

Definition decimal_loads (raw : string) : option json :=
  if String.eqb raw sample_fraction_frame then Some (JObj sample_fraction_msg)
  else if String.eqb raw sample_no_volume_frame then Some (JObj sample_no_volume_msg)
  else if String.eqb raw sample_huge_volume_frame then Some (JObj sample_huge_volume_msg)
  else if String.eqb raw sample_null_frame then Some JNull
  else sample_loads raw.

(** As [sample_py], with integers printed in decimal and the frames
    above. *)
Definition decimal_py : PyBuiltins :=
  {| py_repr := fun s => "'" ++ s ++ "'";
     py_format := fun j => match j with
                           | JInt z => pretty z
                           | _ => @py_format sample_py j
                           end;
     int_of_str := fun _ => None;
     float_of_str := fun _ => None;
     json_loads := decimal_loads |}.

(** One hundred million million seconds. *)
Definition sample_long_duration : json := JFloat (inject_Z 100000000000000).

(** * Properties *)

(** ** The embedding on sample values *)

Example upper_address : upper "aa:bb:cc:dd:ee:ff" = "AA:BB:CC:DD:EE:FF".
Proof. reflexivity. Qed.

Example strip_lower_name : lower (strip "  Breez-77 ") = "breez-77".
Proof. reflexivity. Qed.

Example strip_keeps_inner_space : strip " a b " = "a b".
Proof. reflexivity. Qed.

Example sample_manager_registered :
  match add_device bedroom SnoozManager_init with
  | inr m =>
      match add_device nursery m with
      | inr m' =>
          _devices m' = _devices sample_manager
          /\ get_device_names m' = ["bedroom"; "nursery"]
          /\ add_device bedroom m' = inl (ValueError "Duplicate device_name: bedroom")
      | inl _ => False
      end
  | inl _ => False
  end.
Proof. repeat split. Qed.

Example bind_bedroom :
  @bind_discovery sample_pysnooz bedroom bedroom_ble snooz_adv_payload
  = (bedroom_bound, true)
  /\ is_ready bedroom_bound = true
  /\ address bedroom_bound = "AA:BB:CC:DD:EE:FF".
Proof. repeat split. Qed.

Example bind_unclassified_payload :
  @bind_discovery sample_pysnooz bedroom bedroom_ble
    {| local_name := Some "Snooz-1234"; manufacturer_data := [(65535, [12; 0])] |}
  = (bedroom, false).
Proof. reflexivity. Qed.

Example startup_binds_what_it_hears :
  List.map (fun n => option_map is_ready
                       (_devices (fst (@_initial_discovery_and_connect sample_pysnooz 0
                                         [(100, (bedroom_ble, snooz_adv_payload))]
                                         (fun _ => failing_start) sample_manager)) !! n))
    ["bedroom"; "nursery"]
  = [Some true; Some false].
Proof. reflexivity. Qed.

(** ** The BLE operation gate *)

Lemma sem_exit_gate_ok {A : Type} (t : Task A) :
  gate_free t -> gate_ok true (sem_exit t).
Proof.
  induction 1; simpl; repeat constructor; auto.
Qed.

Lemma with_ble_lock_gate_ok {A : Type} (name op : string) (t : Task A) :
  gate_free t -> gate_ok false (_with_ble_lock name op t).
Proof.
  intros Hf. unfold _with_ble_lock. constructor. now apply sem_exit_gate_ok.
Qed.

Lemma execute_on_gate_free (name : string) (c : SnoozCommandData) :
  gate_free (execute_on name c).
Proof.
  unfold execute_on. constructor. intros [dev|]; [|constructor].
  destruct (_device dev); [|constructor].
  constructor. intros [e|res]; constructor.
Qed.

Lemma run_command_gate_ok `{PyBuiltins} (m : SnoozManager) (c : DeviceCommand) :
  gate_ok false (run_command m c).
Proof.
  destruct c as [n v|n d|n v|n|n|n b]; simpl;
    unfold cmd_noise_on, cmd_noise_off, cmd_set_volume, cmd_light_on, cmd_light_off,
      cmd_set_light_brightness;
    (destruct (get_device m n) as [e|[name dev]]; [constructor|]);
    (destruct (negb (is_ready dev)); [constructor|]);
    try (apply with_ble_lock_gate_ok, execute_on_gate_free).
  - apply with_ble_lock_gate_ok.
    destruct d; try apply execute_on_gate_free;
      (constructor; intros [dev'|]; [|constructor];
       destruct (_device dev'); [|constructor];
       destruct (_sec_to_timedelta _); [constructor|];
       constructor; intros [e|res]; constructor).
  - destruct (negb _); [constructor|].
    apply with_ble_lock_gate_ok, execute_on_gate_free.
  - destruct (negb _); [constructor|].
    apply with_ble_lock_gate_ok, execute_on_gate_free.
Qed.

Lemma holders_app (l1 l2 : list Thread) :
  holders (l1 ++ l2) = (holders l1 + holders l2)%nat.
Proof.
  unfold holders. now rewrite List.filter_app, length_app.
Qed.

Lemma holders_insert (ths : list Thread) (i : nat) (old new : Thread) :
  ths !! i = Some old ->
  (holders (<[i := new]> ths) + (if holds_gate old then 1 else 0)
   = holders ths + (if holds_gate new then 1 else 0))%nat.
Proof.
  revert i. induction ths as [|th ths IH]; intros [|i] Hi; simpl in *; try discriminate.
  - injection Hi as ->. unfold holders. simpl.
    destruct (holds_gate old), (holds_gate new); simpl; lia.
  - specialize (IH i Hi). unfold holders in *. simpl.
    destruct (holds_gate th); simpl; lia.
Qed.

Lemma thread_ok_lookup (ths : list Thread) (i : nat) (th : Thread) :
  Forall thread_ok ths -> ths !! i = Some th -> thread_ok th.
Proof.
  intros HF Hi. eapply Forall_lookup_1; eauto.
Qed.

Lemma gate_invariant_init (m : SnoozManager) : gate_invariant (system_init m).
Proof.
  split; [constructor | reflexivity].
Qed.

Lemma gate_invariant_step `{PyBuiltins} (s s' : System) :
  gate_invariant s -> step s s' -> gate_invariant s'.
Proof.
  intros [HF Hc] Hs. destruct Hs; unfold gate_invariant; simpl.
  - split.
    + apply Forall_app. split; [assumption|].
      constructor; [|constructor]. simpl. apply run_command_gate_ok.
    + rewrite holders_app. unfold holders at 2. simpl. lia.
  - now split.
  - pose proof (thread_ok_lookup _ _ _ HF H0) as Hok. simpl in Hok.
    inversion Hok; subst.
    pose proof (holders_insert _ _ _ (Running true k) H0) as Hh. simpl in Hh.
    split; [apply Forall_insert; simpl; assumption | lia].
  - pose proof (thread_ok_lookup _ _ _ HF H0) as Hok. simpl in Hok.
    inversion Hok; subst.
    pose proof (holders_insert _ _ _ (Running false k) H0) as Hh. simpl in Hh.
    split; [apply Forall_insert; simpl; assumption | lia].
  - pose proof (thread_ok_lookup _ _ _ HF H0) as Hok. simpl in Hok.
    inversion Hok; subst.
    pose proof (holders_insert _ _ _ (Running h (k (_devices (manager s) !! name))) H0) as Hh.
    simpl in Hh.
    split; [apply Forall_insert; simpl; auto | destruct h; lia].
  - pose proof (thread_ok_lookup _ _ _ HF H0) as Hok. simpl in Hok.
    inversion Hok; subst.
    pose proof (holders_insert _ _ _ (InRadio true name c k) H0) as Hh. simpl in Hh.
    split; [apply Forall_insert; simpl; auto | lia].
  - pose proof (thread_ok_lookup _ _ _ HF H0) as Hok. simpl in Hok.
    destruct Hok as [-> Hk].
    pose proof (holders_insert _ _ _ (Running true (k r)) H0) as Hh. simpl in Hh.
    split; [apply Forall_insert; simpl; auto | lia].
  - pose proof (thread_ok_lookup _ _ _ HF H0) as Hok. simpl in Hok.
    inversion Hok; subst.
    pose proof (holders_insert _ _ _ (Running h (k t)) H0) as Hh. simpl in Hh.
    split; [apply Forall_insert; simpl; auto | destruct h; lia].
  - pose proof (thread_ok_lookup _ _ _ HF H0) as Hok. simpl in Hok.
    inversion Hok.
Qed.

Lemma reachable_gate_invariant `{PyBuiltins} (m : SnoozManager) (s : System) :
  reachable m s -> gate_invariant s.
Proof.
  induction 1; [apply gate_invariant_init | eapply gate_invariant_step; eauto].
Qed.

Lemma holders_lookup (ths : list Thread) (i : nat) (th : Thread) :
  ths !! i = Some th -> holds_gate th = true -> (1 <= holders ths)%nat.
Proof.
  revert i. induction ths as [|x ths IH]; intros [|i] Hi Hh; simpl in *; try discriminate.
  - injection Hi as ->. unfold holders. simpl. rewrite Hh. simpl. lia.
  - specialize (IH i Hi Hh). unfold holders in *. simpl.
    destruct (holds_gate x); simpl; lia.
Qed.

Lemma holders_two (ths : list Thread) (i j : nat) (a b : Thread) :
  ths !! i = Some a -> ths !! j = Some b ->
  holds_gate a = true -> holds_gate b = true -> i <> j -> (2 <= holders ths)%nat.
Proof.
  revert i j. induction ths as [|x ths IH]; intros [|i] [|j] Hi Hj Ha Hb Hne;
    simpl in *; try discriminate; try congruence.
  - injection Hi as ->. pose proof (holders_lookup _ _ _ Hj Hb).
    unfold holders in *. simpl. rewrite Ha. simpl. lia.
  - injection Hj as ->. pose proof (holders_lookup _ _ _ Hi Ha).
    unfold holders in *. simpl. rewrite Hb. simpl. lia.
  - assert (i <> j) by congruence. specialize (IH i j Hi Hj Ha Hb H).
    unfold holders in *. simpl. destruct (holds_gate x); simpl; lia.
Qed.

Lemma gate_invariant_under_gate (s : System) :
  gate_invariant s -> radio_under_gate s.
Proof.
  intros [HF _] i th Hi Hr. pose proof (thread_ok_lookup _ _ _ HF Hi) as Hok.
  destruct th; simpl in *; [discriminate | tauto].
Qed.

Lemma gate_invariant_exclusive (s : System) :
  gate_invariant s -> radio_exclusive s.
Proof.
  intros Hinv i j thi thj Hi Hj Hri Hrj.
  pose proof (gate_invariant_under_gate s Hinv) as Hg.
  destruct (Nat.eq_dec i j) as [|Hne]; [assumption|exfalso].
  pose proof (holders_two _ _ _ _ _ Hi Hj (Hg _ _ Hi Hri) (Hg _ _ Hj Hrj) Hne).
  destruct Hinv as [_ Hc]. lia.
Qed.

Lemma gate_invariant_completed (s : System) (i : nat) (th : Thread) :
  gate_invariant s -> threads s !! i = Some th -> completed th = true ->
  holds_gate th = false.
Proof.
  intros [HF _] Hi Hc. pose proof (thread_ok_lookup _ _ _ HF Hi) as Hok.
  destruct th as [h t|]; simpl in *; [|discriminate].
  destruct t; try discriminate; now inversion Hok.
Qed.

#[local] Arguments py_float : simpl never.
#[local] Arguments _sec_to_timedelta : simpl never.
#[local] Arguments py_int : simpl never.

Lemma run_command_alone `{PyBuiltins} (w : World) (n : nat) (m : SnoozManager)
    (c : DeviceCommand) :
  permits_of (run w (S n) (run_command m c)) = S n
  /\ outcome_of (run w (S n) (run_command m c)) <> Blocked
  /\ bracketed (events_of (run w (S n) (run_command m c))).
Proof.
  unfold bracketed.
  destruct c as [d v|d du|d v|d|d|d b]; simpl;
    unfold cmd_noise_on, cmd_noise_off, cmd_set_volume, cmd_light_on, cmd_light_off,
      cmd_set_light_brightness;
    (destruct (get_device m d) as [e|[name dev]]; [simpl; split; [|split]; [reflexivity|discriminate|auto]|]);
    (destruct (negb (is_ready dev)); [simpl; split; [|split]; [reflexivity|discriminate|auto]|]);
    try (destruct (negb _); [simpl; split; [|split]; [reflexivity|discriminate|auto]|]);
    try (destruct du);
    unfold _with_ble_lock, execute_on; simpl;
    (destruct (_devices (sessions w) !! name) as [dev'|]; simpl;
     [destruct (_device dev'); simpl|]);
    try (destruct (_sec_to_timedelta _) as [e|dur]; simpl);
    try (destruct (exec_outcome w name _) as [e'|res]; simpl);
    (split; [|split]; [reflexivity|discriminate|eauto 6]).
Qed.

(** C1. Every device command (noise_on, noise_off, set_volume, light_on,
    light_off, set_light_brightness) transacts with the radio only while it
    holds the capacity-1 gate: in every state the service reaches by
    interleaving any number of such commands, on any devices, a command
    inside a radio transaction holds the gate, no two commands are inside
    a radio transaction at once, the permits and the holders add up to
    one, and a command that has returned or raised holds nothing. Run
    alone, a command leaves the gate with the permits it found, whether
    its transaction returned or raised, and its trace is empty or one
    acquisition, at most one transaction and one release. *)
Theorem ble_gate_serializes_radio `{PyBuiltins} (m : SnoozManager) (s : System) :
  reachable m s ->
  radio_under_gate s
  /\ radio_exclusive s
  /\ (sem_value s + holders (threads s) = 1)%nat
  /\ (forall i th, threads s !! i = Some th -> completed th = true -> holds_gate th = false)
  /\ (forall (w : World) (n : nat) (m' : SnoozManager) (c : DeviceCommand),
        permits_of (run w (S n) (run_command m' c)) = S n
        /\ outcome_of (run w (S n) (run_command m' c)) <> Blocked
        /\ bracketed (events_of (run w (S n) (run_command m' c)))).
Proof.
  intros Hr. pose proof (reachable_gate_invariant m s Hr) as Hinv.
  split; [now apply gate_invariant_under_gate|].
  split; [now apply gate_invariant_exclusive|].
  split; [apply Hinv|].
  split; [intros i th; now apply gate_invariant_completed|].
  intros w n m' c. apply run_command_alone.
Qed.

Lemma sample_system_reachable :
  @reachable sample_py sample_bound_manager sample_system.
Proof.
  pose (c1 := SetVolume (JStr "bedroom") 40).
  pose (s1 := {| sem_value := 1;
                 threads := [Running false (@run_command sample_py sample_bound_manager c1)];
                 manager := sample_bound_manager |}).
  assert (R1 : @reachable sample_py sample_bound_manager s1).
  { eapply reach_step; [apply reach_init|].
    exact (@step_submit sample_py (system_init sample_bound_manager) c1). }
  pose (k2 := sem_exit (execute_on "bedroom" (set_volume 40))).
  pose (s2 := set_sem 0 (set_thread 0 (Running true k2) s1)).
  assert (R2 : @reachable sample_py sample_bound_manager s2).
  { eapply reach_step; [exact R1|].
    apply (@step_acquire sample_py s1 0%nat false k2 0%nat); reflexivity. }
  pose (k3 := ExecuteCommand "bedroom" (set_volume 40) sample_after_radio).
  pose (s3 := set_thread 0 (Running true k3) s2).
  assert (R3 : @reachable sample_py sample_bound_manager s3).
  { eapply reach_step; [exact R2|].
    exact (@step_read sample_py s2 0%nat true "bedroom" _ eq_refl). }
  pose (s4 := set_thread 0 (InRadio true "bedroom" (set_volume 40) sample_after_radio) s3).
  assert (R4 : @reachable sample_py sample_bound_manager s4).
  { eapply reach_step; [exact R3|].
    exact (@step_radio_begin sample_py s3 0%nat true "bedroom" (set_volume 40)
             sample_after_radio eq_refl). }
  eapply reach_step; [exact R4|].
  exact (@step_submit sample_py s4 (LightOn (JStr "bedroom"))).
Defined.

Lemma ble_gate_serializes_radio_witness :
  @reachable sample_py sample_bound_manager sample_system
  /\ radio_under_gate sample_system
  /\ radio_exclusive sample_system.
Proof.
  split; [exact sample_system_reachable|].
  pose proof (@ble_gate_serializes_radio sample_py sample_bound_manager sample_system
                sample_system_reachable) as [Hu [He _]].
  split; assumption.
Defined.

(** ** The gateway: [get_state], [set_volume], [set_light_brightness] *)

Lemma str_truthy_ne (s : string) : s <> "" -> str_truthy s = true.
Proof. destruct s; [congruence | reflexivity]. Qed.

Lemma snapshot_unbound (dev : BleSnooz) :
  _device dev = None -> _discovered dev = None ->
  snapshot dev =
    JObj [("device_name", JStr (device_name dev));
          ("address", JStr (address dev));
          ("display_name", JNull);
          ("connected", JBool false);
          ("connection_status", JStr "UNKNOWN");
          ("model", JNull);
          ("firmware_version", JNull);
          ("state", JObj [("on", JNull); ("volume", JNull); ("light_on", JNull);
                          ("light_brightness", JNull); ("night_mode_enabled", JNull)])].
Proof.
  intros Hd Hdisc. unfold snapshot. rewrite Hd, Hdisc. reflexivity.
Qed.

(** C5. For a registered device with no binding, [cmd_get_state] returns
    the snapshot without awaiting anything (no gate, no radio, no
    exception); the snapshot has [connected] false, the connection status
    UNKNOWN, and null for display name, model, firmware version and each
    of the five state fields; and the gateway answers a [get_state]
    message that names the device (a non-empty [device_name]) with exactly
    one ok response carrying that snapshot and the request id. *)
Theorem get_state_unbound_snapshot `{PyBuiltins} (w : World) (sem : nat)
    (mgr : SnoozManager) (name : string) (dev : BleSnooz) :
  _devices mgr !! name = Some dev ->
  _device dev = None ->
  _discovered dev = None ->
  cmd_get_state mgr (JStr name) = Ret (snapshot dev)
  /\ snapshot dev =
       JObj [("device_name", JStr (device_name dev));
             ("address", JStr (address dev));
             ("display_name", JNull);
             ("connected", JBool false);
             ("connection_status", JStr "UNKNOWN");
             ("model", JNull);
             ("firmware_version", JNull);
             ("state", JObj [("on", JNull); ("volume", JNull); ("light_on", JNull);
                             ("light_brightness", JNull); ("night_mode_enabled", JNull)])]
  /\ (forall raw msg,
        json_loads raw = Some (JObj msg) ->
        dict_get "type" msg = JStr "command" ->
        dict_get "command" msg = JStr "get_state" ->
        dict_get "device_name" msg = JStr name ->
        name <> "" ->
        run w sem (_handle_message mgr raw)
        = ([EvSend (ok_response (dict_get "request_id" msg) (snapshot dev))],
           sem, Returned tt)).
Proof.
  intros Hreg Hd Hdisc.
  split; [unfold cmd_get_state, get_device; now rewrite Hreg|].
  split; [now apply snapshot_unbound|].
  intros raw msg Hl Ht Hc Hn Hne.
  unfold _handle_message. rewrite Hl, Ht, Hc, Hn. simpl.
  unfold dispatch. simpl. rewrite (str_truthy_ne _ Hne). simpl.
  unfold cmd_get_state, get_device. rewrite Hreg. reflexivity.
Qed.

Lemma get_state_unbound_snapshot_witness :
  run sample_world 1 (@_handle_message sample_py sample_manager sample_get_state_frame)
  = ([EvSend (ok_response (JStr "x1") (snapshot bedroom))], 1%nat, Returned tt).
Proof.
  refine (proj2 (proj2 (@get_state_unbound_snapshot sample_py sample_world 1%nat
            sample_manager "bedroom" bedroom _ _ _))
            sample_get_state_frame sample_get_state_msg _ _ _ _ _);
    try reflexivity.
  discriminate.
Defined.

Lemma range_check_fails (v : Z) :
  ~ (0 <= v <= 100) -> negb ((0 <=? v) && (v <=? 100)) = true.
Proof.
  intros Hv. destruct (0 <=? v) eqn:E1, (v <=? 100) eqn:E2; simpl; try reflexivity.
  exfalso. apply Hv. lia.
Qed.

(** [int] of a float truncates toward zero. *)
Lemma py_int_truncates `{PyBuiltins} (q : Q) (k : Z) :
  0 <= k ->
  ((inject_Z k <= q)%Q -> (q < inject_Z (k + 1))%Q -> py_int (JFloat q) = inr k)
  /\ ((inject_Z (- (k + 1)) < q)%Q -> (q <= inject_Z (- k))%Q -> py_int (JFloat q) = inr (- k)).
Proof.
  intros Hk. destruct q as [a b]. unfold py_int, Qle, Qlt, inject_Z. cbn [Qnum Qden].
  split; intros H1 H2; f_equal.
  - symmetry. apply (Z.quot_unique a (Zpos b) k (a - Zpos b * k)); nia.
  - assert (Hq : Z.quot (- a) (Zpos b) = k).
    { symmetry. apply (Z.quot_unique (- a) (Zpos b) k (- a - Zpos b * k)); nia. }
    rewrite Z.quot_opp_l in Hq by lia. lia.
Qed.

(** C6, as the code has it. The gateway converts the volume of a
    [set_volume] message with [int] before it calls [cmd_set_volume], and
    the range check is made on that integer. For a message that names a
    ready device: without a [volume] the answer is the error of the
    missing key; a volume that [int] rejects (null, a list, a string that
    is no integer, an infinity or a NaN) is answered with the error of the
    conversion; a volume that converts to an integer outside 0..100 is
    answered with ["volume must be 0..100"]. In these three cases the
    trace of the handler is the one error response: the gate is not
    acquired and no radio transaction is issued, whatever the number of
    permits. A volume that converts to an integer in 0..100 goes through
    the gate to the radio as that integer; [int] truncates a float toward
    zero, so every volume above 100 and below 101 is executed as 100 and
    every volume below 0 and above -1 as 0. (When the name is empty the
    answer is ["device_name is required"].) *)
Theorem set_volume_out_of_range_rejected `{PyBuiltins} (w : World) (sem : nat)
    (mgr : SnoozManager) (raw : string) (msg : list (string * json))
    (name : string) (dev : BleSnooz) :
  json_loads raw = Some (JObj msg) ->
  dict_get "type" msg = JStr "command" ->
  dict_get "command" msg = JStr "set_volume" ->
  dict_get "device_name" msg = JStr name ->
  _devices mgr !! name = Some dev ->
  is_ready dev = true ->
  (assoc_get "volume" msg = None ->
   run w sem (_handle_message mgr raw)
   = ([EvSend (error_response (dict_get "request_id" msg)
                 (if str_truthy name then py_repr "volume"
                  else "device_name is required"))],
      sem, Returned tt))
  /\ (forall v e,
        assoc_get "volume" msg = Some v -> py_int v = inl e ->
        run w sem (_handle_message mgr raw)
        = ([EvSend (error_response (dict_get "request_id" msg)
                      (if str_truthy name then exn_str e
                       else "device_name is required"))],
           sem, Returned tt))
  /\ (forall v vol,
        assoc_get "volume" msg = Some v -> py_int v = inr vol ->
        ~ (0 <= vol <= 100) ->
        cmd_set_volume mgr (JStr name) vol = Raise (ValueError "volume must be 0..100")
        /\ run w sem (_handle_message mgr raw)
           = ([EvSend (error_response (dict_get "request_id" msg)
                         (if str_truthy name then "volume must be 0..100"
                          else "device_name is required"))],
              sem, Returned tt))
  /\ (forall v vol exec now n,
        assoc_get "volume" msg = Some v -> py_int v = inr vol ->
        0 <= vol <= 100 ->
        name <> "" ->
        exists answer,
          events_of (run {| exec_outcome := exec; wall_clock := now; sessions := mgr |} (S n)
                       (_handle_message mgr raw))
          = [EvAcquire; EvExecute name (set_volume vol); EvRelease; EvSend answer])
  /\ (forall q k,
        0 <= k -> (inject_Z k <= q)%Q -> (q < inject_Z (k + 1))%Q ->
        py_int (JFloat q) = inr k)
  /\ (forall q k,
        0 <= k -> (inject_Z (- (k + 1)) < q)%Q -> (q <= inject_Z (- k))%Q ->
        py_int (JFloat q) = inr (- k))
  /\ py_int (JNonFinite PosInf)
     = inl (OverflowError "cannot convert float infinity to integer")
  /\ py_int (JNonFinite NegInf)
     = inl (OverflowError "cannot convert float infinity to integer")
  /\ py_int (JNonFinite NaN) = inl (ValueError "cannot convert float NaN to integer").
Proof.
  intros Hl Ht Hc Hn Hreg Hready.
  assert (Hhead : _handle_message mgr raw
                  = try_except
                      (dispatch mgr msg (dict_get "request_id" msg) (JStr "set_volume")
                         (JStr name))
                      (fun exc => _send_error (dict_get "request_id" msg) (exn_str exc))).
  { unfold _handle_message. rewrite Hl, Ht, Hc, Hn. reflexivity. }
  rewrite Hhead. clear Hhead.
  split.
  { intros Hv. unfold dispatch. simpl. destruct (str_truthy name); simpl; [|reflexivity].
    rewrite Hv. reflexivity. }
  split.
  { intros v e Hv Hint. unfold dispatch. simpl.
    destruct (str_truthy name); simpl; [|reflexivity].
    rewrite Hv, Hint. reflexivity. }
  split.
  { intros v vol Hv Hint Hrange.
    assert (Hcmd : cmd_set_volume mgr (JStr name) vol
                   = Raise (ValueError "volume must be 0..100")).
    { unfold cmd_set_volume, get_device. rewrite Hreg, Hready. simpl.
      now rewrite (range_check_fails _ Hrange). }
    split; [exact Hcmd|].
    unfold dispatch. simpl. destruct (str_truthy name); simpl; [|reflexivity].
    rewrite Hv, Hint. unfold reply_result. rewrite Hcmd. reflexivity. }
  split.
  { intros v vol exec now n Hv Hint Hrange Hne.
    assert (Hd : exists d, _device dev = Some d).
    { unfold is_ready in Hready. destruct (_device dev); [eauto | discriminate]. }
    destruct Hd as [d Hd].
    assert (Hr : (0 <=? vol) && (vol <=? 100) = true)
      by (apply andb_true_iff; split; apply Z.leb_le; lia).
    unfold dispatch. simpl. rewrite (str_truthy_ne _ Hne). simpl.
    rewrite Hv, Hint.
    unfold reply_result, cmd_set_volume, get_device. rewrite Hreg, Hready. simpl.
    rewrite Hr. simpl. rewrite Hreg, Hd. simpl.
    destruct (exec name (set_volume vol)) as [e|[[|other] dur resp]]; simpl;
      eexists; reflexivity. }
  split; [intros q k Hk; apply (proj1 (py_int_truncates q k Hk))|].
  split; [intros q k Hk; apply (proj2 (py_int_truncates q k Hk))|].
  repeat split.
Qed.

Lemma set_volume_out_of_range_rejected_witness :
  run sample_world 0 (@_handle_message sample_py sample_bound_manager sample_set_volume_frame)
  = ([EvSend (error_response (JStr "x2") "volume must be 0..100")], 0%nat, Returned tt).
Proof.
  destruct (@set_volume_out_of_range_rejected sample_py sample_world 0%nat
              sample_bound_manager sample_set_volume_frame sample_set_volume_msg
              "bedroom" bedroom_bound eq_refl eq_refl eq_refl eq_refl eq_refl eq_refl)
    as (_ & _ & Hout & _).
  apply (Hout (JInt 150) 150 eq_refl eq_refl). lia.
Defined.

(** Counterexample to C6 as the specification words it: [bedroom] is
    ready, the volume of the message is 100.9, outside 0..100, and the
    handler acquires the gate and has [set_volume(100)] executed. *)
Lemma fractional_volume_reaches_radio :
  _devices sample_bound_manager !! "bedroom" = Some bedroom_bound
  /\ is_ready bedroom_bound = true
  /\ @json_loads decimal_py sample_fraction_frame = Some (JObj sample_fraction_msg)
  /\ assoc_get "volume" sample_fraction_msg = Some (JFloat (1009 # 10))
  /\ (inject_Z 100 < 1009 # 10)%Q
  /\ run sample_world 1
       (@_handle_message decimal_py sample_bound_manager sample_fraction_frame)
     = ([EvAcquire; EvExecute "bedroom" (set_volume 100); EvRelease;
         EvSend (ok_response (JStr "x4") (result_to_dict sample_result))],
        1%nat, Returned tt).
Proof. repeat split. Qed.

(** A volume too large for a float decodes to infinity, which [int]
    refuses: the answer is the error of the conversion. *)
Example infinite_volume_conversion_error :
  run sample_world 1
    (@_handle_message decimal_py sample_bound_manager sample_huge_volume_frame)
  = ([EvSend (error_response (JStr "x6") "cannot convert float infinity to integer")],
     1%nat, Returned tt).
Proof. reflexivity. Qed.

(** C10, as the code has it. For a registered session that is not ready,
    [cmd_set_volume] and [cmd_set_light_brightness] raise
    [device_unavailable] for every integer argument, in range or not. At
    the gateway [int(msg[...])] runs before the command is called: a
    [set_volume] or [set_light_brightness] message that names the device
    is answered with one error response and nothing else (no gate, no
    radio), and its error is [device_unavailable] when [int] accepts the
    argument, whatever the integer, the error of the missing key when
    the argument is absent, and the error of the conversion when [int]
    rejects it. *)
Theorem unready_precedes_range_validation `{PyBuiltins} (w : World) (sem : nat)
    (mgr : SnoozManager) (name : string) (dev : BleSnooz) :
  _devices mgr !! name = Some dev ->
  is_ready dev = false ->
  (forall vol, cmd_set_volume mgr (JStr name) vol = Raise (RuntimeError "device_unavailable"))
  /\ (forall b,
        cmd_set_light_brightness mgr (JStr name) b = Raise (RuntimeError "device_unavailable"))
  /\ (forall raw msg field command,
        json_loads raw = Some (JObj msg) ->
        dict_get "type" msg = JStr "command" ->
        dict_get "command" msg = JStr command ->
        (command = "set_volume" /\ field = "volume"
         \/ command = "set_light_brightness" /\ field = "brightness") ->
        dict_get "device_name" msg = JStr name ->
        name <> "" ->
        run w sem (_handle_message mgr raw)
        = ([EvSend (error_response (dict_get "request_id" msg)
                      match assoc_get field msg with
                      | None => py_repr field
                      | Some v =>
                          match py_int v with
                          | inl e => exn_str e
                          | inr _ => "device_unavailable"
                          end
                      end)],
           sem, Returned tt)).
Proof.
  intros Hreg Hready.
  assert (Hv : forall vol, cmd_set_volume mgr (JStr name) vol
                           = Raise (RuntimeError "device_unavailable")).
  { intros vol. unfold cmd_set_volume, get_device. now rewrite Hreg, Hready. }
  assert (Hb : forall b, cmd_set_light_brightness mgr (JStr name) b
                         = Raise (RuntimeError "device_unavailable")).
  { intros b. unfold cmd_set_light_brightness, get_device. now rewrite Hreg, Hready. }
  split; [exact Hv|]. split; [exact Hb|].
  intros raw msg field command Hl Ht Hc Hcases Hn Hne.
  unfold _handle_message. rewrite Hl, Ht, Hc, Hn. simpl.
  unfold dispatch.
  destruct Hcases as [[-> ->]|[-> ->]]; simpl; rewrite (str_truthy_ne _ Hne); simpl;
    (destruct (assoc_get _ msg) as [v|]; [|reflexivity]);
    (destruct (py_int v) as [e|z]; [reflexivity|]);
    unfold reply_result; [rewrite Hv | rewrite Hb]; reflexivity.
Qed.

Lemma unready_precedes_range_validation_witness :
  @cmd_set_volume sample_py sample_manager (JStr "bedroom") 150
  = Raise (RuntimeError "device_unavailable")
  /\ run sample_world 1 (@_handle_message sample_py sample_manager sample_set_volume_frame)
     = ([EvSend (error_response (JStr "x2") "device_unavailable")], 1%nat, Returned tt).
Proof.
  pose proof (@unready_precedes_range_validation sample_py sample_world 1%nat
                sample_manager "bedroom" bedroom eq_refl eq_refl) as [Hv [_ Hg]].
  split; [apply Hv|].
  apply (Hg sample_set_volume_frame sample_set_volume_msg "volume" "set_volume");
    try reflexivity.
  - left. split; reflexivity.
  - discriminate.
Defined.

(** Counterexample to C10 as the specification words it: [bedroom] is
    registered and not bound, and a [set_volume] message without a volume
    is answered with the error of the missing key, not with
    [device_unavailable]. *)
Lemma unready_missing_volume_is_key_error :
  _devices sample_manager !! "bedroom" = Some bedroom
  /\ is_ready bedroom = false
  /\ @json_loads decimal_py sample_no_volume_frame = Some (JObj sample_no_volume_msg)
  /\ assoc_get "volume" sample_no_volume_msg = None
  /\ run sample_world 1 (@_handle_message decimal_py sample_manager sample_no_volume_frame)
     = ([EvSend (error_response (JStr "x5") "'volume'")], 1%nat, Returned tt).
Proof. repeat split. Qed.

Lemma is_ready_device (dev : BleSnooz) :
  is_ready dev = true -> exists d, _device dev = Some d.
Proof.
  unfold is_ready. destruct (_device dev); [eauto | discriminate].
Qed.

Lemma noise_on_reaches_library `{PyBuiltins}
    (exec : string -> SnoozCommandData -> exn + SnoozCommandResult) (now : Q)
    (mgr : SnoozManager) (raw : string) (msg : list (string * json))
    (name : string) (dev : BleSnooz) :
  json_loads raw = Some (JObj msg) ->
  dict_get "type" msg = JStr "command" ->
  dict_get "command" msg = JStr "noise_on" ->
  dict_get "device_name" msg = JStr name ->
  name <> "" ->
  _devices mgr !! name = Some dev ->
  is_ready dev = true ->
  exists answer,
    events_of (run {| exec_outcome := exec; wall_clock := now; sessions := mgr |} 1
                 (_handle_message mgr raw))
    = [EvAcquire; EvExecute name (turn_on (dict_get "volume" msg)); EvRelease;
       EvSend answer].
Proof.
  intros Hl Ht Hc Hn Hne Hreg Hready.
  destruct (is_ready_device _ Hready) as [d Hd].
  unfold _handle_message. rewrite Hl, Ht, Hc, Hn. simpl.
  unfold dispatch. simpl. rewrite (str_truthy_ne _ Hne). simpl.
  unfold reply_result, cmd_noise_on, get_device. rewrite Hreg, Hready. simpl.
  rewrite Hreg, Hd. simpl.
  destruct (exec name (turn_on (dict_get "volume" msg))) as [e|[[|other] dur resp]]; simpl;
    eexists; reflexivity.
Qed.

(** C7. [cmd_noise_on] has no range check: with [bedroom] ready, the
    message [noise_on] with [volume] 150 acquires the gate and hands
    [turn_on(volume=150)] to the device library, whatever the library then
    answers. *)
Theorem noise_on_volume_not_validated
    (exec : string -> SnoozCommandData -> exn + SnoozCommandResult) (now : Q) :
  exists answer,
    events_of (run {| exec_outcome := exec; wall_clock := now;
                      sessions := sample_bound_manager |} 1
                 (@_handle_message sample_py sample_bound_manager sample_noise_on_frame))
    = [EvAcquire; EvExecute "bedroom" (turn_on (JInt 150)); EvRelease; EvSend answer].
Proof.
  apply (@noise_on_reaches_library sample_py exec now sample_bound_manager
           sample_noise_on_frame sample_noise_on_msg "bedroom" bedroom_bound);
    try reflexivity.
  discriminate.
Qed.

(** ** The gateway: one answer per message *)

Lemma run_answers_once (P : json -> Prop) (w : World) (h : bool) (t : Task unit) :
  answers_once P h t ->
  forall n, exists evs p,
    run w (if h then n else S n) t = (evs, S n, Returned tt)
    /\ sent evs = [p] /\ P p.
Proof.
  induction 1 as [p Hp|k _ IH|k _ IH|h name k _ IH|name c k _ IH|h k _ IH]; intros n; simpl.
  - exists [EvSend p], p. auto.
  - destruct (IH n) as (evs & p & Hrun & Hs & Hp). simpl in Hrun. rewrite Hrun.
    exists (EvAcquire :: evs), p. auto.
  - destruct (IH n) as (evs & p & Hrun & Hs & Hp). simpl in Hrun. rewrite Hrun.
    exists (EvRelease :: evs), p. auto.
  - apply IH.
  - destruct (IH (exec_outcome w name c) n) as (evs & p & Hrun & Hs & Hp).
    simpl in Hrun. rewrite Hrun.
    exists (EvExecute name c :: evs), p. auto.
  - apply IH.
Qed.

Lemma answers_try_bind {A : Type} (P : json -> Prop) (h : bool) (t : Task A)
    (f : A -> Task unit) (hd : exn -> Task unit) :
  gate_ok h t ->
  (forall a, answers_once P false (try_except (f a) hd)) ->
  (forall e, answers_once P false (hd e)) ->
  answers_once P h (try_except (bind t f) hd).
Proof.
  intros Hok Hf Hhd. induction Hok; simpl; try (constructor; auto); auto.
Qed.

Lemma send_error_correlated (rid : json) (err : string) :
  answers_once (correlated rid) false (_send_error rid err).
Proof.
  constructor. right. eauto.
Qed.

Lemma send_ok_correlated (rid data : json) :
  answers_once (correlated rid) false (_send_ok rid data).
Proof.
  constructor. left. eauto.
Qed.

Lemma reply_result_answers `{PyBuiltins} (rid : json) (t : Task SnoozCommandResult)
    (hd : exn -> Task unit) :
  gate_ok false t ->
  (forall e, answers_once (correlated rid) false (hd e)) ->
  answers_once (correlated rid) false (try_except (reply_result rid t) hd).
Proof.
  intros Hok Hhd. unfold reply_result. apply answers_try_bind; auto.
  intros res. unfold ensure_success. destruct (status res); simpl; auto.
  apply send_ok_correlated.
Qed.

Lemma dispatch_answers `{PyBuiltins} (mgr : SnoozManager) (msg : list (string * json))
    (rid command device_name : json) :
  answers_once (correlated rid) false
    (try_except (dispatch mgr msg rid command device_name)
       (fun exc => _send_error rid (exn_str exc))).
Proof.
  pose proof (fun e => send_error_correlated rid (exn_str e)) as Hhd.
  assert (Hcmd : forall c, gate_ok false (run_command mgr c))
    by (intros c; apply run_command_gate_ok).
  unfold dispatch.
  repeat match goal with
         | |- context [if ?b then _ else _] => destruct b
         end;
    repeat match goal with
           | |- context [match assoc_get ?k msg with _ => _ end] =>
               destruct (assoc_get k msg) as [v|]
           | |- context [match py_int ?v with _ => _ end] =>
               destruct (py_int v) as [e|z]
           end;
    simpl;
    first
      [ apply send_ok_correlated
      | apply send_error_correlated
      | apply Hhd
      | constructor; intros t; apply send_ok_correlated
      | apply reply_result_answers;
        [ first [ exact (Hcmd (NoiseOn device_name (dict_get "volume" msg)))
                | exact (Hcmd (NoiseOff device_name (dict_get "duration_s" msg)))
                | exact (Hcmd (SetVolume device_name z))
                | exact (Hcmd (LightOn device_name))
                | exact (Hcmd (LightOff device_name))
                | exact (Hcmd (SetLightBrightness device_name z)) ]
        | exact Hhd ]
      | idtac ].
  apply answers_try_bind; auto.
  - unfold cmd_get_state. destruct (get_device mgr device_name) as [e|[n d]]; constructor.
  - intros snap. apply send_ok_correlated.
Qed.

Lemma handle_message_answers `{PyBuiltins} (mgr : SnoozManager) (raw : string)
    (msg : list (string * json)) :
  json_loads raw = Some (JObj msg) ->
  answers_once (correlated (dict_get "request_id" msg)) false (_handle_message mgr raw).
Proof.
  intros Hl. unfold _handle_message. rewrite Hl.
  destruct (negb _); [apply send_error_correlated | apply dispatch_answers].
Qed.

Lemma run_try_except {A : Type} (w : World) (t : Task A) (hd : exn -> Task A) :
  forall n,
    run w n (try_except t hd)
    = match run w n t with
      | (evs, n', Raised e) =>
          let '(evs2, n2, o2) := run w n' (hd e) in ((evs ++ evs2)%list, n2, o2)
      | r => r
      end.
Proof.
  induction t as [a|e|k IH|k IH|name k IH|name c k IH|k IH|p k IH]; intros n; simpl.
  - reflexivity.
  - destruct (run w n (hd e)) as [[evs2 n2] o2]. reflexivity.
  - destruct n as [|n]; [reflexivity|]. rewrite IH.
    destruct (run w n k) as [[evs n'] [a|e|]]; try reflexivity.
    destruct (run w n' (hd e)) as [[evs2 n2] o2]. reflexivity.
  - rewrite IH.
    destruct (run w (S n) k) as [[evs n'] [a|e|]]; try reflexivity.
    destruct (run w n' (hd e)) as [[evs2 n2] o2]. reflexivity.
  - apply IH.
  - rewrite IH.
    destruct (run w n (k (exec_outcome w name c))) as [[evs n'] [a|e|]]; try reflexivity.
    destruct (run w n' (hd e)) as [[evs2 n2] o2]. reflexivity.
  - apply IH.
  - rewrite IH.
    destruct (run w n k) as [[evs n'] [a|e|]]; try reflexivity.
    destruct (run w n' (hd e)) as [[evs2 n2] o2]. reflexivity.
Qed.

Lemma sent_app (a b : list Event) : sent (a ++ b) = (sent a ++ sent b)%list.
Proof.
  induction a as [|ev a IH]; [reflexivity|].
  destruct ev; simpl; try assumption. now rewrite IH.
Qed.

Lemma handler_continues `{PyBuiltins} (w : World) (mgr : SnoozManager) (sem sem' : nat)
    (raw : string) (rest : list string) (evs : list Event) :
  run w sem (_handle_message mgr raw) = (evs, sem', Returned tt) ->
  _handler w mgr sem (raw :: rest)
  = ((evs ++ fst (_handler w mgr sem' rest))%list, snd (_handler w mgr sem' rest)).
Proof.
  intros Hrun. simpl. rewrite Hrun. now destruct (_handler w mgr sem' rest).
Qed.

Lemma handler_exception_answer `{PyBuiltins} (w : World) (mgr : SnoozManager) (n : nat)
    (raw : string) (msg : list (string * json)) (e : exn) :
  json_loads raw = Some (JObj msg) ->
  dict_get "type" msg = JStr "command" ->
  outcome_of (run w (S n)
                (dispatch mgr msg (dict_get "request_id" msg) (dict_get "command" msg)
                   (dict_get "device_name" msg))) = Raised e ->
  sent (events_of (run w (S n) (_handle_message mgr raw)))
  = [error_response (dict_get "request_id" msg) (exn_str e)].
Proof.
  intros Hl Ht Hraise.
  destruct (run_answers_once _ w false _ (handle_message_answers mgr raw msg Hl) n)
    as (evs & p & Hrun & Hsent & _).
  rewrite Hrun. unfold events_of. simpl. rewrite Hsent.
  unfold _handle_message in Hrun. rewrite Hl, Ht in Hrun. simpl in Hrun.
  rewrite run_try_except in Hrun.
  destruct (run w (S n) (dispatch _ _ _ _ _)) as [[evs1 n1] o1].
  unfold outcome_of in Hraise. simpl in Hraise. subst o1.
  simpl in Hrun. injection Hrun as <- _. rewrite sent_app in Hsent. simpl in Hsent.
  destruct (sent evs1) as [|q l]; simpl in Hsent; [congruence|].
  destruct l; discriminate.
Qed.

Lemma unknown_command_dispatch `{PyBuiltins} (mgr : SnoozManager)
    (msg : list (string * json)) (rid command device_name : json) :
  command_in command KNOWN_COMMAND_NAMES = false ->
  dispatch mgr msg rid command device_name
  = Raise (ValueError ("unknown_command: " ++ py_str command)).
Proof.
  intros Hunk. unfold command_in, KNOWN_COMMAND_NAMES, DEVICE_COMMAND_NAMES in Hunk.
  simpl in Hunk.
  repeat (apply orb_false_elim in Hunk as [? Hunk]).
  unfold dispatch, command_in, DEVICE_COMMAND_NAMES. simpl.
  repeat match goal with Hf : is_str command _ = false |- _ => rewrite Hf; clear Hf end.
  reflexivity.
Qed.

Lemma missing_device_name_dispatch `{PyBuiltins} (mgr : SnoozManager)
    (msg : list (string * json)) (rid command device_name : json) :
  command_in command DEVICE_COMMAND_NAMES = true ->
  truthy device_name = false ->
  dispatch mgr msg rid command device_name = Raise (ValueError "device_name is required").
Proof.
  intros Hin Hfalsy. unfold dispatch. rewrite Hin, Hfalsy. simpl.
  unfold command_in, DEVICE_COMMAND_NAMES in Hin. simpl in Hin.
  destruct command; try discriminate. simpl in *.
  destruct (s =? "heartbeat")%string eqn:E1.
  { apply String.eqb_eq in E1. subst. discriminate. }
  destruct (s =? "list_devices")%string eqn:E2.
  { apply String.eqb_eq in E2. subst. discriminate. }
  reflexivity.
Qed.

(** C8. A frame that [json.loads] rejects with [JSONDecodeError] is
    answered with exactly one response, [status] error, [error]
    invalid_json, [request_id] null, and the message loop goes on with the
    next frame. For a frame that decodes to an object: the handler returns
    after exactly one response that carries the request id of the message,
    and the loop goes on; a message whose type is not [command], an
    unknown command, a device command without [device_name], and any
    exception raised in the body of the [try] (a missing argument, an
    unknown device, an unready device, a failed command) each give the
    error response with that id. The code departs from the specification
    on a frame that is valid JSON and decodes to anything else than an
    object (a list, a string, a number, a boolean, null): [msg.get] is
    called before the [try], the [AttributeError] leaves
    [_handle_message], no response is sent, [_handler] stops reading, and
    the frames that follow on the connection are never answered. *)
Theorem one_response_unless_non_object `{PyBuiltins} (w : World) (mgr : SnoozManager)
    (sem : nat) (raw : string) (rest : list string) :
  json_loads raw = None ->
  run w sem (_handle_message mgr raw)
  = ([EvSend (error_response JNull "invalid_json")], sem, Returned tt)
  /\ _handler w mgr sem (raw :: rest)
     = (EvSend (error_response JNull "invalid_json") :: fst (_handler w mgr sem rest),
        snd (_handler w mgr sem rest))
  /\ (forall raw' msg n rest',
        json_loads raw' = Some (JObj msg) ->
        (exists evs p,
           run w (S n) (_handle_message mgr raw') = (evs, S n, Returned tt)
           /\ sent evs = [p]
           /\ correlated (dict_get "request_id" msg) p
           /\ _handler w mgr (S n) (raw' :: rest')
              = ((evs ++ fst (_handler w mgr (S n) rest'))%list,
                 snd (_handler w mgr (S n) rest')))
        /\ (is_str (dict_get "type" msg) "command" = false ->
            run w (S n) (_handle_message mgr raw')
            = ([EvSend (error_response (dict_get "request_id" msg) "type_must_be_command")],
               S n, Returned tt))
        /\ (dict_get "type" msg = JStr "command" ->
            command_in (dict_get "command" msg) KNOWN_COMMAND_NAMES = false ->
            run w (S n) (_handle_message mgr raw')
            = ([EvSend (error_response (dict_get "request_id" msg)
                          ("unknown_command: " ++ py_str (dict_get "command" msg)))],
               S n, Returned tt))
        /\ (dict_get "type" msg = JStr "command" ->
            command_in (dict_get "command" msg) DEVICE_COMMAND_NAMES = true ->
            truthy (dict_get "device_name" msg) = false ->
            run w (S n) (_handle_message mgr raw')
            = ([EvSend (error_response (dict_get "request_id" msg) "device_name is required")],
               S n, Returned tt))
        /\ (dict_get "type" msg = JStr "command" ->
            forall e,
              outcome_of (run w (S n)
                            (dispatch mgr msg (dict_get "request_id" msg)
                               (dict_get "command" msg) (dict_get "device_name" msg)))
              = Raised e ->
              sent (events_of (run w (S n) (_handle_message mgr raw')))
              = [error_response (dict_get "request_id" msg) (exn_str e)]))
  /\ (forall raw' v n rest',
        json_loads raw' = Some v ->
        (forall msg, v <> JObj msg) ->
        run w n (_handle_message mgr raw')
        = ([], n,
           Raised (AttributeError ("'" ++ type_name v ++ "' object has no attribute 'get'")))
        /\ _handler w mgr n (raw' :: rest')
           = ([], HandlerError
                    (AttributeError
                       ("'" ++ type_name v ++ "' object has no attribute 'get'")))).
Proof.
  intros Hbad.
  assert (Hrun : run w sem (_handle_message mgr raw)
                 = ([EvSend (error_response JNull "invalid_json")], sem, Returned tt)).
  { unfold _handle_message. now rewrite Hbad. }
  split; [exact Hrun|].
  split; [now rewrite (handler_continues w mgr sem sem raw rest _ Hrun)|].
  split.
  2:{ intros raw' v n rest' Hl Hv.
      assert (Hraise : run w n (_handle_message mgr raw')
                       = ([], n,
                          Raised (AttributeError
                                    ("'" ++ type_name v
                                     ++ "' object has no attribute 'get'")))).
      { unfold _handle_message. rewrite Hl.
        destruct v; try reflexivity. now destruct (Hv kvs). }
      split; [exact Hraise|].
      cbn [_handler]. rewrite Hraise. reflexivity. }
  intros raw' msg n rest' Hl.
  split.
  { destruct (run_answers_once _ w false _ (handle_message_answers mgr raw' msg Hl) n)
      as (evs & p & Hr & Hs & Hp).
    exists evs, p. repeat split; try assumption.
    now apply handler_continues. }
  split.
  { intros Hty. unfold _handle_message. rewrite Hl, Hty. reflexivity. }
  split.
  { intros Hty Hunk. unfold _handle_message. rewrite Hl, Hty. simpl.
    now rewrite unknown_command_dispatch. }
  split.
  { intros Hty Hin Hfalsy. unfold _handle_message. rewrite Hl, Hty. simpl.
    now rewrite missing_device_name_dispatch. }
  intros Hty e. now apply handler_exception_answer.
Qed.

Lemma one_response_unless_non_object_witness :
  @_handler sample_py sample_world sample_manager 1 ["{oops"; sample_get_state_frame]
  = ([EvSend (error_response JNull "invalid_json");
      EvSend (ok_response (JStr "x1") (snapshot bedroom))], PeerClosed).
Proof.
  rewrite (proj1 (proj2 (@one_response_unless_non_object sample_py sample_world
                           sample_manager 1%nat "{oops" [sample_get_state_frame] eq_refl))).
  reflexivity.
Defined.

(** The failing input: the second frame is the empty list. The first
    frame is answered; the second gets no response and ends the handler;
    the third, a valid [get_state], is never answered. *)
Example list_frame_silences_connection :
  @_handler sample_py sample_world sample_manager 1
    [sample_get_state_frame; "[]"; sample_get_state_frame]
  = ([EvSend (ok_response (JStr "x1") (snapshot bedroom))],
     HandlerError (AttributeError "'list' object has no attribute 'get'")).
Proof. reflexivity. Qed.

Example null_frame_silences_connection :
  @_handler decimal_py sample_world sample_manager 1
    [sample_null_frame; sample_get_state_frame]
  = ([], HandlerError (AttributeError "'NoneType' object has no attribute 'get'")).
Proof. reflexivity. Qed.

(** ** The state-change debouncer *)

Lemma wake_tasks_none (t : Z) (self : BleSnooz) (ks : list EmitTask) :
  Forall (fun k => task_status k <> Sleeping) ks -> wake_tasks t self ks = (ks, []).
Proof.
  induction 1 as [|k ks Hk _ IH]; simpl; [reflexivity|].
  rewrite IH. unfold task_due. destruct (task_status k); try reflexivity. congruence.
Qed.

Lemma with_event_task_twice (a b : option EmitTask) (self : BleSnooz) :
  with_event_task a (with_event_task b self) = with_event_task a self.
Proof. reflexivity. Qed.

Lemma with_event_task_same (self : BleSnooz) :
  with_event_task (_event_task self) self = self.
Proof. now destruct self. Qed.

Lemma store_state_event_task (s : SnoozDeviceState) (a : option EmitTask) (self : BleSnooz) :
  store_state s (with_event_task a self) = with_event_task a (store_state s self).
Proof.
  unfold store_state. simpl. now destruct (_device self).
Qed.

Lemma store_state_twice (s s' : SnoozDeviceState) (self : BleSnooz) :
  store_state s' (store_state s self) = store_state s' self.
Proof.
  unfold store_state. destruct (_device self) eqn:E; simpl; [reflexivity|].
  now rewrite E.
Qed.

Lemma emit_event_event_task (a : option EmitTask) (self : BleSnooz) :
  emit_event (with_event_task a self) = emit_event self.
Proof. reflexivity. Qed.

Lemma on_state_change_cancels (now : Z) (self : BleSnooz) (k : EmitTask) :
  _event_task self = Some k -> task_status k = Sleeping ->
  _on_state_change now self
  = (with_event_task (Some (fresh_task now)) self,
     Some {| wake_at := wake_at k; task_status := Cancelled |}).
Proof.
  intros Hk Hs. unfold _on_state_change, task_done, task_cancel. now rewrite Hk, Hs.
Qed.

Lemma on_state_change_replaced (now : Z) (self : BleSnooz) :
  fst (_on_state_change now self) = with_event_task (Some (fresh_task now)) self
  /\ forall k, snd (_on_state_change now self) = Some k -> task_status k <> Sleeping.
Proof.
  split; [reflexivity|].
  unfold _on_state_change, task_done, task_cancel. simpl.
  destruct (_event_task self) as [k0|]; [|discriminate].
  intros k [= <-]. destruct (task_status k0) eqn:E; simpl; congruence.
Qed.

Lemma run_until_quiet (t : Z) (L : SessionLoop) :
  clock L <= t ->
  Forall (fun k => task_status k <> Sleeping) (detached L) ->
  (forall k, _event_task (session L) = Some k -> task_status k = Sleeping -> t < wake_at k) ->
  run_until t L
  = {| clock := t; session := session L; detached := detached L; emitted := emitted L |}.
Proof.
  intros Hc Hd Hk. unfold run_until. rewrite (wake_tasks_none _ _ _ Hd).
  assert (Hm : Z.max (clock L) t = t) by lia. rewrite Hm.
  destruct (_event_task (session L)) as [k|] eqn:E.
  - unfold task_due. destruct (task_status k) eqn:Es.
    + specialize (Hk k eq_refl Es).
      assert (Hle : (wake_at k <=? t) = false) by (apply Z.leb_gt; lia).
      rewrite Hle. simpl. rewrite <- E, with_event_task_same, app_nil_r. reflexivity.
    + simpl. rewrite <- E, with_event_task_same, app_nil_r. reflexivity.
    + simpl. rewrite <- E, with_event_task_same, app_nil_r. reflexivity.
  - simpl. rewrite <- E, with_event_task_same, app_nil_r. reflexivity.
Qed.

Lemma notify_quiet (gap : Z) (s : SnoozDeviceState) (L : SessionLoop) :
  0 <= gap ->
  Forall (fun k => task_status k <> Sleeping) (detached L) ->
  (forall k, _event_task (session L) = Some k -> task_status k = Sleeping ->
             clock L + gap < wake_at k) ->
  clock (notify gap s L) = clock L + gap
  /\ emitted (notify gap s L) = emitted L
  /\ session (notify gap s L)
     = with_event_task (Some (fresh_task (clock L + gap))) (store_state s (session L))
  /\ Forall (fun k => task_status k <> Sleeping) (detached (notify gap s L)).
Proof.
  intros Hg Hd Hk. unfold notify.
  rewrite (run_until_quiet (clock L + gap) L) by (auto; lia).
  cbn [clock session detached emitted].
  pose proof (on_state_change_replaced (clock L + gap) (store_state s (session L)))
    as [H1 H2].
  destruct (_on_state_change (clock L + gap) (store_state s (session L)))
    as [self' replaced].
  simpl in H1, H2. cbn [clock session detached emitted].
  repeat split; try assumption.
  destruct replaced as [k|]; [|assumption].
  apply Forall_app. split; [assumption|]. constructor; [|constructor]. now apply H2.
Qed.

Lemma notify_all_fresh (rest : list (Z * SnoozDeviceState)) :
  forall (L : SessionLoop) (s : SnoozDeviceState) (self : BleSnooz),
    Forall (fun gs => 0 <= fst gs < DEBOUNCE_MS) rest ->
    Forall (fun k => task_status k <> Sleeping) (detached L) ->
    session L = with_event_task (Some (fresh_task (clock L))) (store_state s self) ->
    clock (notify_all rest L) = clock L + burst_span rest
    /\ emitted (notify_all rest L) = emitted L
    /\ session (notify_all rest L)
       = with_event_task (Some (fresh_task (clock L + burst_span rest)))
           (store_state (last_state s rest) self)
    /\ Forall (fun k => task_status k <> Sleeping) (detached (notify_all rest L)).
Proof.
  induction rest as [|[gap s'] rest IH]; intros L s self Hgaps Hd Hs.
  - simpl. unfold burst_span, last_state. simpl. rewrite Z.add_0_r. auto.
  - inversion Hgaps as [|? ? [Hg0 Hg1] Hrest]; subst. simpl in Hg0, Hg1.
    destruct (notify_quiet gap s' L Hg0 Hd) as (Hc & He & Hsess & Hd').
    { intros k Hk _. rewrite Hs in Hk. simpl in Hk. injection Hk as <-.
      unfold fresh_task. simpl. lia. }
    simpl notify_all.
    destruct (IH (notify gap s' L) s' self Hrest Hd') as (Hc2 & He2 & Hs2 & Hd2).
    { rewrite Hsess, Hc, Hs, store_state_event_task, with_event_task_twice,
        store_state_twice. reflexivity. }
    unfold burst_span in *. simpl. unfold last_state in *. simpl.
    rewrite Hc2, He2, Hs2, Hc, He.
    assert (Hl : List.last (List.map snd rest) s'
                 = match List.map snd rest with
                   | [] => s'
                   | _ :: _ => List.last (List.map snd rest) s
                   end).
    { destruct (List.map snd rest) as [|x l]; [reflexivity|].
      clear. revert x. induction l as [|y l IHl]; intros x; [reflexivity|].
      simpl in *. apply IHl. }
    rewrite Hl. repeat split; try assumption.
    + lia.
    + f_equal. f_equal. f_equal. lia.
Qed.

Lemma run_until_due (t : Z) (L : SessionLoop) (k : EmitTask) :
  clock L <= t ->
  Forall (fun k => task_status k <> Sleeping) (detached L) ->
  _event_task (session L) = Some k -> task_status k = Sleeping -> wake_at k <= t ->
  emitted (run_until t L) = (emitted L ++ [(wake_at k, emit_event (session L))])%list.
Proof.
  intros Hc Hd Hk Hs Hw. unfold run_until. rewrite (wake_tasks_none _ _ _ Hd), Hk.
  unfold task_due. rewrite Hs.
  assert (Hle : (wake_at k <=? t) = true) by (apply Z.leb_le; lia).
  rewrite Hle. reflexivity.
Qed.

(** The event of a session whose device holds state [s]: the type, the
    name, and the snapshot with the five fields of [s]. *)
Lemma emit_event_bound (s : SnoozDeviceState) (self : BleSnooz) (d : SnoozDevice) :
  _device self = Some d ->
  emit_event (store_state s self)
  = JObj [("type", JStr "device_state");
      ("device_name", JStr (device_name (self)));
      ("state", JObj [
         ("device_name", JStr (device_name (self)));
         ("address", JStr (address (self)));
         ("display_name",
            opt_json (fun x => JStr (display_name x)) (_discovered (self)));
         ("connected", JBool (is_connected d));
         ("connection_status", JStr (connection_status d));
         ("model",
            opt_json (fun x => JStr (model_name (model (snooz_adv x))))
              (_discovered (self)));
         ("firmware_version",
            opt_json
              (fun x => JStr (firmware_name (firmware_version (snooz_adv x))))
              (_discovered (self)));
         ("state", JObj [
            ("on", jbool_opt (on s));
            ("volume", jint_opt (volume s));
            ("light_on", jbool_opt (light_on s));
            ("light_brightness", jint_opt (light_brightness s));
            ("night_mode_enabled", jbool_opt (night_mode_enabled s))])])].
Proof.
  intros Hd. unfold emit_event, snapshot, store_state. rewrite Hd. reflexivity.
Qed.

Lemma emit_event_unbound (s : SnoozDeviceState) (self : BleSnooz) :
  _device self = None ->
  emit_event (store_state s self)
  = JObj [("type", JStr "device_state");
                  ("device_name", JStr (device_name (self)));
                  ("state", JObj [
                     ("device_name", JStr (device_name (self)));
                     ("address", JStr (address (self)));
                     ("display_name",
                        opt_json (fun x => JStr (display_name x)) (_discovered (self)));
                     ("connected", JBool false);
                     ("connection_status", JStr "UNKNOWN");
                     ("model",
                        opt_json (fun x => JStr (model_name (model (snooz_adv x))))
                          (_discovered (self)));
                     ("firmware_version",
                        opt_json
                          (fun x => JStr (firmware_name (firmware_version (snooz_adv x))))
                          (_discovered (self)));
                     ("state", JObj [
                        ("on", JNull); ("volume", JNull); ("light_on", JNull);
                        ("light_brightness", JNull); ("night_mode_enabled", JNull)])])].
Proof.
  intros Hd. unfold store_state. rewrite Hd. unfold emit_event, snapshot.
  rewrite Hd. reflexivity.
Qed.

(** C2. A burst of N >= 1 notifications, the first at the current time of a
    settled loop and each next one less than the debounce delay (250 ms)
    after the one before: nothing is emitted during the burst; after the
    Nth notification the session holds one sleeping task, due 250 ms after
    that notification, and every task dropped on the way is cancelled or
    finished; until the delay has elapsed nothing is emitted; once it has
    elapsed exactly one event has been emitted, at that time, and it
    carries the snapshot of the state of the Nth notification: its type
    is [device_state], it names the device, and the [state] object of its
    snapshot holds the five fields of the Nth state, next to the
    connection fields of the device (for a session with no device those
    fields are null). [_on_state_change] cancels the task that was asleep
    and starts a new delay. *)
Theorem debounce_coalesces_burst (L0 : SessionLoop) (s1 : SnoozDeviceState)
    (rest : list (Z * SnoozDeviceState)) :
  loop_settled L0 ->
  Forall (fun gs => 0 <= fst gs < DEBOUNCE_MS) rest ->
  let L := notify_all ((0, s1) :: rest) L0 in
  let tN := clock L0 + burst_span rest in
  let sN := last_state s1 rest in
  clock L = tN
  /\ emitted L = emitted L0
  /\ _event_task (session L) = Some (fresh_task tN)
  /\ Forall (fun k => task_status k <> Sleeping) (detached L)
  /\ (forall T, 0 <= T < DEBOUNCE_MS -> emitted (run_until (tN + T) L) = emitted L0)
  /\ (forall T, DEBOUNCE_MS <= T ->
        emitted (run_until (tN + T) L)
        = (emitted L0
             ++ [(tN + DEBOUNCE_MS, emit_event (store_state sN (session L0)))])%list)
  /\ (forall now self k,
        _event_task self = Some k -> task_status k = Sleeping ->
        _on_state_change now self
        = (with_event_task (Some (fresh_task now)) self,
           Some {| wake_at := wake_at k; task_status := Cancelled |}))
  /\ (forall d, _device (session L0) = Some d ->
        emit_event (store_state sN (session L0))
        = JObj [("type", JStr "device_state");
                  ("device_name", JStr (device_name (session L0)));
                  ("state", JObj [
                     ("device_name", JStr (device_name (session L0)));
                     ("address", JStr (address (session L0)));
                     ("display_name",
                        opt_json (fun x => JStr (display_name x)) (_discovered (session L0)));
                     ("connected", JBool (is_connected d));
                     ("connection_status", JStr (connection_status d));
                     ("model",
                        opt_json (fun x => JStr (model_name (model (snooz_adv x))))
                          (_discovered (session L0)));
                     ("firmware_version",
                        opt_json
                          (fun x => JStr (firmware_name (firmware_version (snooz_adv x))))
                          (_discovered (session L0)));
                     ("state", JObj [
                        ("on", jbool_opt (on sN));
                        ("volume", jint_opt (volume sN));
                        ("light_on", jbool_opt (light_on sN));
                        ("light_brightness", jint_opt (light_brightness sN));
                        ("night_mode_enabled", jbool_opt (night_mode_enabled sN))])])])
  /\ (_device (session L0) = None ->
        emit_event (store_state sN (session L0))
        = JObj [("type", JStr "device_state");
                  ("device_name", JStr (device_name (session L0)));
                  ("state", JObj [
                     ("device_name", JStr (device_name (session L0)));
                     ("address", JStr (address (session L0)));
                     ("display_name",
                        opt_json (fun x => JStr (display_name x)) (_discovered (session L0)));
                     ("connected", JBool false);
                     ("connection_status", JStr "UNKNOWN");
                     ("model",
                        opt_json (fun x => JStr (model_name (model (snooz_adv x))))
                          (_discovered (session L0)));
                     ("firmware_version",
                        opt_json
                          (fun x => JStr (firmware_name (firmware_version (snooz_adv x))))
                          (_discovered (session L0)));
                     ("state", JObj [
                        ("on", JNull); ("volume", JNull); ("light_on", JNull);
                        ("light_brightness", JNull); ("night_mode_enabled", JNull)])])]).
Proof.
  intros [Hd Hk] Hgaps L tN sN.
  destruct (notify_quiet 0 s1 L0 (Z.le_refl 0) Hd) as (Hc1 & He1 & Hs1 & Hd1).
  { intros k Hke Hks. specialize (Hk k Hke Hks). lia. }
  rewrite Z.add_0_r in Hc1, Hs1.
  destruct (notify_all_fresh rest (notify 0 s1 L0) s1 (session L0) Hgaps Hd1)
    as (Hc & He & Hs & Hdet).
  { now rewrite Hs1, Hc1. }
  rewrite Hc1 in Hc, Hs. rewrite He1 in He.
  change (notify_all rest (notify 0 s1 L0)) with L in Hc, He, Hs, Hdet.
  fold tN in Hc, Hs. fold sN in Hs.
  assert (Hdeb : 0 < DEBOUNCE_MS) by reflexivity.
  split; [exact Hc|]. split; [exact He|].
  split; [rewrite Hs; reflexivity|]. split; [exact Hdet|].
  split; [|split].
  - intros T [HT0 HT1]. rewrite run_until_quiet; [exact He| lia | exact Hdet |].
    intros k Hke _. rewrite Hs in Hke. simpl in Hke. injection Hke as <-.
    unfold fresh_task. simpl. lia.
  - intros T HT.
    rewrite (run_until_due (tN + T) L (fresh_task tN)); try assumption; try reflexivity.
    + rewrite He, Hs, emit_event_event_task. reflexivity.
    + lia.
    + rewrite Hs. reflexivity.
    + unfold fresh_task. simpl. lia.
  - split; [intros now self k; apply on_state_change_cancels|].
    split; [intros d; apply emit_event_bound | apply emit_event_unbound].
Qed.

Lemma loop_init_settled (now : Z) (self : BleSnooz) : loop_settled (loop_init now self).
Proof.
  split; [constructor | discriminate].
Qed.

Lemma run_until_settled (t : Z) (L : SessionLoop) :
  loop_settled L -> loop_settled (run_until t L).
Proof.
  intros [Hd Hk]. unfold run_until. rewrite (wake_tasks_none _ _ _ Hd).
  destruct (_event_task (session L)) as [k|] eqn:E.
  - unfold task_due. destruct (task_status k) eqn:Es.
    + destruct (wake_at k <=? t) eqn:Ew; split; simpl; try assumption.
      * intros k' [= <-]. discriminate.
      * intros k' [= <-] _. apply Z.leb_gt in Ew. specialize (Hk k eq_refl Es). lia.
    + split; simpl; [assumption|]. intros k' [= <-]. congruence.
    + split; simpl; [assumption|]. intros k' [= <-]. congruence.
  - split; simpl; [assumption | discriminate].
Qed.

Lemma notify_settled (gap : Z) (s : SnoozDeviceState) (L : SessionLoop) :
  loop_settled L -> loop_settled (notify gap s L).
Proof.
  intros HL. pose proof (run_until_settled (clock L + gap) L HL) as [Hd Hk].
  unfold notify. remember (run_until (clock L + gap) L) as L1 eqn:EL1. clear EL1.
  pose proof (on_state_change_replaced (clock L1) (store_state s (session L1))) as [H1 H2].
  destruct (_on_state_change (clock L1) (store_state s (session L1))) as [self' replaced].
  simpl in H1, H2.
  split; cbn [clock session detached emitted].
  - destruct replaced as [k|]; [|assumption].
    apply Forall_app. split; [assumption|]. constructor; [|constructor]. now apply H2.
  - rewrite H1. intros k [= <-] _. unfold fresh_task, DEBOUNCE_MS. cbn [wake_at]. lia.
Qed.

Lemma debounce_coalesces_burst_witness :
  emitted (run_until 1599 (notify_all ((0, state_quiet) :: sample_burst_rest) sample_loop))
  = [(1599,
      JObj [("type", JStr "device_state"); ("device_name", JStr "bedroom");
             ("state", JObj [
                ("device_name", JStr "bedroom"); ("address", JStr "AA:BB:CC:DD:EE:FF");
                ("display_name", JStr "Snooz-1234"); ("connected", JBool false);
                ("connection_status", JStr "DISCONNECTED");
                ("model", JStr "PRO"); ("firmware_version", JStr "V6");
                ("state", JObj [
                   ("on", JBool true); ("volume", JInt 60); ("light_on", JBool true);
                   ("light_brightness", JInt 80); ("night_mode_enabled", JBool false)])])])].
Proof.
  pose proof (debounce_coalesces_burst sample_loop state_quiet sample_burst_rest
                (loop_init_settled 1000 bedroom_bound)) as Hw.
  assert (Hgaps : Forall (fun gs : Z * SnoozDeviceState => 0 <= fst gs < DEBOUNCE_MS)
                    sample_burst_rest).
  { repeat constructor; simpl; unfold DEBOUNCE_MS; lia. }
  destruct (Hw Hgaps) as (_ & _ & _ & _ & _ & Hemit & _).
  apply (Hemit 250). unfold DEBOUNCE_MS. lia.
Defined.

(** Two notifications 300 ms apart are not one burst: each is emitted. *)
Example debounce_two_quiescent_periods :
  List.map fst
    (emitted (run_until 2000 (notify 300 state_loud (notify 0 state_quiet sample_loop))))
  = [1250; 1550].
Proof. reflexivity. Qed.

(** ** The discovery scan: matching *)

Lemma upper_empty (s : string) : upper s = "" <-> s = "".
Proof.
  destruct s; simpl; split; intros; try reflexivity; discriminate.
Qed.

Lemma str_truthy_true (s : string) : str_truthy s = true <-> s <> "".
Proof.
  destruct s; simpl; split; intros; try congruence; discriminate.
Qed.

Lemma str_truthy_false (s : string) : str_truthy s = false <-> s = "".
Proof.
  destruct s; simpl; split; intros; try congruence; discriminate.
Qed.

Lemma build_lookup_maps (devices : gmap string BleSnooz) (targets : list string) :
  (forall t, In t targets -> is_Some (devices !! t)) ->
  forall a n,
    build_lookup devices targets a n
    = inr (build_map addr_key devices targets a, build_map name_key devices targets n).
Proof.
  induction targets as [|t rest IH]; intros Hreg a n; simpl; [reflexivity|].
  destruct (Hreg t (or_introl eq_refl)) as [dev Hdev]. rewrite Hdev.
  rewrite IH by (intros t' Ht'; apply Hreg; now right).
  unfold addr_key, name_key.
  destruct (str_truthy (address dev)); destruct (match_name dev) as [m|];
    try destruct (str_truthy m); reflexivity.
Qed.

Lemma build_map_sound (key : BleSnooz -> option string) (devices : gmap string BleSnooz)
    (targets : list string) :
  forall (m : gmap string string) k t,
    build_map key devices targets m !! k = Some t ->
    (In t targets /\ exists dev, devices !! t = Some dev /\ key dev = Some k)
    \/ m !! k = Some t.
Proof.
  induction targets as [|t0 rest IH]; intros m k t Hk; simpl in *; [now right|].
  destruct (devices !! t0) as [dev0|] eqn:Hdev; [|now right].
  apply IH in Hk as [[Hin Hd]|Hm]; [left; split; [now right | exact Hd]|].
  destruct (key dev0) as [k0|] eqn:Hkey; [|now right].
  destruct (decide (k0 = k)) as [->|Hne].
  - rewrite lookup_insert_eq in Hm. injection Hm as <-.
    left. split; [now left | eauto].
  - rewrite lookup_insert_ne in Hm by assumption. now right.
Qed.

Lemma build_map_keeps (key : BleSnooz -> option string) (devices : gmap string BleSnooz)
    (targets : list string) :
  forall (m : gmap string string) k x,
    m !! k = Some x ->
    exists t', build_map key devices targets m !! k = Some t'
               /\ (t' = x \/ (In t' targets
                              /\ exists dev, devices !! t' = Some dev /\ key dev = Some k)).
Proof.
  induction targets as [|t0 rest IH]; intros m k x Hm; simpl; [eauto|].
  destruct (devices !! t0) as [dev0|] eqn:Hdev; [|eauto].
  destruct (key dev0) as [k0|] eqn:Hkey.
  - destruct (decide (k0 = k)) as [->|Hne].
    + destruct (IH (<[k := t0]> m) k t0) as (t' & Ht' & Hor);
        [apply lookup_insert_eq|].
      exists t'. split; [exact Ht'|]. right.
      destruct Hor as [->|[Hin Hd]]; [split; [now left | eauto] | split; [now right | exact Hd]].
    + destruct (IH (<[k0 := t0]> m) k x) as (t' & Ht' & Hor);
        [now rewrite lookup_insert_ne|].
      exists t'. split; [exact Ht'|].
      destruct Hor as [->|[Hin Hd]]; [now left | right; split; [now right | exact Hd]].
  - destruct (IH m k x Hm) as (t' & Ht' & Hor).
    exists t'. split; [exact Ht'|].
    destruct Hor as [->|[Hin Hd]]; [now left | right; split; [now right | exact Hd]].
Qed.

Lemma build_map_complete (key : BleSnooz -> option string) (devices : gmap string BleSnooz)
    (targets : list string) :
  forall (m : gmap string string) k t dev,
    (forall t', In t' targets -> is_Some (devices !! t')) ->
    In t targets -> devices !! t = Some dev -> key dev = Some k ->
    exists t', build_map key devices targets m !! k = Some t'
               /\ In t' targets
               /\ exists dev', devices !! t' = Some dev' /\ key dev' = Some k.
Proof.
  induction targets as [|t0 rest IH]; intros m k t dev Hreg Hin Hdev Hkey; [destruct Hin|].
  simpl. destruct (Hreg t0 (or_introl eq_refl)) as [dev0 Hdev0]. rewrite Hdev0.
  assert (Hreg' : forall t', In t' rest -> is_Some (devices !! t'))
    by (intros t' Ht'; apply Hreg; now right).
  destruct Hin as [->|Hin].
  - rewrite Hdev0 in Hdev. injection Hdev as ->. rewrite Hkey.
    destruct (build_map_keeps key devices rest (<[k := t]> m) k t) as (t' & Ht' & Hor);
      [apply lookup_insert_eq|].
    exists t'. split; [exact Ht'|].
    destruct Hor as [->|[Hin' Hd]]; [split; [now left | eauto] | split; [now right | exact Hd]].
  - destruct (IH (match key dev0 with Some k0 => <[k0 := t0]> m | None => m end)
                k t dev Hreg' Hin Hdev Hkey) as (t' & Ht' & Hin' & Hd).
    exists t'. split; [exact Ht'|]. split; [now right | exact Hd].
Qed.

Lemma build_map_lookup (key : BleSnooz -> option string) (devices : gmap string BleSnooz)
    (targets : list string) (k t : string) :
  (key = addr_key \/ key = name_key) ->
  distinct_keys devices targets ->
  (forall t', In t' targets -> is_Some (devices !! t')) ->
  build_map key devices targets ∅ !! k = Some t
  <-> In t targets /\ exists dev, devices !! t = Some dev /\ key dev = Some k.
Proof.
  intros Hkey Hdist Hreg. split.
  - intros Hk. apply build_map_sound in Hk as [H|H]; [exact H|].
    rewrite lookup_empty in H. discriminate.
  - intros [Hin (dev & Hdev & Hk)].
    destruct (build_map_complete key devices targets ∅ k t dev Hreg Hin Hdev Hk)
      as (t' & Ht' & Hin' & dev' & Hdev' & Hk').
    now rewrite (Hdist key t t' dev dev' k Hkey Hin Hin' Hdev Hdev' Hk Hk').
Qed.

Lemma build_map_lookup_none (key : BleSnooz -> option string)
    (devices : gmap string BleSnooz) (targets : list string) (k : string) :
  (forall t', In t' targets -> is_Some (devices !! t')) ->
  build_map key devices targets ∅ !! k = None
  <-> forall t dev, In t targets -> devices !! t = Some dev -> key dev <> Some k.
Proof.
  intros Hreg. split.
  - intros Hnone t dev Hin Hdev Hk.
    destruct (build_map_complete key devices targets ∅ k t dev Hreg Hin Hdev Hk)
      as (t' & Ht' & _). congruence.
  - intros Hno. destruct (build_map key devices targets ∅ !! k) as [t|] eqn:E; [|reflexivity].
    apply build_map_sound in E as [[Hin (dev & Hdev & Hk)]|H].
    + exfalso. eapply Hno; eauto.
    + rewrite lookup_empty in H. discriminate.
Qed.

Lemma addr_key_some (dev : BleSnooz) (k : string) :
  addr_key dev = Some k <-> address dev <> "" /\ upper (address dev) = k.
Proof.
  unfold addr_key. destruct (str_truthy (address dev)) eqn:E.
  - apply str_truthy_true in E. split; [intros [= <-]; auto | intros [_ ->]; reflexivity].
  - apply str_truthy_false in E. split; [discriminate | intros [Hne _]; congruence].
Qed.

Lemma name_key_some (dev : BleSnooz) (k : string) :
  name_key dev = Some k
  <-> exists m, match_name dev = Some m /\ m <> "" /\ lower (strip m) = k.
Proof.
  unfold name_key. destruct (match_name dev) as [m|].
  - destruct (str_truthy m) eqn:E.
    + apply str_truthy_true in E. split.
      * intros [= <-]. eauto.
      * intros (m' & [= <-] & _ & ->). reflexivity.
    + apply str_truthy_false in E. split; [discriminate|].
      intros (m' & [= <-] & Hne & _). congruence.
  - split; [discriminate | intros (m' & Hm & _); discriminate].
Qed.

Lemma assoc_get_snoc {A : Type} (t n : string) (x : A) (l : list (string * A)) :
  assoc_get t (l ++ [(n, x)])
  = match assoc_get t l with
    | Some y => Some y
    | None => if String.eqb t n then Some x else None
    end.
Proof.
  induction l as [|[k v] l IH]; simpl; [reflexivity|].
  destruct (String.eqb t k); [reflexivity | exact IH].
Qed.

Section Matching.
Variable devices : gmap string BleSnooz.
Variable targets : list string.
Hypothesis registered : forall t, In t targets -> is_Some (devices !! t).
Hypothesis distinct : distinct_keys devices targets.

Let a2d := build_map addr_key devices targets ∅.
Let n2d := build_map name_key devices targets ∅.

Lemma address_lookup_none (d : Detection) :
  a2d !! upper (ble_address (fst d)) = None -> address_unknown devices targets d.
Proof.
  intros Hnone t dev Hin Hdev.
  destruct (decide (address dev = "")) as [|Hne]; [now left|right].
  intros Hm. unfold address_matches in Hm.
  apply (proj1 (build_map_lookup_none addr_key devices targets _ registered) Hnone t dev Hin Hdev).
  apply addr_key_some. split; [assumption | now rewrite Hm].
Qed.

Lemma matched_device_name_iff (target : string) (dev : BleSnooz) (d : Detection) :
  In target targets -> devices !! target = Some dev ->
  matched_device_name a2d n2d d = Some target
  <-> (address dev <> "" /\ address_matches dev d)
      \/ (address_unknown devices targets d /\ name_matches dev d).
Proof.
  intros Hin Hdev. unfold matched_device_name.
  fold (advertised_name d).
  set (A := upper (ble_address (fst d))). set (N := lower (advertised_name d)).
  assert (Hname : (if str_truthy N then n2d !! N else None) = Some target
                  <-> name_matches dev d).
  { unfold name_matches. fold N. destruct (str_truthy N) eqn:EN.
    - apply str_truthy_true in EN. unfold n2d.
      rewrite (build_map_lookup name_key devices targets N target (or_intror eq_refl)
                 distinct registered).
      split.
      + intros [_ (dev' & Hdev' & Hk)]. rewrite Hdev in Hdev'. injection Hdev' as <-.
        apply name_key_some in Hk as (m & Hm & Hne & Hl). exists m. auto.
      + intros (m & Hm & Hne & _ & Hl). split; [assumption|].
        exists dev. split; [assumption|]. apply name_key_some. exists m. auto.
    - apply str_truthy_false in EN. split; [discriminate|].
      intros (m & _ & _ & Hne & _). congruence. }
  destruct (str_truthy A) eqn:EA.
  - destruct (a2d !! A) as [n|] eqn:Hlk.
    + unfold a2d in Hlk.
      apply (build_map_lookup addr_key devices targets A n (or_introl eq_refl)
               distinct registered) in Hlk as [Hn (devn & Hdevn & Hkn)].
      apply addr_key_some in Hkn as [Hne Hup].
      split.
      * intros [= <-]. rewrite Hdev in Hdevn. injection Hdevn as <-.
        left. split; [assumption|]. unfold address_matches. now fold A.
      * intros [[Hne' Hm]|[Hunk _]].
        -- f_equal.
           apply (distinct addr_key n target devn dev A (or_introl eq_refl) Hn Hin Hdevn Hdev).
           ++ apply addr_key_some. auto.
           ++ apply addr_key_some. split; [assumption|]. unfold address_matches in Hm.
              now fold A in Hm.
        -- exfalso. destruct (Hunk n devn Hn Hdevn) as [He|Hnm]; [congruence|].
           apply Hnm. unfold address_matches. now fold A.
    + rewrite Hname. split.
      * intros Hnm. right. split; [|assumption]. now apply address_lookup_none.
      * intros [[Hne Hm]|[_ Hnm]]; [|assumption]. exfalso.
        apply (proj1 (build_map_lookup_none addr_key devices targets A registered) Hlk
                 target dev Hin Hdev).
        apply addr_key_some. split; [assumption|]. unfold address_matches in Hm.
        now fold A in Hm.
  - apply str_truthy_false in EA. rewrite Hname. split.
    + intros Hnm. right. split; [|assumption].
      intros t dev' _ _. destruct (decide (address dev' = "")) as [|Hne]; [now left|right].
      unfold address_matches. fold A. rewrite EA. intros Hup. symmetry in Hup.
      apply (proj1 (upper_empty _)) in Hup. congruence.
    + intros [[Hne Hm]|[_ Hnm]]; [|assumption]. exfalso.
      unfold address_matches in Hm. fold A in Hm. rewrite EA in Hm. symmetry in Hm.
      apply (proj1 (upper_empty _)) in Hm. congruence.
Qed.

Lemma cb_first_match_wins (target : string) (found : Found) (d : Detection) :
  in_found target found = true ->
  assoc_get target (fst (cb a2d n2d targets found d)) = assoc_get target found.
Proof.
  unfold in_found, cb. intros Hin.
  destruct (matched_device_name a2d n2d d) as [n|]; [|reflexivity].
  destruct (str_truthy n && negb _); [|reflexivity].
  simpl. rewrite assoc_get_snoc. now destruct (assoc_get target found).
Qed.

Lemma cb_binds_iff (target : string) (found : Found) (d : Detection) :
  in_found target found = false ->
  assoc_get target (fst (cb a2d n2d targets found d)) = Some d
  <-> matched_device_name a2d n2d d = Some target /\ target <> "".
Proof.
  intros Hout. unfold cb.
  assert (Hget : assoc_get target found = None).
  { unfold in_found in Hout. now destruct (assoc_get target found). }
  destruct (matched_device_name a2d n2d d) as [n|].
  - destruct (str_truthy n) eqn:Etr; cbn [negb andb fst].
    + destruct (in_found n found) eqn:Enf; cbn [negb andb fst].
      * rewrite Hget. split; [discriminate|]. intros [[= ->] _]. congruence.
      * rewrite assoc_get_snoc, Hget.
        destruct (String.eqb target n) eqn:Eq.
        -- apply String.eqb_eq in Eq. subst n.
           split; [intros _; split; [reflexivity | now apply str_truthy_true] | reflexivity].
        -- apply String.eqb_neq in Eq. split; [discriminate|]. intros [[= ->] _]. congruence.
    + rewrite Hget. split; [discriminate|]. intros [[= ->] Hne].
      apply str_truthy_false in Etr. congruence.
  - cbn [fst]. rewrite Hget. split; [discriminate | intros [? _]; discriminate].
Qed.

End Matching.

(** ** The discovery scan: what the callback records *)

Section ScanWait.
Variables a2d n2d : gmap string string.
Variable targets : list string.
Variable timeout : Z.

#[local] Abbreviation agrees := (agrees a2d n2d).

Lemma first_match_snoc (pre : list Detection) (d : Detection) (t : string) :
  first_match a2d n2d (pre ++ [d]) t
  = match first_match a2d n2d pre t with
    | Some x => Some x
    | None => if records a2d n2d t d then Some d else None
    end.
Proof.
  induction pre as [|x pre IH]; simpl; [reflexivity|].
  destruct (records a2d n2d t x); [reflexivity | exact IH].
Qed.

Lemma cb_agrees (found : Found) (pre : list Detection) (d : Detection) :
  agrees found pre -> agrees (fst (cb a2d n2d targets found d)) (pre ++ [d]).
Proof.
  intros Hag t. rewrite first_match_snoc, <- Hag.
  unfold cb, records, recorded.
  destruct (matched_device_name a2d n2d d) as [n|]; cbn [fst].
  - destruct (str_truthy n); cbn [andb fst].
    + destruct (in_found n found) eqn:Enf; cbn [negb fst].
      * destruct (assoc_get t found) eqn:Et; [reflexivity|].
        destruct (String.eqb n t) eqn:Eq; [|reflexivity].
        apply String.eqb_eq in Eq. subst n. unfold in_found in Enf.
        rewrite Et in Enf. discriminate.
      * rewrite assoc_get_snoc. rewrite (String.eqb_sym t n). reflexivity.
    + now destruct (assoc_get t found).
  - now destruct (assoc_get t found).
Qed.

Lemma all_found_complete (found : Found) (pre : list Detection) :
  agrees found pre -> all_found targets found = complete a2d n2d targets pre.
Proof.
  intros Hag. unfold all_found, complete.
  induction targets as [|t ts IH]; simpl; [reflexivity|].
  unfold in_found at 1. now rewrite Hag, IH.
Qed.

Lemma cb_done (found : Found) (pre : list Detection) (d : Detection) :
  agrees found pre ->
  complete a2d n2d targets pre = false ->
  snd (cb a2d n2d targets found d) = complete a2d n2d targets (pre ++ [d]).
Proof.
  intros Hag Hinc. pose proof (cb_agrees found pre d Hag) as Hag'.
  rewrite <- (all_found_complete _ _ Hag'). unfold cb in *.
  destruct (matched_device_name a2d n2d d) as [n|]; cbn [fst snd] in *.
  - destruct (str_truthy n && negb (in_found n found)); cbn [fst snd] in *;
      [reflexivity|].
    now rewrite (all_found_complete _ _ Hag).
  - now rewrite (all_found_complete _ _ Hag).
Qed.

Lemma scan_wait_spec (detections : list (Z * Detection)) :
  forall (found : Found) (n : nat) (pre : list Detection),
    agrees found pre ->
    complete a2d n2d targets pre = false ->
    exists k,
      (k <= length (in_time timeout detections))%nat
      /\ callbacks_run (scan_wait a2d n2d targets timeout detections found n) = (n + k)%nat
      /\ agrees (found_devices (scan_wait a2d n2d targets timeout detections found n))
           (pre ++ List.map snd (take k (in_time timeout detections)))
      /\ (forall j, (j < k)%nat ->
            complete a2d n2d targets
              (pre ++ List.map snd (take j (in_time timeout detections))) = false)
      /\ ((complete a2d n2d targets
             (pre ++ List.map snd (take k (in_time timeout detections))) = true
           /\ exists t d,
                in_time timeout detections !! (k - 1)%nat = Some (t, d)
                /\ (0 < k)%nat
                /\ stopped_at (scan_wait a2d n2d targets timeout detections found n) = t
                /\ t < timeout)
          \/ (k = length (in_time timeout detections)
              /\ complete a2d n2d targets
                   (pre ++ List.map snd (take k (in_time timeout detections))) = false
              /\ stopped_at (scan_wait a2d n2d targets timeout detections found n) = timeout)).
Proof.
  induction detections as [|[t d] rest IH]; intros found n pre Hag Hinc.
  - exists 0%nat. simpl. rewrite app_nil_r, Nat.add_0_r.
    repeat split; try assumption; try lia. right. auto.
  - simpl. destruct (timeout <=? t) eqn:Et.
    + exists 0%nat. simpl. rewrite app_nil_r, Nat.add_0_r.
      repeat split; try assumption; try lia. right. auto.
    + apply Z.leb_gt in Et.
      pose proof (cb_agrees found pre d Hag) as Hag'.
      pose proof (cb_done found pre d Hag Hinc) as Hdone.
      destruct (cb a2d n2d targets found d) as [found' done]. cbn [fst snd] in *.
      destruct done.
      * exists 1%nat. simpl.
        split; [lia|]. split; [lia|]. split; [assumption|].
        split.
        { intros j Hj. assert (j = 0%nat) as -> by lia. simpl. now rewrite app_nil_r. }
        left. split; [now symmetry|]. exists t, d. repeat split; try lia.
      * destruct (IH found' (S n) (pre ++ [d])%list Hag' (eq_sym Hdone))
          as (k & Hk & Hrun & Hagk & Hbefore & Hend).
        exists (S k). simpl.
        rewrite <- app_assoc in Hagk, Hend. simpl in Hagk, Hend.
        split; [lia|]. split; [lia|]. split; [assumption|].
        split.
        { intros [|j] Hj; simpl; [now rewrite app_nil_r|].
          specialize (Hbefore j ltac:(lia)). now rewrite <- app_assoc in Hbefore. }
        destruct Hend as [[Hc (t' & d' & Hlk & Hpos & Hst & Hlt)]|[-> [Hc Hst]]].
        -- left. split; [assumption|]. exists t', d'.
           split; [|repeat split; try lia; assumption].
           destruct k as [|k]; [lia|]. simpl in *. now rewrite Nat.sub_0_r in Hlk.
        -- right. auto.
Qed.

End ScanWait.

Lemma complete_nil (a2d n2d : gmap string string) (targets : list string) :
  targets <> [] -> complete a2d n2d targets [] = false.
Proof.
  destruct targets; [congruence | reflexivity].
Qed.

Lemma first_match_in (a2d n2d : gmap string string) (pre : list Detection) (t : string)
    (d : Detection) :
  first_match a2d n2d pre t = Some d -> In d pre /\ records a2d n2d t d = true.
Proof.
  induction pre as [|x pre IH]; simpl; [discriminate|].
  destruct (records a2d n2d t x) eqn:E.
  - intros [= <-]. auto.
  - intros Hf. destruct (IH Hf). auto.
Qed.

Lemma first_match_exists (a2d n2d : gmap string string) (pre : list Detection) (t : string)
    (d : Detection) :
  In d pre -> records a2d n2d t d = true -> exists d', first_match a2d n2d pre t = Some d'.
Proof.
  induction pre as [|x pre IH]; simpl; [intros []|].
  intros [->|Hin] Hr.
  - rewrite Hr. eauto.
  - destruct (records a2d n2d t x); eauto.
Qed.

Lemma records_iff (a2d n2d : gmap string string) (t : string) (d : Detection) :
  records a2d n2d t d = true <-> matched_device_name a2d n2d d = Some t /\ t <> "".
Proof.
  unfold records, recorded.
  destruct (matched_device_name a2d n2d d) as [n|]; [|split; [discriminate | intros [? _]; discriminate]].
  destruct (str_truthy n) eqn:E.
  - rewrite String.eqb_eq. apply str_truthy_true in E. split.
    + intros ->. auto.
    + intros [[= ->] _]. reflexivity.
  - apply str_truthy_false in E. split; [discriminate|]. intros [[= ->] Hne]. congruence.
Qed.

Lemma build_lookup_registered (devices : gmap string BleSnooz) (targets : list string) :
  forall a n a' n',
    build_lookup devices targets a n = inr (a', n') ->
    forall t, In t targets -> is_Some (devices !! t).
Proof.
  induction targets as [|t0 rest IH]; intros a n a' n' Hb t Hin; [destruct Hin|].
  simpl in Hb. destruct (devices !! t0) as [dev|] eqn:Hdev; [|discriminate].
  destruct Hin as [<-|Hin]; [rewrite Hdev; eauto | eapply IH; eauto].
Qed.

(** C3, as the code has it. The addresses and names that are compared,
    configured or advertised, are ASCII text, on which [upper], [lower]
    and [strip] are Python's. In a scan over targets no two of which share a
    configured address or a normalized matchName, take a target with a
    non-empty name and a configured address. A detection heard while the
    target is already in [found] leaves its binding as it is (first match
    wins). A detection heard while it is not in [found] becomes its
    binding if and only if the address of the advertisement equals the
    configured address after upper-casing, or that address is the
    configured address of no target and the advertised name equals the
    target's matchName, trimmed and case-insensitive. For a target with no
    matchName this is address equality alone. For the scan as a whole:
    the binding it returns for the target is such a detection, and the
    target is in the result as soon as the callback has run on one. *)
Theorem scan_matching_rule (self : SnoozManager) (targets : list string)
    (a2d n2d : gmap string string) (target : string) (dev : BleSnooz)
    (found : Found) (d : Detection) :
  build_lookup (_devices self) targets ∅ ∅ = inr (a2d, n2d) ->
  distinct_keys (_devices self) targets ->
  ascii_targets (_devices self) targets ->
  ascii_detection d ->
  In target targets ->
  _devices self !! target = Some dev ->
  target <> "" ->
  address dev <> "" ->
  (in_found target found = true ->
   assoc_get target (fst (cb a2d n2d targets found d)) = assoc_get target found)
  /\ (in_found target found = false ->
      (assoc_get target (fst (cb a2d n2d targets found d)) = Some d
       <-> address_matches dev d
           \/ (address_unknown (_devices self) targets d /\ name_matches dev d)))
  /\ (match_name dev = None -> address_only_rule a2d n2d targets target dev found d)
  /\ (forall timeout detections r,
        Forall (fun td => ascii_detection (snd td)) detections ->
        _scan_for_targets self targets timeout detections = inr r ->
        (forall d',
           assoc_get target (found_devices r) = Some d' ->
           In d' (heard timeout detections (callbacks_run r))
           /\ (address_matches dev d'
               \/ (address_unknown (_devices self) targets d' /\ name_matches dev d')))
        /\ (forall d',
              In d' (heard timeout detections (callbacks_run r)) ->
              address_matches dev d'
              \/ (address_unknown (_devices self) targets d' /\ name_matches dev d') ->
              in_found target (found_devices r) = true)).
Proof.
  intros Hb Hdist _ _ Hin Hdev Hne Haddr.
  assert (Hscan : forall timeout detections r,
            _scan_for_targets self targets timeout detections = inr r ->
            forall t, assoc_get t (found_devices r)
                      = first_match a2d n2d (heard timeout detections (callbacks_run r)) t).
  { intros timeout detections r Hr. unfold _scan_for_targets in Hr. rewrite Hb in Hr.
    injection Hr as <-.
    destruct (scan_wait_spec a2d n2d targets timeout detections [] 0%nat []
                (fun t => eq_refl)) as (k & _ & Hrun & Hag & _).
    { apply complete_nil. intros ->. destruct Hin. }
    simpl in Hrun, Hag. rewrite Hrun. exact Hag. }
  pose proof (build_lookup_registered _ _ _ _ _ _ Hb) as Hreg.
  rewrite (build_lookup_maps _ _ Hreg) in Hb. injection Hb as <- <-.
  assert (Hiff : in_found target found = false ->
                 (assoc_get target
                    (fst (cb (build_map addr_key (_devices self) targets ∅)
                            (build_map name_key (_devices self) targets ∅) targets found d))
                  = Some d
                  <-> address_matches dev d
                      \/ (address_unknown (_devices self) targets d /\ name_matches dev d))).
  { intros Hout.
    rewrite (cb_binds_iff (_devices self) targets target found d Hout).
    rewrite (matched_device_name_iff (_devices self) targets Hreg Hdist target dev d Hin Hdev).
    tauto. }
  assert (Hmatch : forall d',
            records (build_map addr_key (_devices self) targets ∅)
              (build_map name_key (_devices self) targets ∅) target d' = true
            <-> address_matches dev d'
                \/ (address_unknown (_devices self) targets d' /\ name_matches dev d')).
  { intros d'. rewrite records_iff.
    rewrite (matched_device_name_iff (_devices self) targets Hreg Hdist target dev d' Hin Hdev).
    tauto. }
  split; [apply cb_first_match_wins|].
  split; [exact Hiff|].
  split.
  { intros Hnone Hout. rewrite (Hiff Hout). split; [|now left].
    intros [Hm|[_ (m & Hm & _)]]; [assumption | congruence]. }
  intros timeout detections r _ Hr. specialize (Hscan timeout detections r Hr). split.
  - intros d' Hget. rewrite Hscan in Hget. apply first_match_in in Hget as [Hh Hrec].
    split; [assumption | now apply Hmatch].
  - intros d' Hh Hcond. apply Hmatch in Hcond.
    destruct (first_match_exists _ _ _ _ _ Hh Hcond) as (d'' & Hf).
    unfold in_found. now rewrite Hscan, Hf.
Qed.

Lemma sample_distinct_keys : distinct_keys (_devices sample_manager) ["bedroom"; "nursery"].
Proof.
  intros key t1 t2 dev1 dev2 k Hkey [<-|[<-|[]]] [<-|[<-|[]]] H1 H2 K1 K2;
    try reflexivity;
    vm_compute in H1, H2; injection H1 as <-; injection H2 as <-;
    destruct Hkey as [-> | ->]; vm_compute in K1, K2; congruence.
Qed.

Lemma sample_ascii_targets : ascii_targets (_devices sample_manager) ["bedroom"; "nursery"].
Proof.
  intros t dev [<-|[<-|[]]] Hdev; vm_compute in Hdev; injection Hdev as <-;
    (split; [reflexivity | intros m [= <-]; reflexivity]).
Qed.

Lemma scan_matching_rule_witness :
  assoc_get "bedroom"
    (fst (cb (build_map addr_key (_devices sample_manager) ["bedroom"; "nursery"] ∅)
            (build_map name_key (_devices sample_manager) ["bedroom"; "nursery"] ∅)
            ["bedroom"; "nursery"] [] (bedroom_ble, snooz_adv_payload)))
  = Some (bedroom_ble, snooz_adv_payload)
  <-> address_matches bedroom (bedroom_ble, snooz_adv_payload)
      \/ (address_unknown (_devices sample_manager) ["bedroom"; "nursery"]
            (bedroom_ble, snooz_adv_payload)
          /\ name_matches bedroom (bedroom_ble, snooz_adv_payload)).
Proof.
  refine (proj1 (proj2 (scan_matching_rule sample_manager ["bedroom"; "nursery"] _ _
            "bedroom" bedroom [] (bedroom_ble, snooz_adv_payload)
            eq_refl sample_distinct_keys sample_ascii_targets _ _ eq_refl _ _)) eq_refl).
  - repeat split; intros n [= <-]; reflexivity.
  - now left.
  - discriminate.
  - discriminate.
Defined.

(** Counterexample to C3 as the specification words it: [bedroom] has a
    configured address, and an advertisement from another address that
    carries its matchName is bound to it. *)
Lemma name_match_binds_addressed_identity :
  address bedroom <> ""
  /\ ~ address_only_rule
         (build_map addr_key (_devices sample_manager) ["bedroom"; "nursery"] ∅)
         (build_map name_key (_devices sample_manager) ["bedroom"; "nursery"] ∅)
         ["bedroom"; "nursery"] "bedroom" bedroom [] (stranger_ble, stranger_adv).
Proof.
  split; [discriminate|].
  intros Hrule. destruct (Hrule eq_refl) as [Hbind _].
  assert (Hm : address_matches bedroom (stranger_ble, stranger_adv))
    by (apply Hbind; reflexivity).
  vm_compute in Hm. discriminate.
Qed.

(** Why the rule is stated for targets with distinct keys and a non-empty
    name. Of two targets configured with the same address the later one
    takes the entry of [addr_to_device_name]: an advertisement from that
    address binds [twin_b] and never [twin_a]. A target registered under
    the empty name is never recorded (the callback records a truthy name
    only). *)
Example shared_address_binds_last_target :
  address_matches twin_a (bedroom_ble, snooz_adv_payload)
  /\ match build_lookup twin_devices ["twin_a"; "twin_b"] ∅ ∅ with
     | inr (a2d, n2d) =>
         fst (cb a2d n2d ["twin_a"; "twin_b"] [] (bedroom_ble, snooz_adv_payload))
         = [("twin_b", (bedroom_ble, snooz_adv_payload))]
     | inl _ => False
     end.
Proof. split; reflexivity. Qed.

Example empty_name_is_never_bound :
  address_matches nameless (bedroom_ble, snooz_adv_payload)
  /\ match build_lookup nameless_devices [""] ∅ ∅ with
     | inr (a2d, n2d) =>
         matched_device_name a2d n2d (bedroom_ble, snooz_adv_payload) = Some ""
         /\ fst (cb a2d n2d [""] [] (bedroom_ble, snooz_adv_payload)) = []
     | inl _ => False
     end.
Proof. repeat split. Qed.

Example stranger_is_bound_by_name :
  match _scan_for_targets sample_manager ["bedroom"; "nursery"] 12000
          [(10, (stranger_ble, stranger_adv))] with
  | inr r => found_devices r = [("bedroom", (stranger_ble, stranger_adv))]
  | inl _ => False
  end.
Proof. reflexivity. Qed.

(** ** The discovery scan: termination and result *)

(** C4. A scan over a non-empty set of registered targets returns a
    result (never an error). The set is never empty when the service
    scans: the rescan loop skips a pass with no missing name, and the
    start-up scan runs over the registered names, of which the
    configuration requires at least one. It runs the callback on the
    detections heard before the timeout, in order, and stops at the first
    of them after which every target has been matched, at the time of that
    detection, before the timeout; if no detection completes the set it
    has run the callback on every detection heard before the timeout and
    stops at the timeout. Its result maps each name to the first detection
    matched to it among those the callback has run on; a target with no
    such detection is absent. *)
Theorem scan_stops_when_all_matched (self : SnoozManager) (targets : list string)
    (timeout : Z) (detections : list (Z * Detection)) :
  targets <> [] ->
  (forall t, In t targets -> is_Some (_devices self !! t)) ->
  exists a2d n2d r,
    build_lookup (_devices self) targets ∅ ∅ = inr (a2d, n2d)
    /\ _scan_for_targets self targets timeout detections = inr r
    /\ (callbacks_run r <= length (in_time timeout detections))%nat
    /\ stopped_at r <= timeout
    /\ stops_when_all_matched a2d n2d targets timeout detections r
    /\ (complete a2d n2d targets (heard timeout detections (callbacks_run r)) = true ->
        exists t d,
          in_time timeout detections !! (callbacks_run r - 1)%nat = Some (t, d)
          /\ stopped_at r = t /\ t < timeout)
    /\ (complete a2d n2d targets (heard timeout detections (callbacks_run r)) = false ->
        callbacks_run r = length (in_time timeout detections) /\ stopped_at r = timeout)
    /\ (forall t,
          assoc_get t (found_devices r)
          = first_match a2d n2d (heard timeout detections (callbacks_run r)) t).
Proof.
  intros Hne Hreg.
  exists (build_map addr_key (_devices self) targets ∅),
         (build_map name_key (_devices self) targets ∅).
  set (a2d := build_map addr_key (_devices self) targets ∅).
  set (n2d := build_map name_key (_devices self) targets ∅).
  exists (scan_wait a2d n2d targets timeout detections [] 0).
  split; [now apply build_lookup_maps|].
  split; [unfold _scan_for_targets; now rewrite (build_lookup_maps _ _ Hreg)|].
  destruct (scan_wait_spec a2d n2d targets timeout detections [] 0%nat []
              (fun t => eq_refl) (complete_nil a2d n2d targets Hne))
    as (k & Hk & Hrun & Hag & Hbefore & Hend).
  simpl in Hrun, Hag, Hbefore, Hend. rewrite Hrun. unfold heard.
  split; [exact Hk|].
  split; [destruct Hend as [[_ (t & d & _ & _ & -> & Hlt)]|[_ [_ ->]]]; lia|].
  split.
  { intros k0 Hk0 Hc0 Hb0. rewrite Hrun. unfold heard in Hc0, Hb0.
    destruct (Nat.lt_trichotomy k k0) as [Hlt|[Heq|Hgt]]; [exfalso | assumption | exfalso].
    - destruct Hend as [[Hc _]|[-> _]]; [|lia].
      rewrite (Hb0 k Hlt) in Hc. discriminate.
    - rewrite (Hbefore k0 Hgt) in Hc0. discriminate. }
  split.
  { intros Hc. destruct Hend as [[_ (t & d & Hlk & _ & Hst & Hlt)]|[_ [Hc' _]]];
      [eauto | congruence]. }
  split.
  { intros Hc. destruct Hend as [[Hc' _]|[-> [_ Hst]]]; [congruence | auto]. }
  exact Hag.
Qed.

Lemma scan_stops_when_all_matched_witness :
  exists a2d n2d r,
    build_lookup (_devices sample_manager) ["bedroom"; "nursery"] ∅ ∅ = inr (a2d, n2d)
    /\ _scan_for_targets sample_manager ["bedroom"; "nursery"] 12000 sample_detections = inr r
    /\ (callbacks_run r <= length (in_time 12000 sample_detections))%nat
    /\ stopped_at r <= 12000
    /\ stops_when_all_matched a2d n2d ["bedroom"; "nursery"] 12000 sample_detections r.
Proof.
  destruct (scan_stops_when_all_matched sample_manager ["bedroom"; "nursery"] 12000
              sample_detections) as (a2d & n2d & r & H1 & H2 & H3 & H4 & H5 & _).
  - discriminate.
  - intros t [<-|[<-|[]]]; vm_compute; eauto.
  - exists a2d, n2d, r. auto.
Defined.

Example sample_scan_stops_early :
  match _scan_for_targets sample_manager ["bedroom"; "nursery"] 12000 sample_detections with
  | inr r =>
      found_devices r = [("bedroom", (bedroom_ble, snooz_adv_payload));
                         ("nursery", (nursery_ble, nursery_adv))]
      /\ stopped_at r = 300 /\ callbacks_run r = 3%nat
  | inl _ => False
  end.
Proof. repeat split. Qed.

Example sample_scan_times_out :
  match _scan_for_targets sample_manager ["bedroom"; "nursery"] 250 sample_detections with
  | inr r =>
      found_devices r = [("bedroom", (bedroom_ble, snooz_adv_payload))]
      /\ stopped_at r = 250 /\ callbacks_run r = 2%nat
  | inl _ => False
  end.
Proof. repeat split. Qed.

(** A pass of the rescan loop that scans has at least one target. *)
Lemma rescan_targets_not_empty (self : SnoozManager) (ms : list string) :
  rescan_targets self = Some ms -> ms <> [].
Proof.
  unfold rescan_targets. destruct (missing_names self); [discriminate|].
  intros [= <-]. discriminate.
Qed.

(** The empty target set, which no caller passes, is outside the theorem:
    [done] is only set by the callback after a new match, so the scan
    runs the callback and waits for the timeout. *)
Lemma empty_scan_waits_for_timeout :
  exists r,
    _scan_for_targets sample_manager [] 12000 [(100, (stranger_ble, stranger_adv))] = inr r
    /\ stopped_at r = 12000
    /\ callbacks_run r = 1%nat
    /\ ~ stops_when_all_matched ∅ ∅ [] 12000 [(100, (stranger_ble, stranger_adv))] r.
Proof.
  eexists. split; [reflexivity|]. split; [reflexivity|]. split; [reflexivity|].
  intros Hstop. specialize (Hstop 0%nat). simpl in Hstop.
  assert (H1 : (1 = 0)%nat) by (apply Hstop; [lia | reflexivity | intros j Hj; lia]).
  discriminate.
Qed.

(** ** The rescan loop *)

Section Rescan.
Context `{PySnooz}.





Lemma bind_found_keeps_ready (now : Z) (starts : string -> StartOutcome) (found : Found) :
  forall (self : SnoozManager) (n : string) (dev : BleSnooz),
    _devices self !! n = Some dev -> is_ready dev = true ->
    _devices (fst (bind_found true now starts found self)) !! n = Some dev.
Proof.
  induction found as [|[devname [ble adv]] rest IH]; intros self n dev Hn Hr; simpl;
    [assumption|].
  destruct (_devices self !! devname) as [dev0|] eqn:Hdev0; [|assumption].
  destruct (is_ready dev0) eqn:Hr0; [now apply IH|].
  assert (Hne : devname <> n) by (intros ->; congruence).
  destruct (bind_discovery dev0 ble adv) as [dev1 [|]].
  - destruct (start now (starts devname) dev1) as [dev2 e].
    apply IH; [|assumption]. simpl. now rewrite lookup_insert_ne.
  - apply IH; [|assumption]. simpl. now rewrite lookup_insert_ne.
Qed.


Lemma missing_names_iff (self : SnoozManager) (n : string) :
  In n (missing_names self)
  <-> In n (_names self)
      /\ exists dev, _devices self !! n = Some dev /\ is_ready dev = false.
Proof.
  unfold missing_names. rewrite filter_In. split.
  - intros [Hin Hf]. split; [assumption|].
    destruct (_devices self !! n) as [dev|]; [|discriminate].
    exists dev. split; [reflexivity|]. now destruct (is_ready dev).
  - intros [Hin (dev & Hdev & Hr)]. split; [assumption|]. now rewrite Hdev, Hr.
Qed.

Lemma rescan_tick_keeps_ready (tk : Tick) (self : SnoozManager) (n : string)
    (dev : BleSnooz) :
  _devices self !! n = Some dev -> is_ready dev = true ->
  _devices (rescan_tick tk self) !! n = Some dev.
Proof.
  intros Hn Hr. unfold rescan_tick.
  destruct (missing_names self); [assumption|].
  destruct (_scan_for_targets self _ RESCAN_TIMEOUT_MS (tick_detections tk)) as [e|r];
    [assumption|].
  now apply bind_found_keeps_ready.
Qed.


Lemma rescan_loop_keeps_ready (ticks : list Tick) :
  forall (self : SnoozManager) (n : string) (dev : BleSnooz),
    _devices self !! n = Some dev -> is_ready dev = true ->
    _devices (_rescan_loop ticks self) !! n = Some dev.
Proof.
  induction ticks as [|tk rest IH]; intros self n dev Hn Hr; simpl; [assumption|].
  destruct (_running self); [|assumption].
  apply IH; [|assumption]. now apply rescan_tick_keeps_ready.
Qed.

End Rescan.


(** Both sample sessions are bound by the pass although every start fails,
    and the next pass has nothing to scan for. *)
Example sample_tick_binds_despite_failed_start :
  missing_names sample_manager = ["bedroom"; "nursery"]
  /\ @missing_names (@rescan_tick sample_pysnooz sample_tick sample_manager) = []
  /\ @rescan_targets (@rescan_tick sample_pysnooz sample_tick sample_manager) = None.
Proof. repeat split. Qed.

(** ** A frame that decodes to something else than an object *)

(** [msg.get] is called before the [try]: when [json.loads] returns a list,
    a string, a number, a boolean or null, the [AttributeError] leaves
    [_handle_message], nothing is sent, and [_handler] stops reading the
    connection. *)
Theorem non_object_frame_ends_handler `{PyBuiltins} (w : World) (mgr : SnoozManager)
    (sem : nat) (raw : string) (v : json) (rest : list string) :
  json_loads raw = Some v ->
  (forall msg, v <> JObj msg) ->
  _handler w mgr sem (raw :: rest)
  = ([], HandlerError (AttributeError ("'" ++ type_name v ++ "' object has no attribute 'get'"))).
Proof.
  intros Hl Hv. simpl. unfold _handle_message. rewrite Hl.
  destruct v; try reflexivity. now destruct (Hv kvs).
Qed.

Lemma non_object_frame_ends_handler_witness :
  @_handler sample_py sample_world sample_manager 1 ["[]"; sample_get_state_frame]
  = ([], HandlerError (AttributeError "'list' object has no attribute 'get'")).
Proof.
  apply (@non_object_frame_ends_handler sample_py sample_world sample_manager 1%nat
           "[]" (JArr []) [sample_get_state_frame] eq_refl).
  discriminate.
Defined.

(** * The rest of the service, and the tools *)

(** ** Strings *)

Lemma ascii_upper_idem (c : ascii) : ascii_upper (ascii_upper c) = ascii_upper c.
Proof.
  destruct c as [[] [] [] [] [] [] [] []]; reflexivity.
Qed.

Lemma upper_idem (s : string) : upper (upper s) = upper s.
Proof.
  induction s as [|c s IH]; simpl; [reflexivity|].
  unfold upper in *. simpl. now rewrite ascii_upper_idem, IH.
Qed.

Lemma lstrip_head (s : string) :
  lstrip s = "" \/ exists c r, lstrip s = String c r /\ py_isspace c = false.
Proof.
  induction s as [|c s IH]; simpl; [now left|].
  destruct (py_isspace c) eqn:E; [exact IH|]. right. eauto.
Qed.

Lemma rstrip_head (c : ascii) (r : string) :
  py_isspace c = false -> exists r', rstrip (String c r) = String c r'.
Proof.
  intros Hc. simpl. destruct (rstrip r); [rewrite Hc|]; eauto.
Qed.

Lemma rstrip_idem (s : string) : rstrip (rstrip s) = rstrip s.
Proof.
  induction s as [|c s IH]; simpl; [reflexivity|].
  destruct (rstrip s) as [|c' r'] eqn:E.
  - destruct (py_isspace c) eqn:Ec; simpl; [reflexivity|]. now rewrite Ec.
  - simpl in IH. simpl. destruct (rstrip r') as [|c'' r''] eqn:E'.
    + destruct (py_isspace c') eqn:Ec'; [discriminate|]. now rewrite IH.
    + now rewrite IH.
Qed.

Lemma lstrip_fixed (c : ascii) (r : string) :
  py_isspace c = false -> lstrip (String c r) = String c r.
Proof. intros Hc. simpl. now rewrite Hc. Qed.

Lemma strip_idem (s : string) : strip (strip s) = strip s.
Proof.
  unfold strip. destruct (lstrip_head s) as [E|(c & r & E & Hc)]; rewrite E.
  - reflexivity.
  - destruct (rstrip_head c r Hc) as (r' & E'). rewrite E'.
    rewrite (lstrip_fixed c r' Hc), <- E'. apply rstrip_idem.
Qed.

(** ** The handshake *)

Lemma startswith_app (p rest : string) : startswith p (p ++ rest) = true.
Proof.
  induction p as [|c p IH]; simpl; [now destruct rest|].
  now rewrite Ascii.eqb_refl.
Qed.

Lemma startswith_split (p s : string) :
  startswith p s = true -> s = p ++ str_drop (String.length p) s.
Proof.
  revert s. induction p as [|c p IH]; intros s Hs; simpl in *; [reflexivity|].
  destruct s as [|c' s]; [discriminate|].
  destruct (Ascii.eqb c c') eqn:E; [|discriminate].
  apply Ascii.eqb_eq in E. subst c'. change (String c s = String c (p ++ str_drop (String.length p) s)).
  f_equal. now apply IH.
Qed.

Lemma str_drop_app (p rest : string) : str_drop (String.length p) (p ++ rest) = rest.
Proof.
  induction p as [|c p IH]; simpl; [reflexivity | exact IH].
Qed.

Lemma removeprefix_app (p rest : string) : removeprefix p (p ++ rest) = rest.
Proof.
  unfold removeprefix. now rewrite startswith_app, str_drop_app.
Qed.

#[local] Arguments startswith : simpl never.
#[local] Arguments strip : simpl never.
#[local] Arguments removeprefix : simpl never.

Lemma process_request_none_iff (auth_token authorization : option string) :
  _process_request auth_token authorization = None
  <-> or_empty auth_token = ""
      \/ exists rest, authorization = Some ("Bearer " ++ rest)
                      /\ strip rest = or_empty auth_token.
Proof.
  unfold _process_request.
  destruct (str_truthy (or_empty auth_token)) eqn:Et; cbn [negb].
  - apply str_truthy_true in Et.
    destruct authorization as [h|].
    + destruct (str_truthy h) eqn:Eh; cbn [negb orb].
      * destruct (startswith "Bearer " h) eqn:Es; cbn [negb].
        -- destruct (String.eqb (strip (removeprefix "Bearer " h)) (or_empty auth_token))
             eqn:Eq; cbn [negb].
           ++ apply String.eqb_eq in Eq. split; [intros _|reflexivity]. right.
              exists (str_drop (String.length "Bearer ") h). split.
              ** f_equal. now apply startswith_split.
              ** unfold removeprefix in Eq. now rewrite Es in Eq.
           ++ apply String.eqb_neq in Eq. split; [discriminate|].
              intros [He|(rest & [= ->] & Hr)]; [congruence|].
              rewrite removeprefix_app in Eq. congruence.
        -- split; [discriminate|].
           intros [He|(rest & [= ->] & Hr)]; [congruence|].
           rewrite startswith_app in Es. discriminate.
      * apply str_truthy_false in Eh. subst h. split; [discriminate|].
        intros [He|(rest & Hh & Hr)]; [congruence | discriminate].
    + split; [discriminate|]. intros [He|(rest & Hh & _)]; [congruence | discriminate].
  - apply str_truthy_false in Et. split; [now left | reflexivity].
Qed.

(** X2. With no token configured (or an empty one) every handshake goes
    on. With a token configured, the handshake goes on exactly when the
    [Authorization] header is ["Bearer "] followed by text that equals the
    token once surrounding whitespace is trimmed; a missing header or one
    that does not start with ["Bearer "] is rejected with 401 and the
    [WWW-Authenticate: Bearer] header; any other header with 403. A
    configured token that itself starts or ends with whitespace rejects
    every handshake. *)
Theorem process_request_accepts (auth_token authorization : option string) :
  (_process_request auth_token authorization = None
   <-> or_empty auth_token = ""
       \/ exists rest, authorization = Some ("Bearer " ++ rest)
                       /\ strip rest = or_empty auth_token)
  /\ (or_empty auth_token <> "" ->
      (authorization = None
       \/ exists h, authorization = Some h /\ startswith "Bearer " h = false) ->
      _process_request auth_token authorization
      = Some (UNAUTHORIZED, [("WWW-Authenticate", "Bearer")],
              "Missing Authorization header" ++ newline))
  /\ (or_empty auth_token <> "" ->
      forall rest, authorization = Some ("Bearer " ++ rest) ->
                   strip rest <> or_empty auth_token ->
                   _process_request auth_token authorization
                   = Some (FORBIDDEN, [], "Invalid auth token" ++ newline))
  /\ (or_empty auth_token <> "" ->
      strip (or_empty auth_token) <> or_empty auth_token ->
      _process_request auth_token authorization <> None).
Proof.
  split; [apply process_request_none_iff|].
  split.
  { intros Hne Hh. unfold _process_request.
    rewrite (proj2 (str_truthy_true _) Hne). cbn [negb].
    destruct Hh as [->|(h & -> & Hs)]; [reflexivity|].
    rewrite Hs. cbn [negb]. now rewrite orb_true_r. }
  split.
  { intros Hne rest -> Hr. unfold _process_request.
    rewrite (proj2 (str_truthy_true _) Hne). cbn [negb].
    rewrite startswith_app, removeprefix_app.
    apply String.eqb_neq in Hr. rewrite Hr. reflexivity. }
  intros Hne Hws Hacc.
  apply process_request_none_iff in Hacc as [He|(rest & _ & Hr)]; [congruence|].
  apply Hws. rewrite <- Hr. apply strip_idem.
Qed.

(** X3. The shell of the command-line client, started with token [c],
    passes the handshake of a server configured with token [s] exactly
    when the server has no token, or [c] is not empty and equals [s] once
    trimmed; with the same token on both sides this holds exactly when the
    token is empty or has no surrounding whitespace. *)
Theorem shell_token_passes_handshake (s c : option string) :
  (_process_request s (shell_authorization c) = None
   <-> or_empty s = "" \/ (or_empty c <> "" /\ strip (or_empty c) = or_empty s))
  /\ (_process_request s (shell_authorization s) = None
      <-> or_empty s = "" \/ strip (or_empty s) = or_empty s).
Proof.
  assert (Hgen : forall c', _process_request s (shell_authorization c') = None
                 <-> or_empty s = ""
                     \/ (or_empty c' <> "" /\ strip (or_empty c') = or_empty s)).
  { intros c'. rewrite process_request_none_iff.
    unfold shell_authorization. split.
    - intros [He|(rest & Hh & Hr)]; [now left|right].
      destruct c' as [t|]; [|discriminate].
      destruct (str_truthy t) eqn:Et; [|discriminate].
      injection Hh as Hh. apply str_truthy_true in Et.
      assert (rest = t) as ->.
      { change (t = rest) in Hh. congruence. }
      simpl. auto.
    - intros [He|[Hne Hr]]; [now left|right].
      destruct c' as [t|]; simpl in *; [|congruence].
      rewrite (proj2 (str_truthy_true _) Hne). eauto. }
  split; [apply Hgen|].
  rewrite Hgen. split.
  - intros [He|[_ Hr]]; auto.
  - intros [He|Hr]; [now left|].
    destruct (decide (or_empty s = "")) as [He|Hne]; [now left | right; auto].
Qed.

Example handshake_samples :
  _process_request (Some "secret") (Some "Bearer secret ") = None
  /\ _process_request (Some "secret") (Some "bearer secret")
     = Some (UNAUTHORIZED, [("WWW-Authenticate", "Bearer")],
             "Missing Authorization header" ++ newline)
  /\ _process_request (Some "secret") (Some "Bearer other")
     = Some (FORBIDDEN, [], "Invalid auth token" ++ newline)
  /\ _process_request (Some " secret") (shell_authorization (Some " secret"))
     = Some (FORBIDDEN, [], "Invalid auth token" ++ newline)
  /\ _process_request None None = None.
Proof. repeat split. Qed.

(** ** The configuration file *)

Lemma str_filter_map_lstrip (f : ascii -> bool) (g : ascii -> ascii) (s : string) :
  (forall c, py_isspace c = true -> f (g c) = false) ->
  str_filter f (str_map g (lstrip s)) = str_filter f (str_map g s).
Proof.
  intros Hf. induction s as [|c s IH]; [reflexivity|]. cbn [lstrip str_map str_filter].
  destruct (py_isspace c) eqn:E; [|reflexivity]. now rewrite (Hf c E).
Qed.

Lemma str_filter_map_rstrip (f : ascii -> bool) (g : ascii -> ascii) (s : string) :
  (forall c, py_isspace c = true -> f (g c) = false) ->
  str_filter f (str_map g (rstrip s)) = str_filter f (str_map g s).
Proof.
  intros Hf. induction s as [|c s IH]; [reflexivity|]. cbn [rstrip str_map str_filter].
  destruct (rstrip s) as [|c' r'] eqn:E.
  - destruct (py_isspace c) eqn:Ec.
    + rewrite (Hf c Ec). exact IH.
    + cbn [str_map str_filter] in *. now rewrite <- IH.
  - cbn [str_map str_filter] in *. now rewrite IH.
Qed.

Lemma str_filter_forall (f : ascii -> bool) (s : string) :
  str_forall f (str_filter f s) = true.
Proof.
  induction s as [|c s IH]; [reflexivity|]. cbn [str_filter].
  destruct (f c) eqn:E; [|exact IH]. cbn [str_forall]. now rewrite E, IH.
Qed.

Lemma str_filter_fixed (f : ascii -> bool) (s : string) :
  str_forall f s = true -> str_filter f s = s.
Proof.
  induction s as [|c s IH]; [reflexivity|]. cbn [str_forall str_filter].
  intros Hf. apply andb_true_iff in Hf as [Hc Hs]. now rewrite Hc, IH.
Qed.

Lemma str_map_fixed (f : ascii -> bool) (g : ascii -> ascii) (s : string) :
  (forall c, f c = true -> g c = c) ->
  str_forall f s = true -> str_map g s = s.
Proof.
  intros Hg. induction s as [|c s IH]; [reflexivity|]. cbn [str_forall str_map].
  intros Hf. apply andb_true_iff in Hf as [Hc Hs]. now rewrite (Hg c Hc), IH.
Qed.

Lemma strip_fixed (f : ascii -> bool) (s : string) :
  (forall c, f c = true -> py_isspace c = false) ->
  str_forall f s = true -> strip s = s.
Proof.
  intros Hsp Hs. unfold strip.
  assert (Hl : lstrip s = s).
  { destruct s as [|c s]; [reflexivity|]. cbn [str_forall] in Hs.
    apply andb_true_iff in Hs as [Hc _]. cbn [lstrip]. now rewrite (Hsp c Hc). }
  rewrite Hl. clear Hl. induction s as [|c s IH]; [reflexivity|].
  cbn [str_forall] in Hs. apply andb_true_iff in Hs as [Hc Hs].
  cbn [rstrip]. rewrite (IH Hs). destruct s; [now rewrite (Hsp c Hc) | reflexivity].
Qed.

Lemma hex_digit_lower (c : ascii) :
  char_in c "0123456789abcdef" = true -> ascii_lower c = c.
Proof.
  destruct c as [[] [] [] [] [] [] [] []]; vm_compute; congruence.
Qed.

Lemma hex_digit_not_space (c : ascii) :
  char_in c "0123456789abcdef" = true -> py_isspace c = false.
Proof.
  destruct c as [[] [] [] [] [] [] [] []]; vm_compute; congruence.
Qed.

Lemma space_not_hex_digit (c : ascii) :
  py_isspace c = true -> char_in (ascii_lower c) "0123456789abcdef" = false.
Proof.
  destruct c as [[] [] [] [] [] [] [] []]; vm_compute; congruence.
Qed.

Lemma hex_digits_strip (value : string) : hex_digits (strip value) = hex_digits value.
Proof.
  unfold hex_digits, strip, lower.
  rewrite str_filter_map_rstrip by apply space_not_hex_digit.
  apply str_filter_map_lstrip, space_not_hex_digit.
Qed.

Lemma hex_digits_fixed (r : string) :
  str_forall (fun ch => char_in ch "0123456789abcdef") r = true ->
  lower r = r /\ strip r = r /\ hex_digits r = r.
Proof.
  intros Hr.
  assert (Hl : lower r = r) by (apply (str_map_fixed _ _ _ hex_digit_lower Hr)).
  split; [exact Hl|]. split; [apply (strip_fixed _ _ hex_digit_not_space Hr)|].
  unfold hex_digits. rewrite Hl. now apply str_filter_fixed.
Qed.

#[local] Arguments hex_digits : simpl never.

Lemma normalize_hex_password_eq `{PyBuiltins} (value : string) :
  config._normalize_hex_password value
  = if negb (Nat.eqb (String.length (hex_digits value)) 16)
    then inl (ValueError
                ("Invalid Snooz password hex length: expected 16 hex chars, got "
                 ++ py_format (JInt (Z.of_nat (String.length (hex_digits value))))))
    else inr (hex_digits value).
Proof.
  unfold config._normalize_hex_password.
  change (str_filter _ (lower (strip value))) with (hex_digits (strip value)).
  now rewrite hex_digits_strip.
Qed.

Lemma normalize_hex_password_inr `{PyBuiltins} (value r : string) :
  config._normalize_hex_password value = inr r ->
  r = hex_digits value
  /\ String.length r = 16%nat
  /\ str_forall (fun ch => char_in ch "0123456789abcdef") r = true.
Proof.
  rewrite normalize_hex_password_eq.
  destruct (Nat.eqb (String.length (hex_digits value)) 16) eqn:Hlen; [|discriminate].
  cbn [negb]. intros [= <-]. apply Nat.eqb_eq in Hlen.
  repeat split; [assumption | apply str_filter_forall].
Qed.

(** X4. [_normalize_hex_password] looks only at the hexadecimal digits of
    the value, upper or lower case: whitespace, separators and any other
    character, wherever they stand, are dropped. The value is accepted
    exactly when it has 16 such digits, and the result is these digits in
    lower case; otherwise a [ValueError] that reports their number. An
    accepted result has 16 characters, all lower-case hexadecimal digits;
    normalizing it again returns it, and a session created with it keeps
    it as [password_hex]. *)
Theorem normalize_hex_password_canonical `{PyBuiltins} (value : string) :
  (String.length (hex_digits value) = 16%nat ->
   config._normalize_hex_password value = inr (hex_digits value))
  /\ (String.length (hex_digits value) <> 16%nat ->
      config._normalize_hex_password value
      = inl (ValueError ("Invalid Snooz password hex length: expected 16 hex chars, got "
                         ++ py_format (JInt (Z.of_nat (String.length (hex_digits value)))))))
  /\ (forall r,
        config._normalize_hex_password value = inr r ->
        r = hex_digits value
        /\ String.length r = 16%nat
        /\ str_forall (fun ch => char_in ch "0123456789abcdef") r = true
        /\ config._normalize_hex_password r = inr r
        /\ forall device_name address match_name,
             password_hex (BleSnooz_init device_name address r match_name) = r).
Proof.
  split; [|split].
  - intros Hlen. rewrite normalize_hex_password_eq, Hlen. reflexivity.
  - intros Hlen. rewrite normalize_hex_password_eq. apply Nat.eqb_neq in Hlen.
    now rewrite Hlen.
  - intros r Hr. destruct (normalize_hex_password_inr value r Hr) as (Hd & Hlen & Hhex).
    destruct (hex_digits_fixed r Hhex) as (Hl & Hs & Hfix).
    repeat split; try assumption.
    + rewrite normalize_hex_password_eq, Hfix, Hlen. reflexivity.
    + intros device_name address match_name. exact Hl.
Qed.

Example normalize_hex_password_samples :
  @config._normalize_hex_password sample_py " AA:BB:CC:DD-ee:ff:00:11 " = inr "aabbccddeeff0011"
  /\ @config._normalize_hex_password sample_py "g0123456789abcdefg" = inr "0123456789abcdef"
  /\ match @config._normalize_hex_password sample_py "0x0123456789abcdef" with
     | inl (ValueError _) => True
     | _ => False
     end.
Proof. repeat split. Qed.

Lemma remove_dups_length (l : list string) :
  (length (remove_dups l) <= length l)%nat
  /\ (length (remove_dups l) = length l <-> NoDup l).
Proof.
  induction l as [|x l [IHle IHiff]]; simpl.
  - split; [lia|]. split; [constructor | reflexivity].
  - destruct (decide_rel elem_of x l) as [Hin|Hout]; simpl.
    + split; [lia|]. split; [lia|]. intros Hnd. apply NoDup_cons in Hnd as [Hx _].
      contradiction.
    + split; [lia|]. rewrite NoDup_cons. split.
      * intros Hlen. split; [assumption|]. apply IHiff. lia.
      * intros [_ Hnd]. f_equal. now apply IHiff.
Qed.

Section ConfigFile.
Context `{PyBuiltins}.

Lemma device_config_fields (entry : list (string * json)) (dc : config.SnoozDeviceConfig) :
  config.device_config entry = inr dc ->
  String.length (config.password dc) = 16%nat
  /\ str_forall (fun ch => char_in ch "0123456789abcdef") (config.password dc) = true
  /\ (forall a, config.address dc = Some a -> upper a = a).
Proof.
  unfold config.device_config.
  destruct (assoc_get "device_name" entry) as [dn|]; [|discriminate].
  destruct (assoc_get "password" entry) as [pw|]; [|discriminate].
  destruct (config._normalize_hex_password (py_str pw)) as [e|p] eqn:Hp; [discriminate|].
  intros [= <-]. cbn [config.password config.address].
  destruct (normalize_hex_password_inr (py_str pw) p Hp) as (_ & Hlen & Hhex).
  split; [assumption|]. split; [assumption|].
  intros a. destruct (truthy (dict_get "address" entry)); [|discriminate].
  intros [= <-]. apply upper_idem.
Qed.

Lemma device_configs_fields (entries : list (list (string * json))) :
  forall ds, config.device_configs entries = inr ds ->
    length ds = length entries
    /\ Forall (fun dc =>
                 String.length (config.password dc) = 16%nat
                 /\ str_forall (fun ch => char_in ch "0123456789abcdef") (config.password dc)
                    = true
                 /\ (forall a, config.address dc = Some a -> upper a = a)) ds.
Proof.
  induction entries as [|entry rest IH]; intros ds; simpl.
  - intros [= <-]. split; [reflexivity | constructor].
  - destruct (config.device_config entry) as [e|d] eqn:Hd; [discriminate|].
    destruct (config.device_configs rest) as [e|ds'] eqn:Hds; [discriminate|].
    intros [= <-]. destruct (IH ds' eq_refl) as [Hlen Hall]. split; [simpl; lia|].
    constructor; [|assumption]. now apply (device_config_fields entry).
Qed.

End ConfigFile.

(** ** Registration *)

Lemma registry_ok_init : registry_ok SnoozManager_init.
Proof.
  split; [constructor|]. split.
  - intros n. simpl. rewrite lookup_empty. split; [intros [] | intros [x Hx]; discriminate].
  - intros n dev. simpl. rewrite lookup_empty. discriminate.
Qed.

Lemma add_device_new (dev : BleSnooz) (m : SnoozManager) :
  registry_ok m -> ~ In (device_name dev) (_names m) ->
  exists m',
    add_device dev m = inr m'
    /\ _names m' = (_names m ++ [device_name dev])%list
    /\ _devices m' = <[device_name dev := dev]> (_devices m)
    /\ _running m' = _running m
    /\ registry_ok m'.
Proof.
  intros (Hnd & Hdom & Hkey) Hout. unfold add_device.
  destruct (_devices m !! device_name dev) as [d|] eqn:Hd.
  { exfalso. apply Hout, Hdom. eauto. }
  eexists. split; [reflexivity|]. unfold registry_ok. cbn [_names _devices _running].
  repeat split.
  - apply NoDup_app. split; [assumption|]. split; [|apply NoDup_singleton].
    intros x Hx Hx'. apply list_elem_of_singleton in Hx'. subst x.
    apply Hout. now apply list_elem_of_In.
  - intros Hin. apply in_app_or in Hin as [Hin|[<-|[]]].
    + destruct (decide (device_name dev = n)) as [<-|Hne].
      * rewrite lookup_insert_eq. eauto.
      * rewrite lookup_insert_ne by assumption. now apply Hdom.
    + rewrite lookup_insert_eq. eauto.
  - intros Hs. apply in_or_app. destruct (decide (device_name dev = n)) as [<-|Hne].
    + right. now left.
    + left. apply Hdom. now rewrite lookup_insert_ne in Hs.
  - intros n d. destruct (decide (device_name dev = n)) as [<-|Hne].
    + rewrite lookup_insert_eq. now intros [= <-].
    + rewrite lookup_insert_ne by assumption. apply Hkey.
Qed.

Lemma add_device_duplicate (dev : BleSnooz) (m : SnoozManager) :
  registry_ok m -> In (device_name dev) (_names m) ->
  add_device dev m = inl (ValueError ("Duplicate device_name: " ++ device_name dev)).
Proof.
  intros (_ & Hdom & _) Hin. unfold add_device.
  destruct (proj1 (Hdom _) Hin) as [d ->]. reflexivity.
Qed.

Lemma new_session_name (dc : config.SnoozDeviceConfig) :
  device_name (new_session dc) = config.device_name dc.
Proof. reflexivity. Qed.

Lemma register_devices_ok (ds : list config.SnoozDeviceConfig) :
  forall m,
    registry_ok m ->
    NoDup (List.map config.device_name ds) ->
    (forall dc, In dc ds -> ~ In (config.device_name dc) (_names m)) ->
    exists m',
      register_devices ds m = inr m'
      /\ _names m' = (_names m ++ List.map config.device_name ds)%list
      /\ _running m' = _running m
      /\ registry_ok m'
      /\ (forall n dev, _devices m !! n = Some dev -> _devices m' !! n = Some dev)
      /\ (forall dc, In dc ds -> _devices m' !! config.device_name dc = Some (new_session dc)).
Proof.
  induction ds as [|dc rest IH]; intros m Hok Hnd Hfresh.
  - exists m. simpl. rewrite app_nil_r. repeat split; try apply Hok; auto.
    intros dc [].
  - simpl in Hnd. apply NoDup_cons in Hnd as [Hdc Hnd].
    destruct (add_device_new (new_session dc) m Hok) as (m1 & Hadd & Hn1 & Hd1 & Hr1 & Hok1).
    { apply Hfresh. now left. }
    destruct (IH m1 Hok1 Hnd) as (m' & Hreg & Hn' & Hr' & Hok' & Hkeep & Hnew).
    { intros dc' Hin' Hin1. rewrite Hn1 in Hin1. apply in_app_or in Hin1 as [Hin1|[Heq|[]]].
      - apply (Hfresh dc'); [now right | assumption].
      - apply Hdc. rewrite new_session_name in Heq. rewrite Heq.
        apply list_elem_of_In, in_map, Hin'. }
    exists m'. simpl. rewrite Hadd. split; [assumption|].
    split; [rewrite Hn', Hn1, <- app_assoc; reflexivity|].
    split; [congruence|]. split; [assumption|]. split.
    + intros n dev Hn. apply Hkeep. rewrite Hd1.
      destruct (decide (device_name (new_session dc) = n)) as [<-|Hne].
      * exfalso. apply (Hfresh dc); [now left|]. destruct Hok as (_ & Hdom & _).
        apply Hdom. rewrite <- new_session_name. eauto.
      * now rewrite lookup_insert_ne.
    + intros dc' [<-|Hin']; [|now apply Hnew].
      apply Hkeep. rewrite Hd1, <- new_session_name. apply lookup_insert_eq.
Qed.

Lemma register_devices_inr (ds : list config.SnoozDeviceConfig) :
  forall m m',
    registry_ok m -> register_devices ds m = inr m' ->
    NoDup (List.map config.device_name ds)
    /\ forall dc, In dc ds -> ~ In (config.device_name dc) (_names m).
Proof.
  induction ds as [|dc rest IH]; intros m m' Hok Hreg; simpl.
  { split; [constructor | intros dc []]. }
  simpl in Hreg.
  destruct (in_dec string_dec (device_name (new_session dc)) (_names m)) as [Hin|Hout].
  { rewrite (add_device_duplicate _ _ Hok Hin) in Hreg. discriminate. }
  destruct (add_device_new (new_session dc) m Hok Hout) as (m1 & Hadd & Hn1 & Hd1 & Hr1 & Hok1).
  rewrite Hadd in Hreg. destruct (IH m1 m' Hok1 Hreg) as [Hnd Hfresh].
  split.
  - apply NoDup_cons. split; [|assumption].
    intros Hin. apply list_elem_of_In, in_map_iff in Hin as (dc' & Heq & Hin').
    apply (Hfresh dc' Hin'). rewrite Hn1, Heq. apply in_or_app. right. now left.
  - intros dc' [<-|Hin']; [exact Hout|].
    intros Hin. apply (Hfresh dc' Hin'). rewrite Hn1. apply in_or_app. now left.
Qed.

Lemma load_config_inr `{PyBuiltins} (ws_raw : list (string * json))
    (entries : list (list (string * json))) (cfg : config.ServiceConfig) :
  config.load_config ws_raw entries = inr cfg ->
  config.device_configs entries = inr (config.devices cfg)
  /\ config.devices cfg <> []
  /\ NoDup (List.map config.device_name (config.devices cfg))
  /\ Forall (fun dc => opt_truthy (config.address dc)
                       || opt_truthy (config.name dc) = true) (config.devices cfg).
Proof.
  unfold config.load_config.
  destruct (py_int _) as [e|port]; [discriminate|].
  destruct (config.device_configs entries) as [e|ds] eqn:Hds; [discriminate|].
  destruct ds as [|d0 ds]; [discriminate|].
  destruct (List.find _ (d0 :: ds)) as [d|] eqn:Hfind; [discriminate|].
  destruct (Nat.eqb _ _) eqn:Hlen; [|discriminate].
  cbn [negb]. intros [= <-]. cbn [config.devices].
  split; [reflexivity|]. split; [discriminate|]. split.
  - apply remove_dups_length. apply Nat.eqb_eq in Hlen. symmetry. exact Hlen.
  - apply List.Forall_forall. intros dc Hin.
    pose proof (find_none _ _ Hfind dc Hin) as Hm. cbv beta in Hm.
    destruct (opt_truthy (config.address dc)); [reflexivity|].
    destruct (opt_truthy (config.name dc)); [reflexivity | discriminate].
Qed.

(** X5. A configuration [load_config] accepts has one device per item of
    [service.devices], in the order of the file, and at least one; no two
    devices have the same [device_name]; every device has a non-empty
    address or a non-empty name to be matched by; every password is 16
    lower-case hexadecimal digits and every address is in upper case. *)
Theorem load_config_accepts `{PyBuiltins} (ws_raw : list (string * json))
    (entries : list (list (string * json))) (cfg : config.ServiceConfig) :
  config.load_config ws_raw entries = inr cfg ->
  config.devices cfg <> []
  /\ length (config.devices cfg) = length entries
  /\ (forall i entry, entries !! i = Some entry ->
        exists dc, config.devices cfg !! i = Some dc /\ config.device_config entry = inr dc)
  /\ NoDup (List.map config.device_name (config.devices cfg))
  /\ Forall (fun dc =>
               (opt_truthy (config.address dc)
                || opt_truthy (config.name dc) = true)
               /\ String.length (config.password dc) = 16%nat
               /\ str_forall (fun ch => char_in ch "0123456789abcdef") (config.password dc)
                  = true
               /\ (forall a, config.address dc = Some a -> upper a = a))
       (config.devices cfg).
Proof.
  intros Hload. destruct (load_config_inr ws_raw entries cfg Hload) as (Hds & Hne & Hnd & Hm).
  destruct (device_configs_fields entries _ Hds) as [Hlen Hf].
  split; [assumption|]. split; [assumption|]. split.
  - clear Hload Hne Hnd Hm Hlen Hf. revert Hds. generalize (config.devices cfg).
    induction entries as [|e rest IH]; intros ds Hds i entry Hi; [destruct i; discriminate|].
    simpl in Hds. destruct (config.device_config e) as [x|d] eqn:Hd; [discriminate|].
    destruct (config.device_configs rest) as [x|ds'] eqn:Hds'; [discriminate|].
    injection Hds as <-. destruct i as [|i]; simpl in Hi.
    + injection Hi as <-. exists d. auto.
    + apply (IH ds' eq_refl i entry Hi).
  - split; [assumption|]. apply List.Forall_forall. intros dc Hin.
    rewrite List.Forall_forall in Hm, Hf. specialize (Hm dc Hin). specialize (Hf dc Hin).
    tauto.
Qed.

Lemma load_config_accepts_witness :
  exists cfg,
    @config.load_config sample_py [] sample_entries = inr cfg
    /\ List.map config.device_name (config.devices cfg) = ["bedroom"; "nursery"]
    /\ List.map config.password (config.devices cfg)
       = ["0123456789abcdef"; "0011223344556677"]
    /\ NoDup (List.map config.device_name (config.devices cfg)).
Proof.
  eexists. split; [reflexivity|]. split; [reflexivity|]. split; [reflexivity|].
  apply (@load_config_accepts sample_py [] sample_entries _ eq_refl).
Defined.

Lemma new_session_matchable (dc : config.SnoozDeviceConfig) :
  opt_truthy (config.address dc) || opt_truthy (config.name dc) = true ->
  addr_key (new_session dc) <> None \/ name_key (new_session dc) <> None.
Proof.
  unfold addr_key, name_key, new_session, BleSnooz_init. cbn [address match_name].
  destruct (config.address dc) as [a|]; cbn [opt_truthy opt_or or_empty orb].
  - destruct (str_truthy a) eqn:Ea; cbn [or_empty orb].
    + intros _. left. rewrite Ea.
      assert (Hu : upper a <> "") by (rewrite upper_empty; now apply str_truthy_true).
      rewrite (str_truthy_ne _ Hu). discriminate.
    + intros Hn. right. destruct (config.name dc) as [m|]; [|discriminate].
      cbn [opt_truthy] in Hn. rewrite Hn. discriminate.
  - intros Hn. right. destruct (config.name dc) as [m|]; [|discriminate].
    cbn [opt_truthy] in Hn. rewrite Hn. discriminate.
Qed.

(** X6. For a configuration [load_config] has accepted, the registration
    loop of [main] never meets the duplicate-name error of [add_device]:
    it ends with a registry whose names are the configured names in the
    order of the file ([list_devices] answers them so), each name holding
    the session created from its entry, not bound to any advertisement,
    with the normalized password, and contributing an address or a name to
    the lookup maps of the scan; the set of missing names is then every
    configured name. For any list of configured devices the loop succeeds
    exactly when no two of them share a name. *)
Theorem configured_devices_register `{PyBuiltins} (ws_raw : list (string * json))
    (entries : list (list (string * json))) (cfg : config.ServiceConfig) :
  config.load_config ws_raw entries = inr cfg ->
  (exists manager,
     register_devices (config.devices cfg) SnoozManager_init = inr manager
     /\ get_device_names manager = List.map config.device_name (config.devices cfg)
     /\ registry_ok manager
     /\ missing_names manager = get_device_names manager
     /\ forall dc, In dc (config.devices cfg) ->
          _devices manager !! config.device_name dc = Some (new_session dc)
          /\ is_ready (new_session dc) = false
          /\ password_hex (new_session dc) = config.password dc
          /\ (addr_key (new_session dc) <> None \/ name_key (new_session dc) <> None))
  /\ (forall ds,
        (exists manager, register_devices ds SnoozManager_init = inr manager)
        <-> NoDup (List.map config.device_name ds)).
Proof.
  intros Hload. destruct (load_config_inr ws_raw entries cfg Hload) as (Hds & Hne & Hnd & Hm).
  destruct (device_configs_fields entries _ Hds) as [_ Hf].
  split.
  - destruct (register_devices_ok (config.devices cfg) SnoozManager_init registry_ok_init Hnd)
      as (m & Hreg & Hnames & _ & Hok & _ & Hnew).
    { intros dc _ []. }
    simpl in Hnames. exists m. split; [assumption|]. split; [assumption|].
    split; [assumption|]. split.
    + unfold missing_names, get_device_names. rewrite Hnames.
      assert (Hall : forall dc, In dc (config.devices cfg) ->
                match _devices m !! config.device_name dc with
                | Some dev => negb (is_ready dev)
                | None => false
                end = true).
      { intros dc Hin. now rewrite (Hnew dc Hin). }
      clear - Hall. induction (config.devices cfg) as [|dc rest IH]; [reflexivity|].
      cbn [List.map List.filter]. rewrite (Hall dc) by now left.
      f_equal. apply IH. intros dc' Hin. apply Hall. now right.
    + intros dc Hin. split; [now apply Hnew|]. split; [reflexivity|]. split.
      * rewrite List.Forall_forall in Hf. destruct (Hf dc Hin) as (_ & Hhex & _).
        unfold new_session, BleSnooz_init. cbn [password_hex].
        apply (str_map_fixed _ _ _ hex_digit_lower Hhex).
      * apply new_session_matchable. rewrite List.Forall_forall in Hm. now apply Hm.
  - intros ds. split.
    + intros [m Hreg]. apply (register_devices_inr ds _ _ registry_ok_init Hreg).
    + intros Hnd'.
      destruct (register_devices_ok ds SnoozManager_init registry_ok_init Hnd')
        as (m & Hreg & _); [intros dc _ []|]. eauto.
Qed.

Lemma configured_devices_register_witness :
  exists cfg manager,
    @config.load_config sample_py [] sample_entries = inr cfg
    /\ register_devices (config.devices cfg) SnoozManager_init = inr manager
    /\ get_device_names manager = ["bedroom"; "nursery"]
    /\ missing_names manager = ["bedroom"; "nursery"].
Proof.
  destruct (@configured_devices_register sample_py [] sample_entries _ eq_refl)
    as [(manager & Hreg & Hnames & _ & Hmiss & _) _].
  eexists. exists manager. split; [reflexivity|]. split; [exact Hreg|].
  split; [exact Hnames | now rewrite Hmiss].
Defined.

(** ** The discovery scan: the shape of the result *)

Lemma matched_device_name_value (a2d n2d : gmap string string) (d : Detection) (n : string) :
  matched_device_name a2d n2d d = Some n ->
  exists k, a2d !! k = Some n \/ n2d !! k = Some n.
Proof.
  unfold matched_device_name.
  destruct (str_truthy (upper (ble_address (fst d)))).
  - destruct (a2d !! upper (ble_address (fst d))) as [x|] eqn:Ha.
    + intros [= <-]. eauto.
    + destruct (str_truthy _); [|discriminate]. intros Hn. eauto.
  - destruct (str_truthy _); [|discriminate]. intros Hn. eauto.
Qed.

Lemma in_found_keys (n : string) (found : Found) :
  in_found n found = true <-> In n (List.map fst found).
Proof.
  unfold in_found. induction found as [|[k v] found IH]; simpl.
  - split; [discriminate | intros []].
  - destruct (String.eqb n k) eqn:E.
    + apply String.eqb_eq in E. subst. split; auto.
    + apply String.eqb_neq in E. rewrite IH. split; [auto | intros [Hk|Hin]; congruence].
Qed.

Section ScanKeys.
Variables a2d n2d : gmap string string.
Variable targets : list string.

#[local] Abbreviation keys_ok := (keys_ok a2d n2d).

Lemma cb_keys (found : Found) (d : Detection) :
  keys_ok found -> keys_ok (fst (cb a2d n2d targets found d)).
Proof.
  intros [Hnd Hval]. unfold cb.
  destruct (matched_device_name a2d n2d d) as [n|] eqn:Hm; [|split; assumption].
  destruct (str_truthy n) eqn:Hn; [|split; assumption].
  destruct (in_found n found) eqn:Hin; [split; assumption|].
  cbn [andb negb fst]. split.
  - rewrite List.map_app. apply NoDup_app. split; [assumption|].
    split; [|apply NoDup_singleton].
    intros x Hx Hx'. apply list_elem_of_singleton in Hx'. subst x.
    apply list_elem_of_In in Hx. apply (proj2 (in_found_keys n found)) in Hx. congruence.
  - intros x Hx. rewrite List.map_app in Hx. apply in_app_or in Hx as [Hx|[<-|[]]].
    + now apply Hval.
    + split; [now apply str_truthy_true | now apply (matched_device_name_value _ _ d)].
Qed.

Lemma scan_wait_keys (timeout : Z) (detections : list (Z * Detection)) :
  forall (found : Found) (n : nat),
    keys_ok found -> keys_ok (found_devices (scan_wait a2d n2d targets timeout detections found n)).
Proof.
  induction detections as [|[t d] rest IH]; intros found n Hok; simpl; [assumption|].
  destruct (timeout <=? t); [assumption|].
  pose proof (cb_keys found d Hok) as Hok'.
  destruct (cb a2d n2d targets found d) as [found' done]. cbn [fst] in Hok'.
  destruct done; [assumption | now apply IH].
Qed.

Lemma scan_wait_keys_nil (timeout : Z) (detections : list (Z * Detection)) :
  NoDup (List.map fst (found_devices (scan_wait a2d n2d targets timeout detections [] 0)))
  /\ forall n,
       In n (List.map fst (found_devices (scan_wait a2d n2d targets timeout detections [] 0))) ->
       n <> "" /\ exists k, a2d !! k = Some n \/ n2d !! k = Some n.
Proof.
  apply (scan_wait_keys timeout detections [] 0%nat). split; [constructor | intros n []].
Qed.

End ScanKeys.

Lemma build_lookup_error (devices : gmap string BleSnooz) (targets : list string) :
  forall a n e,
    build_lookup devices targets a n = inl e ->
    exists t, e = KeyError t /\ In t targets /\ devices !! t = None.
Proof.
  induction targets as [|t0 rest IH]; intros a n e Hb; simpl in Hb; [discriminate|].
  destruct (devices !! t0) as [dev|] eqn:Hdev.
  - apply IH in Hb as (t & He & Hin & Hnone). exists t.
    split; [assumption|]. split; [now right | assumption].
  - injection Hb as <-. exists t0. split; [reflexivity|]. split; [now left | assumption].
Qed.

Lemma scan_found_keys (self : SnoozManager) (targets : list string) (timeout : Z)
    (detections : list (Z * Detection)) (r : ScanResult) :
  _scan_for_targets self targets timeout detections = inr r ->
  NoDup (List.map fst (found_devices r))
  /\ forall n, In n (List.map fst (found_devices r)) ->
               n <> "" /\ In n targets /\ is_Some (_devices self !! n).
Proof.
  unfold _scan_for_targets.
  destruct (build_lookup (_devices self) targets ∅ ∅) as [e|[a2d n2d]] eqn:Hb; [discriminate|].
  intros [= <-].
  pose proof (build_lookup_registered _ _ _ _ _ _ Hb) as Hreg.
  rewrite (build_lookup_maps _ _ Hreg) in Hb. injection Hb as <- <-.
  destruct (scan_wait_keys_nil (build_map addr_key (_devices self) targets ∅)
              (build_map name_key (_devices self) targets ∅) targets timeout detections)
    as [Hnd Hval].
  split; [assumption|]. intros n Hin. destruct (Hval n Hin) as [Hne (k & [Hk|Hk])];
    (split; [assumption|]);
    apply build_map_sound in Hk as [[Ht (dev & Hdev & _)]|Hk];
    try (rewrite lookup_empty in Hk; discriminate);
    (split; [assumption | rewrite Hdev; eauto]).
Qed.

(** X7. A scan raises, before the scanner is started, exactly when one of
    the names it is asked for is not registered: a [KeyError] for such a
    name. Otherwise its result holds every name at most once, only names
    it was asked for, none of them empty, all of them registered, so no
    more entries than names asked for; and it has run the callback on no
    more detections than were heard. *)
Theorem scan_returns_each_target_once (self : SnoozManager) (targets : list string)
    (timeout : Z) (detections : list (Z * Detection)) :
  ((exists e, _scan_for_targets self targets timeout detections = inl e)
   <-> exists t, In t targets /\ _devices self !! t = None)
  /\ (forall e, _scan_for_targets self targets timeout detections = inl e ->
        exists t, e = KeyError t /\ In t targets /\ _devices self !! t = None)
  /\ (forall r, _scan_for_targets self targets timeout detections = inr r ->
        NoDup (List.map fst (found_devices r))
        /\ (forall n, In n (List.map fst (found_devices r)) ->
              n <> "" /\ In n targets /\ is_Some (_devices self !! n))
        /\ (length (found_devices r) <= length targets)%nat
        /\ (callbacks_run r <= length detections)%nat).
Proof.
  assert (Herr : forall e, _scan_for_targets self targets timeout detections = inl e ->
                   exists t, e = KeyError t /\ In t targets /\ _devices self !! t = None).
  { intros e. unfold _scan_for_targets.
    destruct (build_lookup (_devices self) targets ∅ ∅) as [e'|[a2d n2d]] eqn:Hb;
      [|discriminate].
    intros [= <-]. now apply (build_lookup_error _ _ _ _ _ Hb). }
  split; [|split; [exact Herr|]].
  - split.
    + intros [e He]. destruct (Herr e He) as (t & _ & Hin & Hnone). eauto.
    + intros (t & Hin & Hnone). unfold _scan_for_targets.
      destruct (build_lookup (_devices self) targets ∅ ∅) as [e'|[a2d n2d]] eqn:Hb; [eauto|].
      destruct (build_lookup_registered _ _ _ _ _ _ Hb t Hin) as [dev Hdev]. congruence.
  - intros r Hr. destruct (scan_found_keys self targets timeout detections r Hr) as [Hnd Hval].
    split; [assumption|]. split; [assumption|]. split.
    + rewrite <- (List.length_map fst). apply NoDup_incl_length.
      * now apply NoDup_ListNoDup.
      * intros n Hn. now apply Hval.
    + unfold _scan_for_targets in Hr.
      destruct (build_lookup (_devices self) targets ∅ ∅) as [e'|[a2d n2d]]; [discriminate|].
      injection Hr as <-.
      assert (Hgen : forall ds found n,
                (callbacks_run (scan_wait a2d n2d targets timeout ds found n)
                 <= n + length ds)%nat).
      { induction ds as [|[t d] rest IH]; intros found n; simpl; [lia|].
        destruct (timeout <=? t); simpl; [lia|].
        destruct (cb a2d n2d targets found d) as [found' [|]]; simpl; [lia|].
        specialize (IH found' (S n)). lia. }
      apply (Hgen detections [] 0%nat).
Qed.

(** ** Discovery and the registry *)

Section Registry.
Context `{PySnooz}.

Lemma same_identity_refl (a : BleSnooz) : same_identity a a.
Proof. repeat split. Qed.

Lemma same_identity_trans (a b c : BleSnooz) :
  same_identity a b -> same_identity b c -> same_identity a c.
Proof.
  intros (H1 & H2 & H3) (H4 & H5 & H6). repeat split; congruence.
Qed.

Lemma bind_discovery_identity (dev : BleSnooz) (ble : BLEDevice) (adv : AdvertisementData) :
  same_identity dev (fst (bind_discovery dev ble adv)).
Proof.
  unfold bind_discovery.
  destruct (parse_snooz_advertisement_from_bleak _ adv (password_hex dev)); repeat split.
Qed.

Lemma refresh_state_identity (now : Z) (o : StartOutcome) (self : BleSnooz) :
  same_identity self (fst (refresh_state now o self)).
Proof.
  unfold refresh_state.
  destruct (_device self) as [d|] eqn:Hd; [|apply same_identity_refl].
  destruct (negb (is_connected d)); [apply same_identity_refl|].
  destruct (negb (has_api_store o)); [apply same_identity_refl|].
  destruct (read_raises o); [apply same_identity_refl|].
  destruct (patched o); [|apply same_identity_refl].
  unfold _on_state_change, store_state. rewrite Hd. repeat split.
Qed.

Lemma start_identity (now : Z) (o : StartOutcome) (self : BleSnooz) :
  same_identity self (fst (start now o self)).
Proof.
  unfold start. destruct (_device self); [|apply same_identity_refl].
  destruct (info_raises o); [repeat split|].
  eapply same_identity_trans; [|apply refresh_state_identity]. repeat split.
Qed.

Lemma set_device_registry (n : string) (dev dev' : BleSnooz) (self : SnoozManager) :
  registry_ok self -> _devices self !! n = Some dev -> same_identity dev dev' ->
  registry_ok (set_device n dev' self).
Proof.
  intros (Hnd & Hdom & Hkey) Hn (Hname & _). unfold registry_ok, set_device.
  cbn [_names _devices]. split; [assumption|]. split.
  - intros n0. rewrite Hdom. destruct (decide (n = n0)) as [<-|Hne].
    + rewrite lookup_insert_eq, Hn. split; eauto.
    + now rewrite lookup_insert_ne.
  - intros n0 d0. destruct (decide (n = n0)) as [<-|Hne].
    + rewrite lookup_insert_eq. intros [= <-]. rewrite <- Hname. now apply Hkey.
    + rewrite lookup_insert_ne by assumption. apply Hkey.
Qed.

Lemma bind_found_registry (guard : bool) (now : Z) (starts : string -> StartOutcome)
    (found : Found) :
  forall self,
    registry_ok self ->
    (forall n, In n (List.map fst found) -> is_Some (_devices self !! n)) ->
    snd (bind_found guard now starts found self) = None
    /\ registry_ok (fst (bind_found guard now starts found self))
    /\ _names (fst (bind_found guard now starts found self)) = _names self
    /\ _running (fst (bind_found guard now starts found self)) = _running self
    /\ forall n dev, _devices self !! n = Some dev ->
         exists dev', _devices (fst (bind_found guard now starts found self)) !! n = Some dev'
                      /\ same_identity dev dev'.
Proof.
  induction found as [|[devname [ble adv]] rest IH]; intros self Hok Hreg.
  { simpl. repeat split; try apply Hok. intros n dev Hn. exists dev.
    split; [assumption | apply same_identity_refl]. }
  cbn [bind_found].
  destruct (Hreg devname (or_introl eq_refl)) as [dev0 Hdev0]. rewrite Hdev0.
  assert (Hrest : forall n, In n (List.map fst rest) -> is_Some (_devices self !! n))
    by (intros n Hn; apply Hreg; now right).
  assert (Hstep : forall dev',
            same_identity dev0 dev' ->
            snd (bind_found guard now starts rest (set_device devname dev' self)) = None
            /\ registry_ok (fst (bind_found guard now starts rest (set_device devname dev' self)))
            /\ _names (fst (bind_found guard now starts rest (set_device devname dev' self)))
               = _names self
            /\ _running (fst (bind_found guard now starts rest (set_device devname dev' self)))
               = _running self
            /\ forall n dev, _devices self !! n = Some dev ->
                 exists dev2,
                   _devices (fst (bind_found guard now starts rest
                                    (set_device devname dev' self))) !! n = Some dev2
                   /\ same_identity dev dev2).
  { intros dev' Hid.
    destruct (IH (set_device devname dev' self)) as (Hnone & Hok' & Hnames & Hrun & Hdevs).
    - now apply (set_device_registry devname dev0).
    - intros n Hn. cbn [set_device _devices]. destruct (decide (devname = n)) as [<-|Hne].
      + rewrite lookup_insert_eq. eauto.
      + rewrite lookup_insert_ne by assumption. now apply Hrest.
    - split; [assumption|]. split; [assumption|]. split; [assumption|].
      split; [assumption|]. intros n dev Hn.
      destruct (decide (devname = n)) as [<-|Hne].
      + rewrite Hdev0 in Hn. injection Hn as <-.
        destruct (Hdevs devname dev') as (dev2 & Hd2 & Hid2).
        { cbn [set_device _devices]. apply lookup_insert_eq. }
        exists dev2. split; [assumption|]. now apply (same_identity_trans _ dev').
      + apply Hdevs. cbn [set_device _devices]. now rewrite lookup_insert_ne. }
  destruct (guard && is_ready dev0); [now apply IH|].
  pose proof (bind_discovery_identity dev0 ble adv) as Hid1.
  destruct (bind_discovery dev0 ble adv) as [dev1 bound]. cbn [fst] in Hid1.
  destruct bound; [|now apply Hstep].
  pose proof (start_identity now (starts devname) dev1) as Hid2.
  destruct (start now (starts devname) dev1) as [dev2 e]. cbn [fst] in Hid2.
  apply Hstep. now apply (same_identity_trans _ dev1).
Qed.

Lemma scan_registered (self : SnoozManager) (targets : list string) (timeout : Z)
    (detections : list (Z * Detection)) :
  (forall t, In t targets -> is_Some (_devices self !! t)) ->
  exists r, _scan_for_targets self targets timeout detections = inr r.
Proof.
  intros Hreg. unfold _scan_for_targets. rewrite (build_lookup_maps _ _ Hreg). eauto.
Qed.

Lemma initial_discovery_registry (now : Z) (detections : list (Z * Detection))
    (starts : string -> StartOutcome) (self : SnoozManager) :
  registry_ok self ->
  snd (_initial_discovery_and_connect now detections starts self) = None
  /\ registry_ok (fst (_initial_discovery_and_connect now detections starts self))
  /\ _names (fst (_initial_discovery_and_connect now detections starts self)) = _names self
  /\ _running (fst (_initial_discovery_and_connect now detections starts self))
     = _running self
  /\ forall n dev, _devices self !! n = Some dev ->
       exists dev',
         _devices (fst (_initial_discovery_and_connect now detections starts self)) !! n
         = Some dev'
         /\ same_identity dev dev'.
Proof.
  intros Hok. unfold _initial_discovery_and_connect.
  destruct (scan_registered self (_names self) INITIAL_SCAN_TIMEOUT_MS detections) as [r Hr].
  { intros t Ht. now apply Hok. }
  rewrite Hr. apply bind_found_registry; [assumption|].
  intros n Hn. now apply (scan_found_keys _ _ _ _ _ Hr).
Qed.

Lemma missing_names_registered (self : SnoozManager) (t : string) :
  In t (missing_names self) -> is_Some (_devices self !! t).
Proof.
  intros Hin. apply missing_names_iff in Hin as [_ (dev & Hdev & _)]. rewrite Hdev. eauto.
Qed.

Lemma rescan_tick_registry (tk : Tick) (self : SnoozManager) :
  registry_ok self ->
  registry_ok (rescan_tick tk self)
  /\ _names (rescan_tick tk self) = _names self
  /\ _running (rescan_tick tk self) = _running self
  /\ forall n dev, _devices self !! n = Some dev ->
       exists dev', _devices (rescan_tick tk self) !! n = Some dev' /\ same_identity dev dev'.
Proof.
  intros Hok.
  assert (Hsame : registry_ok self /\ _names self = _names self
                  /\ _running self = _running self
                  /\ forall n dev, _devices self !! n = Some dev ->
                       exists dev', _devices self !! n = Some dev' /\ same_identity dev dev').
  { repeat split; try apply Hok. intros n dev Hn. exists dev.
    split; [assumption | apply same_identity_refl]. }
  unfold rescan_tick. destruct (missing_names self) as [|m0 ms] eqn:Hm; [exact Hsame|].
  destruct (_scan_for_targets self (m0 :: ms) RESCAN_TIMEOUT_MS (tick_detections tk))
    as [e|r] eqn:Hr; [exact Hsame|].
  apply (bind_found_registry true); [assumption|].
  intros n Hn. now apply (scan_found_keys _ _ _ _ _ Hr).
Qed.

Lemma rescan_loop_registry (ticks : list Tick) :
  forall self,
    registry_ok self ->
    registry_ok (_rescan_loop ticks self)
    /\ _names (_rescan_loop ticks self) = _names self
    /\ forall n dev, _devices self !! n = Some dev ->
         exists dev', _devices (_rescan_loop ticks self) !! n = Some dev'
                      /\ same_identity dev dev'.
Proof.
  induction ticks as [|tk rest IH]; intros self Hok; cbn [_rescan_loop].
  { repeat split; try apply Hok. intros n dev Hn. exists dev.
    split; [assumption | apply same_identity_refl]. }
  destruct (_running self).
  - destruct (rescan_tick_registry tk self Hok) as (Hok1 & Hn1 & _ & Hd1).
    destruct (IH _ Hok1) as (Hok2 & Hn2 & Hd2).
    split; [assumption|]. split; [congruence|]. intros n dev Hn.
    destruct (Hd1 n dev Hn) as (dev1 & Hdev1 & Hid1).
    destruct (Hd2 n dev1 Hdev1) as (dev2 & Hdev2 & Hid2).
    exists dev2. split; [assumption|]. now apply (same_identity_trans _ dev1).
  - repeat split; try apply Hok. intros n dev Hn. exists dev.
    split; [assumption | apply same_identity_refl].
Qed.

End Registry.

(** X8. On a registry as [add_device] builds it, start-up discovery and
    every pass of the rescan loop run to their end without a [KeyError]:
    the scan finds every name it is asked for registered, and every name
    it returns has a session. They leave the registry as it was built
    (same names in the same order, one session under each name) and every
    session with the name, the matchName and the password it was created
    with. *)
Theorem discovery_keeps_registry `{PySnooz} (self : SnoozManager) (now : Z)
    (detections : list (Z * Detection)) (starts : string -> StartOutcome)
    (tk : Tick) (ticks : list Tick) :
  registry_ok self ->
  (snd (_initial_discovery_and_connect now detections starts self) = None
   /\ registry_ok (fst (_initial_discovery_and_connect now detections starts self))
   /\ get_device_names (fst (_initial_discovery_and_connect now detections starts self))
      = get_device_names self
   /\ forall n dev, _devices self !! n = Some dev ->
        exists dev',
          _devices (fst (_initial_discovery_and_connect now detections starts self)) !! n
          = Some dev'
          /\ same_identity dev dev')
  /\ (exists r,
        _scan_for_targets self (missing_names self) RESCAN_TIMEOUT_MS (tick_detections tk)
        = inr r
        /\ snd (bind_found true (tick_time tk + stopped_at r) (tick_starts tk)
                  (found_devices r) self) = None)
  /\ (registry_ok (_rescan_loop ticks self)
      /\ get_device_names (_rescan_loop ticks self) = get_device_names self
      /\ forall n dev, _devices self !! n = Some dev ->
           exists dev', _devices (_rescan_loop ticks self) !! n = Some dev'
                        /\ same_identity dev dev').
Proof.
  intros Hok. split; [|split].
  - destruct (initial_discovery_registry now detections starts self Hok)
      as (H1 & H2 & H3 & _ & H5). auto.
  - destruct (scan_registered self (missing_names self) RESCAN_TIMEOUT_MS
                (tick_detections tk)) as [r Hr].
    { apply missing_names_registered. }
    exists r. split; [assumption|]. apply bind_found_registry; [assumption|].
    intros n Hn. now apply (scan_found_keys _ _ _ _ _ Hr).
  - apply rescan_loop_registry, Hok.
Qed.

Lemma sample_registry_ok : registry_ok sample_manager.
Proof.
  split; [|split].
  - apply NoDup_ListNoDup. repeat constructor; simpl; intuition discriminate.
  - intros n. simpl. split.
    + intros [<-|[<-|[]]]; vm_compute; eauto.
    + intros [dev Hdev]. destruct (decide (n = "nursery")) as [->|Hn]; [auto|].
      destruct (decide (n = "bedroom")) as [->|Hb]; [auto|].
      unfold sample_manager in Hdev. cbn [_devices] in Hdev.
      rewrite lookup_insert_ne, lookup_insert_ne, lookup_empty in Hdev by congruence.
      discriminate.
  - intros n dev Hdev. destruct (decide (n = "nursery")) as [->|Hn].
    { vm_compute in Hdev. now injection Hdev as <-. }
    destruct (decide (n = "bedroom")) as [->|Hb].
    { vm_compute in Hdev. now injection Hdev as <-. }
    unfold sample_manager in Hdev. cbn [_devices] in Hdev.
    rewrite lookup_insert_ne, lookup_insert_ne, lookup_empty in Hdev by congruence.
    discriminate.
Qed.

Lemma discovery_keeps_registry_witness :
  registry_ok sample_manager
  /\ snd (@_initial_discovery_and_connect sample_pysnooz 0 sample_detections
            (fun _ => failing_start) sample_manager) = None
  /\ get_device_names (@_rescan_loop sample_pysnooz [sample_tick; sample_tick] sample_manager)
     = ["bedroom"; "nursery"].
Proof.
  split; [exact sample_registry_ok|].
  destruct (@discovery_keeps_registry sample_pysnooz sample_manager 0 sample_detections
              (fun _ => failing_start) sample_tick [sample_tick; sample_tick]
              sample_registry_ok) as ((H1 & _) & _ & (_ & H2 & _)).
  split; [exact H1 | exact H2].
Defined.

(** ** Start-up discovery: what is bound *)

Section Startup.
Context `{PySnooz}.



End Startup.



(** ** The debouncer, for notifications spaced in any way *)

Lemma run_until_emits (t : Z) (L : SessionLoop) :
  loop_settled L -> clock L <= t ->
  clock (run_until t L) = t
  /\ (exists cur, session (run_until t L) = with_event_task cur (session L))
  /\ exists evs, emitted (run_until t L) = (emitted L ++ evs)%list
                 /\ (length evs <= 1)%nat
                 /\ (_event_task (session L) = None -> evs = []).
Proof.
  intros [Hd _] Hc. unfold run_until. rewrite (wake_tasks_none _ _ _ Hd).
  destruct (_event_task (session L)) as [k|].
  - destruct (task_due t k); cbn [clock session emitted app].
    + split; [lia|]. split; [eauto|]. eexists. split; [reflexivity|].
      split; [simpl; lia | discriminate].
    + split; [lia|]. split; [eauto|]. exists []. split; [reflexivity|].
      split; [simpl; lia | reflexivity].
  - cbn [clock session emitted app]. split; [lia|]. split; [eauto|].
    exists []. split; [reflexivity|]. split; [simpl; lia | reflexivity].
Qed.

Lemma notify_general (gap : Z) (s : SnoozDeviceState) (L : SessionLoop) :
  loop_settled L -> 0 <= gap ->
  clock (notify gap s L) = clock L + gap
  /\ session (notify gap s L)
     = with_event_task (Some (fresh_task (clock L + gap))) (store_state s (session L))
  /\ exists evs, emitted (notify gap s L) = (emitted L ++ evs)%list
                 /\ (length evs <= 1)%nat
                 /\ (_event_task (session L) = None -> evs = []).
Proof.
  intros HL Hg.
  destruct (run_until_emits (clock L + gap) L HL ltac:(lia)) as (Hc & [cur Hs] & Hev).
  unfold notify. remember (run_until (clock L + gap) L) as L1 eqn:EL1. clear EL1.
  pose proof (on_state_change_replaced (clock L1) (store_state s (session L1))) as [H1 _].
  destruct (_on_state_change (clock L1) (store_state s (session L1))) as [self' replaced].
  cbn [fst] in H1. cbn [clock session emitted].
  split; [assumption|]. split; [|assumption].
  rewrite H1, Hs, Hc, store_state_event_task, with_event_task_twice. reflexivity.
Qed.

Lemma last_cons_default {A : Type} (l : list A) :
  forall x d, List.last (x :: l) d = List.last l x.
Proof.
  induction l as [|y l IH]; intros x d; [reflexivity|].
  change (List.last (x :: y :: l) d) with (List.last (y :: l) d).
  now rewrite (IH y d), (IH y x).
Qed.

Lemma notify_all_general (rest : list (Z * SnoozDeviceState)) :
  forall (L : SessionLoop) (gap : Z) (s : SnoozDeviceState),
    loop_settled L -> 0 <= gap -> Forall (fun gs => 0 <= fst gs) rest ->
    clock (notify_all ((gap, s) :: rest) L) = clock L + gap + burst_span rest
    /\ session (notify_all ((gap, s) :: rest) L)
       = with_event_task (Some (fresh_task (clock L + gap + burst_span rest)))
           (store_state (last_state s rest) (session L))
    /\ loop_settled (notify_all ((gap, s) :: rest) L)
    /\ exists evs, emitted (notify_all ((gap, s) :: rest) L) = (emitted L ++ evs)%list
                   /\ (length evs <= S (length rest))%nat
                   /\ (_event_task (session L) = None -> (length evs <= length rest)%nat).
Proof.
  induction rest as [|[gap' s'] rest IH]; intros L gap s HL Hg Hgaps.
  - cbn [notify_all]. unfold burst_span, last_state. cbn [fold_right List.map List.last].
    rewrite Z.add_0_r.
    destruct (notify_general gap s L HL Hg) as (Hc & Hs & evs & He & Hlen & Hnone).
    split; [assumption|]. split; [assumption|]. split; [now apply notify_settled|].
    exists evs. split; [assumption|]. split; [assumption|].
    intros Hn. rewrite (Hnone Hn). simpl. lia.
  - inversion Hgaps as [|? ? Hg' Hrest]; subst. cbn [fst] in Hg'.
    destruct (notify_general gap s L HL Hg) as (Hc & Hs & evs & He & Hlen & Hnone).
    change (notify_all ((gap, s) :: (gap', s') :: rest) L)
      with (notify_all ((gap', s') :: rest) (notify gap s L)).
    destruct (IH (notify gap s L) gap' s' (notify_settled gap s L HL) Hg' Hrest)
      as (Hc2 & Hs2 & HL2 & evs2 & He2 & Hlen2 & Hnone2).
    assert (Hspan : burst_span ((gap', s') :: rest) = gap' + burst_span rest) by reflexivity.
    assert (Hlast : last_state s ((gap', s') :: rest) = last_state s' rest).
    { unfold last_state. cbn [List.map]. apply last_cons_default. }
    rewrite Hspan, Hlast.
    split; [rewrite Hc2, Hc; lia|]. split.
    { rewrite Hs2, Hs, Hc, store_state_event_task, with_event_task_twice, store_state_twice.
      do 3 f_equal. lia. }
    split; [assumption|].
    exists (evs ++ evs2)%list. split; [rewrite He2, He, <- app_assoc; reflexivity|].
    rewrite List.length_app.
    split; [simpl; lia|].
    intros Hn. rewrite (Hnone Hn). simpl. lia.
Qed.

(** X10. Notifications spaced in any way, the first one [gap] after the
    current time of a settled loop: the events emitted while they arrive
    are at most one per notification (one fewer when the session held no
    task before the first); after the last notification nothing more is
    emitted until the debounce delay has elapsed, and once it has elapsed
    exactly one more event has been emitted, 250 ms after the last
    notification, carrying the snapshot of the state of the last
    notification: a [device_state] event that names the device and whose
    snapshot holds the five fields of that state in its [state] object
    (null fields for a session with no device). So the last state is
    always reported, and there are never more events than notifications
    and tasks. *)
Theorem debounce_reports_last_state (L0 : SessionLoop) (gap : Z) (s1 : SnoozDeviceState)
    (rest : list (Z * SnoozDeviceState)) :
  loop_settled L0 -> 0 <= gap ->
  Forall (fun gs => 0 <= fst gs) rest ->
  exists during,
    emitted (notify_all ((gap, s1) :: rest) L0) = (emitted L0 ++ during)%list
    /\ (length during <= S (length rest))%nat
    /\ (_event_task (session L0) = None -> (length during <= length rest)%nat)
    /\ clock (notify_all ((gap, s1) :: rest) L0) = clock L0 + gap + burst_span rest
    /\ (forall T, 0 <= T < DEBOUNCE_MS ->
          emitted (run_until (clock L0 + gap + burst_span rest + T)
                     (notify_all ((gap, s1) :: rest) L0))
          = (emitted L0 ++ during)%list)
    /\ (forall T, DEBOUNCE_MS <= T ->
          emitted (run_until (clock L0 + gap + burst_span rest + T)
                     (notify_all ((gap, s1) :: rest) L0))
          = (emitted L0 ++ during
               ++ [(clock L0 + gap + burst_span rest + DEBOUNCE_MS,
                    emit_event (store_state (last_state s1 rest) (session L0)))])%list)
    /\ (forall d, _device (session L0) = Some d ->
          emit_event (store_state (last_state s1 rest) (session L0))
          = JObj [("type", JStr "device_state");
                  ("device_name", JStr (device_name (session L0)));
                  ("state", JObj [
                     ("device_name", JStr (device_name (session L0)));
                     ("address", JStr (address (session L0)));
                     ("display_name",
                        opt_json (fun x => JStr (display_name x)) (_discovered (session L0)));
                     ("connected", JBool (is_connected d));
                     ("connection_status", JStr (connection_status d));
                     ("model",
                        opt_json (fun x => JStr (model_name (model (snooz_adv x))))
                          (_discovered (session L0)));
                     ("firmware_version",
                        opt_json
                          (fun x => JStr (firmware_name (firmware_version (snooz_adv x))))
                          (_discovered (session L0)));
                     ("state", JObj [
                        ("on", jbool_opt (on (last_state s1 rest)));
                        ("volume", jint_opt (volume (last_state s1 rest)));
                        ("light_on", jbool_opt (light_on (last_state s1 rest)));
                        ("light_brightness", jint_opt (light_brightness (last_state s1 rest)));
                        ("night_mode_enabled", jbool_opt (night_mode_enabled (last_state s1 rest)))])])])
    /\ (_device (session L0) = None ->
          emit_event (store_state (last_state s1 rest) (session L0))
          = JObj [("type", JStr "device_state");
                  ("device_name", JStr (device_name (session L0)));
                  ("state", JObj [
                     ("device_name", JStr (device_name (session L0)));
                     ("address", JStr (address (session L0)));
                     ("display_name",
                        opt_json (fun x => JStr (display_name x)) (_discovered (session L0)));
                     ("connected", JBool false);
                     ("connection_status", JStr "UNKNOWN");
                     ("model",
                        opt_json (fun x => JStr (model_name (model (snooz_adv x))))
                          (_discovered (session L0)));
                     ("firmware_version",
                        opt_json
                          (fun x => JStr (firmware_name (firmware_version (snooz_adv x))))
                          (_discovered (session L0)));
                     ("state", JObj [
                        ("on", JNull); ("volume", JNull); ("light_on", JNull);
                        ("light_brightness", JNull); ("night_mode_enabled", JNull)])])]).
Proof.
  intros HL Hg Hgaps.
  destruct (notify_all_general rest L0 gap s1 HL Hg Hgaps)
    as (Hc & Hs & [Hd Hk] & during & He & Hlen & Hnone).
  exists during. split; [assumption|]. split; [assumption|]. split; [assumption|].
  split; [assumption|].
  assert (Hdeb : 0 < DEBOUNCE_MS) by reflexivity.
  set (L := notify_all ((gap, s1) :: rest) L0) in *.
  set (tN := clock L0 + gap + burst_span rest) in *.
  split.
  - intros T [HT0 HT1]. rewrite run_until_quiet; [exact He | lia | exact Hd |].
    intros k Hke _. rewrite Hs in Hke. cbn in Hke. injection Hke as <-.
    unfold fresh_task. cbn [wake_at]. lia.
  - split; [|split; [intros d; apply emit_event_bound | apply emit_event_unbound]].
    intros T HT.
    rewrite (run_until_due (tN + T) L (fresh_task tN)).
    + rewrite He, Hs, emit_event_event_task, <- app_assoc. reflexivity.
    + lia.
    + exact Hd.
    + rewrite Hs. reflexivity.
    + reflexivity.
    + unfold fresh_task. cbn [wake_at]. lia.
Qed.

Lemma debounce_reports_last_state_witness :
  emitted (run_until 2000
             (notify_all [(0, state_quiet); (300, state_louder); (100, state_loud)]
                sample_loop))
  = [(1250, emit_event (store_state state_quiet bedroom_bound));
     (1650,
      JObj [("type", JStr "device_state"); ("device_name", JStr "bedroom");
             ("state", JObj [
                ("device_name", JStr "bedroom"); ("address", JStr "AA:BB:CC:DD:EE:FF");
                ("display_name", JStr "Snooz-1234"); ("connected", JBool false);
                ("connection_status", JStr "DISCONNECTED");
                ("model", JStr "PRO"); ("firmware_version", JStr "V6");
                ("state", JObj [
                   ("on", JBool true); ("volume", JInt 60); ("light_on", JBool true);
                   ("light_brightness", JInt 80); ("night_mode_enabled", JBool false)])])])].
Proof.
  assert (Hgaps : Forall (fun gs : Z * SnoozDeviceState => 0 <= fst gs)
                    [(300, state_louder); (100, state_loud)]).
  { repeat constructor; simpl; lia. }
  destruct (debounce_reports_last_state sample_loop 0 state_quiet
              [(300, state_louder); (100, state_loud)]
              (loop_init_settled 1000 bedroom_bound) (Z.le_refl 0) Hgaps)
    as (during & Hduring & _ & _ & _ & _ & Hafter & _).
  specialize (Hafter 600 ltac:(unfold DEBOUNCE_MS; lia)).
  change (clock sample_loop + 0 + burst_span [(300, state_louder); (100, state_loud)] + 600)
    with 2000 in Hafter.
  rewrite Hafter.
  change (emitted (notify_all [(0, state_quiet); (300, state_louder); (100, state_loud)]
                     sample_loop))
    with ([] ++ [(1250, emit_event (store_state state_quiet bedroom_bound))])%list
    in Hduring.
  apply app_inv_head in Hduring. subst during. reflexivity.
Defined.

(** ** Pairing mode *)

Lemma land_lor_lnot (b p : Z) : Z.land (Z.lor b p) (Z.lnot p) = Z.land b (Z.lnot p).
Proof.
  apply Z.bits_inj'. intros n Hn.
  rewrite !Z.land_spec, Z.lor_spec, Z.lnot_spec by assumption.
  destruct (Z.testbit b n), (Z.testbit p n); reflexivity.
Qed.

Lemma land_land_lnot (b p : Z) : Z.land (Z.land b (Z.lnot p)) (Z.lnot p) = Z.land b (Z.lnot p).
Proof.
  rewrite <- Z.land_assoc. now rewrite Z.land_diag.
Qed.

Section Pairing.
Context `{PySnooz}.

Lemma set_pairing_same (on : bool) (p : list Z) : same_firmware p (set_pairing on p).
Proof.
  destruct p as [|b rest]; [split; reflexivity|]. split; [reflexivity|].
  cbn [set_pairing]. destruct on; [now rewrite land_lor_lnot | now rewrite land_land_lnot].
Qed.

Lemma set_pairing_flag (on : bool) (b : Z) :
  FIRMWARE_PAIRING_FLAGS <> 0 ->
  snd (_parse_firmware_flags (hd 0 (set_pairing on [b]))) = on.
Proof.
  intros Hp. cbn [set_pairing hd]. unfold _parse_firmware_flags. cbn [snd]. destruct on.
  - apply Z.eqb_eq. apply Z.bits_inj'. intros n Hn.
    rewrite Z.land_spec, Z.lor_spec.
    destruct (Z.testbit b n), (Z.testbit FIRMWARE_PAIRING_FLAGS n); reflexivity.
  - apply Z.eqb_neq. intros Heq. apply Hp. rewrite <- Heq.
    apply Z.bits_inj'. intros n Hn.
    rewrite !Z.land_spec, Z.lnot_spec, Z.bits_0 by assumption.
    destruct (Z.testbit b n), (Z.testbit FIRMWARE_PAIRING_FLAGS n); reflexivity.
Qed.

Lemma mfg_get_same (k : Z) (m m' : list (Z * list Z)) :
  Forall2 (fun kv kv' => fst kv = fst kv' /\ same_firmware (snd kv) (snd kv')) m m' ->
  match mfg_get k m, mfg_get k m' with
  | Some p, Some p' => same_firmware p p'
  | None, None => True
  | _, _ => False
  end.
Proof.
  induction 1 as [|[k1 p1] [k2 p2] m m' [Hk Hp] _ IH]; simpl; [trivial|].
  simpl in Hk, Hp. subst k2. destruct (k =? k1); [exact Hp | exact IH].
Qed.

Lemma parse_same_advertiser (name : string) (adv adv' : AdvertisementData) (pw : string) :
  same_advertiser adv adv' ->
  parse_snooz_advertisement_from_bleak name adv pw
  = parse_snooz_advertisement_from_bleak name adv' pw.
Proof.
  intros Hsame. unfold parse_snooz_advertisement_from_bleak.
  pose proof (mfg_get_same 65535 _ _ Hsame) as Hget. cbv zeta.
  assert (Hpay : match
                   match mfg_get 65535 (manufacturer_data adv) with
                   | Some p => Some p
                   | None => match manufacturer_data adv with
                             | (_, p) :: _ => Some p
                             | [] => None
                             end
                   end,
                   match mfg_get 65535 (manufacturer_data adv') with
                   | Some p => Some p
                   | None => match manufacturer_data adv' with
                             | (_, p) :: _ => Some p
                             | [] => None
                             end
                   end
                 with
                 | Some p, Some p' => same_firmware p p'
                 | None, None => True
                 | _, _ => False
                 end).
  { destruct (mfg_get 65535 (manufacturer_data adv)) as [p|],
             (mfg_get 65535 (manufacturer_data adv')) as [p'|]; try contradiction;
      [exact Hget|].
    unfold same_advertiser in Hsame.
    destruct Hsame as [|[k1 p1] [k2 p2] m m' [_ Hp] _]; [trivial | exact Hp]. }
  destruct (match mfg_get 65535 (manufacturer_data adv) with
            | Some p => Some p
            | None => _
            end) as [p|],
           (match mfg_get 65535 (manufacturer_data adv') with
            | Some p => Some p
            | None => _
            end) as [p'|]; try contradiction; [|reflexivity].
  destruct Hpay as [Hlen Hfw].
  destruct p as [|b rest], p' as [|b' rest']; try discriminate; [reflexivity|].
  rewrite Hlen. destruct (negb _); [reflexivity|].
  unfold _parse_firmware_flags. cbn [fst]. now rewrite Hfw.
Qed.

Lemma parse_result (name : string) (adv : AdvertisementData) (pw : string)
    (sa : SnoozAdvertisementData) :
  parse_snooz_advertisement_from_bleak name adv pw = Some sa ->
  password sa = pw /\ model sa <> UNSUPPORTED.
Proof.
  unfold parse_snooz_advertisement_from_bleak. cbv zeta.
  destruct (match mfg_get 65535 (manufacturer_data adv) with
            | Some p => Some p
            | None => _
            end) as [[|b rest]|]; try discriminate.
  destruct (negb _); [discriminate|].
  destruct (fst (_parse_firmware_flags b)) as [fw|]; [|discriminate].
  destruct (startswith "breez" (lower name)).
  { intros [= <-]. split; [reflexivity | discriminate]. }
  destruct (startswith "snooz" (lower name)).
  { destruct fw; intros [= <-]; split; try reflexivity; discriminate. }
  destruct (firmware_eqb fw V6); [|discriminate].
  intros [= <-]. split; [reflexivity | discriminate].
Qed.

End Pairing.

(** X11. Whether a session binds to an advertisement does not depend on
    the pairing flags of the payload nor on the bytes after the first:
    two advertisements with the same name whose payloads have the same
    length and the same first byte up to the pairing flags are parsed
    alike and bind alike. Setting or clearing the pairing flags is such a
    change (and is what [_parse_firmware_flags] reports as pairing). The
    password handed to the device library is always the configured one,
    never the one advertised, and a bound model is never UNSUPPORTED. *)
Theorem binding_ignores_pairing_mode `{PySnooz} (self : BleSnooz) (ble : BLEDevice)
    (adv adv' : AdvertisementData) :
  same_advertiser adv adv' ->
  local_name adv = local_name adv' ->
  (forall name pw,
     parse_snooz_advertisement_from_bleak name adv pw
     = parse_snooz_advertisement_from_bleak name adv' pw)
  /\ snd (bind_discovery self ble adv) = snd (bind_discovery self ble adv')
  /\ (forall name pw sa,
        parse_snooz_advertisement_from_bleak name adv pw = Some sa ->
        password sa = pw /\ model sa <> UNSUPPORTED)
  /\ (forall self1,
        bind_discovery self ble adv = (self1, true) ->
        exists disc,
          _discovered self1 = Some disc
          /\ password (snooz_adv disc) = password_hex self
          /\ advertisement_data disc = adv)
  /\ (forall on p, same_firmware p (set_pairing on p))
  /\ (FIRMWARE_PAIRING_FLAGS <> 0 ->
      forall on b, snd (_parse_firmware_flags (hd 0 (set_pairing on [b]))) = on).
Proof.
  intros Hsame Hname.
  split; [intros name pw; now apply parse_same_advertiser|].
  split.
  { unfold bind_discovery. rewrite <- Hname.
    rewrite <- (parse_same_advertiser _ adv adv' _ Hsame).
    now destruct (parse_snooz_advertisement_from_bleak _ adv (password_hex self)). }
  split; [intros name pw sa; apply parse_result|].
  split.
  { intros self1. unfold bind_discovery.
    destruct (parse_snooz_advertisement_from_bleak _ adv (password_hex self)) as [sa|] eqn:Hp;
      cbv zeta; intros Heq; inversion Heq; subst.
    eexists. split; [reflexivity|]. cbn [snooz_adv advertisement_data].
    split; [apply (parse_result _ _ _ _ Hp) | reflexivity]. }
  split; [intros on p; apply set_pairing_same|].
  intros Hp on b. now apply set_pairing_flag.
Qed.

Lemma binding_ignores_pairing_mode_witness :
  @same_advertiser sample_pysnooz quiet_adv pairing_adv
  /\ snd (@bind_discovery sample_pysnooz bedroom bedroom_ble quiet_adv) = true
  /\ snd (@bind_discovery sample_pysnooz bedroom bedroom_ble pairing_adv) = true.
Proof.
  assert (Hsame : @same_advertiser sample_pysnooz quiet_adv pairing_adv).
  { constructor; [|constructor]. repeat split. }
  split; [exact Hsame|].
  destruct (@binding_ignores_pairing_mode sample_pysnooz bedroom bedroom_ble quiet_adv
              pairing_adv Hsame eq_refl) as (_ & Hbind & _).
  split; [reflexivity|]. rewrite <- Hbind. reflexivity.
Defined.

(** ** The discovery tool *)

Lemma hex_digit_hex (n : Z) :
  0 <= n < 16 -> char_in (hex_digit n) "0123456789abcdef" = true.
Proof.
  intros Hn. unfold hex_digit.
  assert (Hk : (Z.to_nat n < 16)%nat) by lia.
  revert Hk. generalize (Z.to_nat n). intros k Hk.
  do 16 (destruct k as [|k]; [reflexivity|]). lia.
Qed.

Lemma bytes_hex_length (p : list Z) : String.length (bytes_hex p) = (2 * length p)%nat.
Proof.
  induction p as [|b rest IH]; [reflexivity|]. cbn [bytes_hex String.length length].
  rewrite IH. lia.
Qed.

Lemma bytes_hex_digits (p : list Z) :
  Forall (fun b => 0 <= b < 256) p ->
  str_forall (fun ch => char_in ch "0123456789abcdef") (bytes_hex p) = true.
Proof.
  induction 1 as [|b rest Hb _ IH]; [reflexivity|]. cbn [bytes_hex str_forall].
  rewrite IH, !hex_digit_hex; [reflexivity| |].
  - apply Z.mod_pos_bound. lia.
  - split; [apply Z.div_pos; lia | apply Z.div_lt_upper_bound; lia].
Qed.

Lemma mfg_get_forall (P : list Z -> Prop) (k : Z) (m : list (Z * list Z)) (p : list Z) :
  Forall (fun kv => P (snd kv)) m -> mfg_get k m = Some p -> P p.
Proof.
  induction 1 as [|[k' v] m Hv _ IH]; cbn [mfg_get]; [discriminate|].
  destruct (k =? k'); [|exact IH]. intros Heq. inversion Heq; subst. exact Hv.
Qed.

Lemma payload_bytes_ok (adv : AdvertisementData) (p : list Z) :
  bytes_ok adv ->
  match mfg_get 65535 (manufacturer_data adv) with
  | Some p => Some p
  | None => match manufacturer_data adv with (_, p) :: _ => Some p | [] => None end
  end = Some p ->
  Forall (fun b => 0 <= b < 256) p.
Proof.
  unfold bytes_ok. intros Hok.
  destruct (mfg_get 65535 (manufacturer_data adv)) as [q|] eqn:Hget.
  - intros Heq. inversion Heq; subst.
    apply (mfg_get_forall (Forall (fun b => 0 <= b < 256)) _ _ _ Hok Hget).
  - destruct Hok as [|[k v] m Hv _]; [discriminate|].
    intros Heq. inversion Heq; subst. exact Hv.
Qed.

(** X12. The password the discovery tool prints for a device in pairing
    mode is two lower-case hexadecimal digits for every byte after the
    first of the payload. When advertisements have nine bytes this is a
    password the service accepts as it is: [_normalize_hex_password]
    returns it unchanged, and the entry the tool prints (address and
    password quoted) loads as a device with that password and that
    address. With any other advertisement length the configuration
    loader rejects what the tool prints. *)
Theorem discovered_password_configures `{PySnooz} `{PyBuiltins} (adv : AdvertisementData)
    (pw : string) :
  bytes_ok adv ->
  discover_snooz.parse_password_if_pairing adv = Some pw ->
  String.length pw = (2 * (SNOOZ_ADVERTISEMENT_LENGTH - 1))%nat
  /\ str_forall (fun ch => char_in ch "0123456789abcdef") pw = true
  /\ (SNOOZ_ADVERTISEMENT_LENGTH = 9%nat ->
      config._normalize_hex_password pw = inr pw
      /\ forall device_name a,
           a <> "" ->
           config.device_config [("device_name", JStr device_name);
                                 ("address", JStr (upper a)); ("password", JStr pw)]
           = inr {| config.device_name := device_name; config.password := pw;
                    config.address := Some (upper a); config.name := None |})
  /\ (SNOOZ_ADVERTISEMENT_LENGTH <> 9%nat ->
      exists e, config._normalize_hex_password pw = inl e).
Proof.
  intros Hok. unfold discover_snooz.parse_password_if_pairing. cbv zeta.
  destruct (match mfg_get 65535 (manufacturer_data adv) with
            | Some p => Some p
            | None => _
            end) as [[|flags rest]|] eqn:Hpay; try discriminate.
  destruct (Nat.eqb (length (flags :: rest)) SNOOZ_ADVERTISEMENT_LENGTH) eqn:Hlen;
    [|discriminate].
  cbn [negb]. destruct (negb _); [discriminate|]. intros [= <-].
  apply Nat.eqb_eq in Hlen. cbn [length] in Hlen.
  pose proof (payload_bytes_ok adv _ Hok Hpay) as Hbytes.
  inversion Hbytes as [|? ? _ Hrest]; subst.
  pose proof (bytes_hex_digits rest Hrest) as Hhex.
  destruct (hex_digits_fixed _ Hhex) as (Hl & Hs & Hfix).
  assert (Hn : SNOOZ_ADVERTISEMENT_LENGTH = 9%nat ->
               config._normalize_hex_password (bytes_hex rest) = inr (bytes_hex rest)).
  { intros H9. rewrite normalize_hex_password_eq, Hfix, bytes_hex_length.
    replace (2 * length rest)%nat with 16%nat by lia. reflexivity. }
  split; [rewrite bytes_hex_length; lia|]. split; [assumption|]. split.
  - intros H9. split; [now apply Hn|]. intros device_name a Ha.
    unfold config.device_config. cbn [assoc_get String.eqb Ascii.eqb Bool.eqb dict_get].
    cbn. rewrite (Hn H9).
    assert (Hu : str_truthy (upper a) = true).
    { apply str_truthy_ne. now rewrite upper_empty. }
    rewrite Hu, upper_idem. reflexivity.
  - intros H9. rewrite normalize_hex_password_eq, Hfix, bytes_hex_length.
    destruct (Nat.eqb (2 * length rest) 16) eqn:E.
    + apply Nat.eqb_eq in E. lia.
    + cbn [negb]. eauto.
Qed.

Lemma discovered_password_configures_witness :
  @discover_snooz.parse_password_if_pairing nine_byte_pysnooz nine_byte_adv
  = Some "0123456789abcdef"
  /\ @config._normalize_hex_password sample_py "0123456789abcdef" = inr "0123456789abcdef".
Proof.
  split; [reflexivity|].
  assert (Hok : bytes_ok nine_byte_adv).
  { repeat constructor; simpl; lia. }
  destruct (@discovered_password_configures nine_byte_pysnooz sample_py nine_byte_adv
              "0123456789abcdef" Hok eq_refl) as (_ & _ & H9 & _).
  apply (H9 eq_refl).
Defined.

Lemma assoc_get_dict_set {A : Type} (a k : string) (v : A) (l : list (string * A)) :
  assoc_get a (dict_set k v l) = if String.eqb a k then Some v else assoc_get a l.
Proof.
  induction l as [|[k' v'] l IH]; cbn [dict_set assoc_get]; [reflexivity|].
  destruct (String.eqb k k') eqn:E; cbn [assoc_get].
  - apply String.eqb_eq in E. subst k'. now destruct (String.eqb a k).
  - rewrite IH. destruct (String.eqb a k') eqn:E'; [|reflexivity].
    apply String.eqb_eq in E'. subst k'. rewrite String.eqb_sym in E. now rewrite E.
Qed.

Lemma dict_set_keys {A : Type} (k : string) (v : A) (l : list (string * A)) :
  NoDup (List.map fst l) ->
  NoDup (List.map fst (dict_set k v l))
  /\ forall x, In x (List.map fst (dict_set k v l)) <-> x = k \/ In x (List.map fst l).
Proof.
  induction l as [|[k' v'] l IH]; cbn [dict_set List.map fst]; intros Hnd.
  - split; [apply NoDup_singleton|]. intros x. simpl. intuition.
  - apply NoDup_cons in Hnd as [Hout Hnd]. destruct (IH Hnd) as [IHnd IHin].
    destruct (String.eqb k k') eqn:E; cbn [List.map fst].
    + apply String.eqb_eq in E. subst k'. split; [now apply NoDup_cons|].
      intros x. simpl. intuition.
    + apply String.eqb_neq in E. split.
      * apply NoDup_cons. split; [|assumption].
        rewrite list_elem_of_In, IHin. rewrite list_elem_of_In in Hout.
        intros [Heq|Hin]; [congruence | contradiction].
      * intros x. simpl. rewrite IHin. intuition.
Qed.

Section DiscoverScan.
Context `{PySnooz} `{PyEnum}.
Variable match_mac : option string.

Lemma discover_cb_listed (found : Found) (d : Detection) :
  discover_snooz.cb match_mac found d
  = if discover_snooz.listed match_mac d
    then dict_set (upper (ble_address (fst d))) d found else found.
Proof.
  unfold discover_snooz.cb, discover_snooz.listed. destruct d as [device adv].
  cbn [fst snd]. now destruct (opt_truthy match_mac && _).
Qed.

Lemma discover_fold_latest (ds : list Detection) :
  forall (found : Found) (a : string),
    assoc_get a (fold_left (discover_snooz.cb match_mac) ds found)
    = match discover_snooz.latest match_mac a ds with
      | Some x => Some x
      | None => assoc_get a found
      end.
Proof.
  induction ds as [|d rest IH]; intros found a; [reflexivity|].
  cbn [fold_left discover_snooz.latest]. rewrite IH.
  destruct (discover_snooz.latest match_mac a rest); [reflexivity|].
  rewrite discover_cb_listed.
  destruct (discover_snooz.listed match_mac d); cbn [andb]; [|reflexivity].
  rewrite assoc_get_dict_set, String.eqb_sym.
  now destruct (String.eqb (upper (ble_address (fst d))) a).
Qed.

Lemma discover_fold_keys (ds : list Detection) :
  forall found : Found,
    NoDup (List.map fst found) ->
    NoDup (List.map fst (fold_left (discover_snooz.cb match_mac) ds found))
    /\ forall a, In a (List.map fst (fold_left (discover_snooz.cb match_mac) ds found)) ->
         In a (List.map fst found)
         \/ exists d, In d ds /\ discover_snooz.listed match_mac d = true
                      /\ a = upper (ble_address (fst d)).
Proof.
  induction ds as [|d rest IH]; intros found Hnd; cbn [fold_left]; [auto|].
  rewrite discover_cb_listed.
  destruct (discover_snooz.listed match_mac d) eqn:Hl.
  - destruct (dict_set_keys (upper (ble_address (fst d))) d found Hnd) as [Hnd' Hin'].
    destruct (IH _ Hnd') as [Hnd2 Hin2]. split; [assumption|].
    intros a Ha. apply Hin2 in Ha as [Ha|(d' & Hd' & Hl' & ->)].
    + apply Hin' in Ha as [->|Ha]; [|now left]. right. exists d. split; [now left | auto].
    + right. exists d'. split; [now right | auto].
  - destruct (IH _ Hnd) as [Hnd2 Hin2]. split; [assumption|].
    intros a Ha. apply Hin2 in Ha as [Ha|(d' & Hd' & Hl' & ->)]; [now left|].
    right. exists d'. split; [now right | auto].
Qed.

Lemma discover_latest_some (a : string) (ds : list Detection) (d : Detection) :
  discover_snooz.latest match_mac a ds = Some d ->
  In d ds /\ discover_snooz.listed match_mac d = true /\ upper (ble_address (fst d)) = a.
Proof.
  induction ds as [|d0 rest IH]; cbn [discover_snooz.latest]; [discriminate|].
  destruct (discover_snooz.latest match_mac a rest) as [x|].
  - intros [= ->]. destruct (IH eq_refl) as (Hin & Hl & Ha). split; [now right | auto].
  - destruct (discover_snooz.listed match_mac d0) eqn:Hl; cbn [andb]; [|discriminate].
    destruct (String.eqb _ a) eqn:E; [|discriminate].
    intros [= <-]. apply String.eqb_eq in E. split; [now left | auto].
Qed.

End DiscoverScan.

(** X13. The discovery tool lists one entry for every address, in upper
    case, from which it heard an advertisement it keeps (one with a
    pairing password, a known firmware, or a name that starts with
    snooz or breez, whatever the case), and the entry holds the last
    such advertisement heard before the timeout, not the first: what it
    prints for a device is what the device advertised last. With
    [--mac], compared in upper case, only that address is listed; an
    empty [--mac] filters nothing. *)
Theorem discover_scan_keeps_latest `{PySnooz} `{PyEnum} (timeout : Z) (mac : option string)
    (detections : list (Z * Detection)) :
  NoDup (List.map fst (discover_snooz.scan timeout (discover_snooz.main_mac mac) detections))
  /\ (forall a,
        assoc_get a (discover_snooz.scan timeout (discover_snooz.main_mac mac) detections)
        = discover_snooz.latest (discover_snooz.main_mac mac) a
            (List.map snd (in_time timeout detections)))
  /\ (forall a,
        In a (List.map fst
                (discover_snooz.scan timeout (discover_snooz.main_mac mac) detections)) ->
        exists d,
          In d (List.map snd (in_time timeout detections))
          /\ discover_snooz.listed (discover_snooz.main_mac mac) d = true
          /\ a = upper (ble_address (fst d))
          /\ (forall m, mac = Some m -> m <> "" -> a = upper m))
  /\ (forall d,
        discover_snooz.listed (discover_snooz.main_mac (Some "")) d
        = discover_snooz.listed None d).
Proof.
  unfold discover_snooz.scan.
  destruct (discover_fold_keys (discover_snooz.main_mac mac)
              (List.map snd (in_time timeout detections)) [] (NoDup_nil_2 : NoDup (List.map fst (@nil (string * Detection)))))
    as [Hnd Hin].
  split; [assumption|]. split.
  { intros a. rewrite discover_fold_latest.
    now destruct (discover_snooz.latest _ a _). }
  split; [|reflexivity].
  intros a Ha. apply Hin in Ha as [[]|(d & Hd & Hl & ->)].
  exists d. split; [assumption|]. split; [assumption|]. split; [reflexivity|].
  intros m -> Hm. unfold discover_snooz.listed, discover_snooz.main_mac in Hl.
  rewrite (str_truthy_ne _ Hm) in Hl. cbn [opt_truthy or_empty] in Hl.
  assert (Hu : str_truthy (upper m) = true).
  { apply str_truthy_ne. now rewrite upper_empty. }
  rewrite Hu in Hl. cbn [andb] in Hl.
  destruct (String.eqb (upper (ble_address (fst d))) (upper m)) eqn:E.
  - now apply String.eqb_eq in E.
  - discriminate.
Qed.

Example discover_scan_sample :
  @discover_snooz.scan sample_pysnooz sample_enum 1000 None
    [(100, (bedroom_ble, pairing_adv)); (200, (stranger_ble, stranger_adv));
     (300, (bedroom_ble, quiet_adv))]
  = [("AA:BB:CC:DD:EE:FF", (bedroom_ble, quiet_adv));
     ("11:22:33:44:55:66", (stranger_ble, stranger_adv))]
  /\ @discover_snooz.parse_password_if_pairing sample_pysnooz pairing_adv = Some "abcd"
  /\ @discover_snooz.parse_password_if_pairing sample_pysnooz quiet_adv = None.
Proof. repeat split. Qed.

(** ** The client and the server *)

Lemma run_bind {A B : Type} (w : World) (t : Task A) (f : A -> Task B) :
  forall n,
    run w n (bind t f)
    = match run w n t with
      | (evs, n', Returned a) =>
          let '(evs2, n2, o2) := run w n' (f a) in ((evs ++ evs2)%list, n2, o2)
      | (evs, n', Raised e) => (evs, n', Raised e)
      | (evs, n', Blocked) => (evs, n', Blocked)
      end.
Proof.
  induction t as [a|e|k IH|k IH|name k IH|name c k IH|k IH|p k IH]; intros n; simpl.
  - destruct (run w n (f a)) as [[evs2 n2] o2]. reflexivity.
  - reflexivity.
  - destruct n as [|n]; [reflexivity|]. rewrite IH.
    destruct (run w n k) as [[evs n'] [a|e|]]; try reflexivity.
    destruct (run w n' (f a)) as [[evs2 n2] o2]. reflexivity.
  - rewrite IH.
    destruct (run w (S n) k) as [[evs n'] [a|e|]]; try reflexivity.
    destruct (run w n' (f a)) as [[evs2 n2] o2]. reflexivity.
  - apply IH.
  - rewrite IH.
    destruct (run w n (k (exec_outcome w name c))) as [[evs n'] [a|e|]]; try reflexivity.
    destruct (run w n' (f a)) as [[evs2 n2] o2]. reflexivity.
  - apply IH.
  - rewrite IH.
    destruct (run w n k) as [[evs n'] [a|e|]]; try reflexivity.
    destruct (run w n' (f a)) as [[evs2 n2] o2]. reflexivity.
Qed.

Lemma run_reply_result `{PyBuiltins} (w : World) (mgr : SnoozManager) (n : nat)
    (rid : json) (c : DeviceCommand) :
  run w (S n)
    (try_except (reply_result rid (run_command mgr c))
       (fun exc => _send_error rid (exn_str exc)))
  = ((events_of (run w (S n) (run_command mgr c))
      ++ [EvSend (action_response rid (outcome_of (run w (S n) (run_command mgr c))))])%list,
     S n, Returned tt).
Proof.
  destruct (run_command_alone w n mgr c) as (Hp & Hb & _).
  rewrite run_try_except. unfold reply_result. rewrite run_bind.
  destruct (run w (S n) (run_command mgr c)) as [[evs n'] o].
  unfold permits_of, outcome_of, events_of in *. cbn [fst snd] in *. subst n'.
  destruct o as [res|e|]; [| |congruence].
  - rewrite run_bind. unfold ensure_success, action_response.
    destruct (status res); cbn; rewrite ?app_nil_r; reflexivity.
  - reflexivity.
Qed.

#[local] Arguments run_command : simpl never.
#[local] Arguments reply_result : simpl never.
#[local] Arguments cmd_get_state : simpl never.
#[local] Arguments run : simpl never.
#[local] Arguments try_except : simpl never.

Lemma dispatch_action `{PyBuiltins} (mgr : SnoozManager) (rid : string) (c : client.Call)
    (cmd : DeviceCommand) (cl : client.SnoozWebSocketClient) :
  server_command c = Some cmd ->
  call_device_name c <> Some "" ->
  let msg := snd (client.call rid c cl) in
  dict_get "type" msg = JStr "command"
  /\ dict_get "request_id" msg = JStr rid
  /\ dispatch mgr msg (JStr rid) (dict_get "command" msg) (dict_get "device_name" msg)
     = reply_result (JStr rid) (run_command mgr cmd).
Proof.
  intros Hcmd Hdn msg. subst msg.
  destruct c as [|dn|dn v|dn d|dn v|dn|dn|dn b]; try discriminate;
    injection Hcmd as <-;
    (destruct dn as [|ch dn]; [now contradiction Hdn|]).
  all: cbn; try (destruct v); try (destruct d); cbn; auto.
Qed.

Lemma dispatch_no_device_name `{PyBuiltins} (mgr : SnoozManager) (rid : string)
    (c : client.Call) (cl : client.SnoozWebSocketClient) :
  call_device_name c = Some "" ->
  let msg := snd (client.call rid c cl) in
  dict_get "type" msg = JStr "command"
  /\ dict_get "request_id" msg = JStr rid
  /\ dispatch mgr msg (JStr rid) (dict_get "command" msg) (dict_get "device_name" msg)
     = Raise (ValueError "device_name is required").
Proof.
  intros Hdn msg. subst msg.
  destruct c as [|dn|dn v|dn d|dn v|dn|dn|dn b]; try discriminate;
    injection Hdn as ->.
  all: cbn; try (destruct v); try (destruct d); cbn; auto.
Qed.

(** X14. Every call of the client API is a command the server knows, with
    the arguments where the server reads them. For [list_devices] the
    answer is the registered names in order; for [get_state] the
    snapshot of the session, or the error for an unknown name. For the
    six action calls on a non-empty device name the server runs the
    matching manager command and sends its one response after
    everything that command did, so after the gate has been released:
    [ok] with the formatted result when the library reports SUCCESSFUL,
    [command_failed: STATUS] when it reports another status although
    the transaction took place, and the text of the exception when the
    command raised. A call with an empty device name is sent without
    the field and answered [device_name is required]. *)
Theorem client_calls_reach_manager `{PyBuiltins} (w : World) (mgr : SnoozManager) (n : nat)
    (request_id : string) (c : client.Call) (cl : client.SnoozWebSocketClient)
    (raw : string) :
  json_loads raw = Some (JObj (snd (client.call request_id c cl))) ->
  (forall cmd,
     server_command c = Some cmd -> call_device_name c <> Some "" ->
     run w (S n) (_handle_message mgr raw)
     = ((events_of (run w (S n) (run_command mgr cmd))
         ++ [EvSend (action_response (JStr request_id)
                       (outcome_of (run w (S n) (run_command mgr cmd))))])%list,
        S n, Returned tt)
     /\ bracketed (events_of (run w (S n) (run_command mgr cmd))))
  /\ (c = client.list_devices ->
      run w (S n) (_handle_message mgr raw)
      = ([EvSend (ok_response (JStr request_id)
                    (JObj [("devices", JArr (List.map JStr (get_device_names mgr)))]))],
         S n, Returned tt))
  /\ (forall device_name,
        c = client.get_state device_name -> device_name <> "" ->
        run w (S n) (_handle_message mgr raw)
        = ([EvSend match _devices mgr !! device_name with
                   | Some dev => ok_response (JStr request_id) (snapshot dev)
                   | None =>
                       error_response (JStr request_id)
                         (py_repr ("Unknown device_name: " ++ device_name))
                   end],
           S n, Returned tt))
  /\ (call_device_name c = Some "" ->
      run w (S n) (_handle_message mgr raw)
      = ([EvSend (error_response (JStr request_id) "device_name is required")],
         S n, Returned tt)).
Proof.
  intros Hl. split; [|split; [|split]].
  - intros cmd Hcmd Hdn.
    destruct (dispatch_action mgr request_id c cmd cl Hcmd Hdn) as (Hty & Hrid & Hd).
    split; [|apply run_command_alone].
    unfold _handle_message. rewrite Hl, Hty, Hrid. cbn [is_str String.eqb negb].
    change (("command" =? "command")%string) with true. cbn [negb].
    rewrite Hd. apply run_reply_result.
  - intros ->. unfold _handle_message. rewrite Hl. reflexivity.
  - intros dn -> Hdn. unfold _handle_message. rewrite Hl.
    destruct dn as [|ch dn]; [congruence|]. cbn.
    unfold cmd_get_state, get_device.
    destruct (_devices mgr !! String ch dn); reflexivity.
  - intros Hdn.
    destruct (dispatch_no_device_name mgr request_id c cl Hdn) as (Hty & Hrid & Hd).
    unfold _handle_message. rewrite Hl, Hty, Hrid.
    change (negb (is_str (JStr "command") "command")) with false. cbn iota.
    rewrite Hd. reflexivity.
Qed.

Lemma client_calls_reach_manager_witness :
  run sample_world 1 (@_handle_message sample_py sample_bound_manager sample_noise_on_frame)
  = ([EvAcquire; EvExecute "bedroom" (turn_on (JInt 150)); EvRelease;
      EvSend (ok_response (JStr "x3") (result_to_dict sample_result))], 1%nat, Returned tt).
Proof.
  destruct (@client_calls_reach_manager sample_py sample_world sample_bound_manager 0%nat
              "x3" (client.noise_on "bedroom" (Some 150))
              {| client._pending := ∅; client.futures := [] |}
              sample_noise_on_frame eq_refl) as (Hact & _).
  destruct (Hact (NoiseOn (JStr "bedroom") (JInt 150)) eq_refl) as [Hrun _]; [discriminate|].
  rewrite Hrun. reflexivity.
Defined.

Lemma call_request_id (rid : string) (c : client.Call) (cl : client.SnoozWebSocketClient) :
  dict_get "request_id" (snd (client.call rid c cl)) = JStr rid.
Proof.
  destruct c as [|dn|dn v|dn d|dn v|dn|dn|dn b]; try (destruct dn);
    try (destruct v); try (destruct d); reflexivity.
Qed.

Lemma call_client (rid : string) (c : client.Call) (cl : client.SnoozWebSocketClient) :
  fst (client.call rid c cl)
  = ({| client._pending := <[rid := length (client.futures cl)]> (client._pending cl);
        client.futures := client.futures cl ++ [Pending] |},
     length (client.futures cl)).
Proof.
  now destruct c.
Qed.

#[local] Arguments client.call : simpl never.

(** X15. The one response the server sends for a call of the client
    resolves the future of that call and no other: when the client reads
    it, the request id leaves the pending table, the future the caller
    awaits gets the data of an [ok] response as its result or the
    message of an [error] response as its exception, every other future
    is as it was, and the listener goes on. The same response read a
    second time changes nothing. *)
Theorem reply_resolves_its_call `{PyBuiltins} (w : World) (mgr : SnoozManager) (n : nat)
    (request_id : string) (c : client.Call) (cl : client.SnoozWebSocketClient)
    (raw : string) :
  json_loads raw = Some (JObj (snd (client.call request_id c cl))) ->
  exists reply,
    sent (events_of (run w (S n) (_handle_message mgr raw))) = [reply]
    /\ forall frame,
         json_loads frame = Some reply ->
         exists cl2,
           client._listen frame (fst (fst (client.call request_id c cl))) = (cl2, true)
           /\ client._listen frame cl2 = (cl2, true)
           /\ client._pending cl2 = delete request_id (client._pending cl)
           /\ (forall i, i <> length (client.futures cl) ->
                 client.futures cl2 !! i = client.futures cl !! i)
           /\ ((exists data,
                  reply = ok_response (JStr request_id) data
                  /\ client.futures cl2 !! length (client.futures cl) = Some (Resolved data))
               \/ (exists error,
                     reply = error_response (JStr request_id) error
                     /\ client.futures cl2 !! length (client.futures cl)
                        = Some (Failed (JStr error)))).
Proof.
  intros Hl.
  destruct (run_answers_once _ w false _ (handle_message_answers mgr raw _ Hl) n)
    as (evs & p & Hrun & Hsent & Hcor).
  rewrite call_request_id in Hcor.
  exists p. split; [rewrite Hrun; exact Hsent|].
  intros frame Hframe.
  pose proof (call_client request_id c cl) as Hcl.
  destruct (client.call request_id c cl) as [[cl1 fut] payload]. cbn [fst] in *.
  injection Hcl as -> ->.
  set (h := length (client.futures cl)).
  assert (Hpend : (client.futures cl ++ [Pending])%list !! h = Some Pending).
  { rewrite lookup_app_r by (unfold h; lia). unfold h. now rewrite Nat.sub_diag. }
  assert (Hlen : (h < length (client.futures cl ++ [Pending])%list)%nat).
  { rewrite length_app. simpl. unfold h. lia. }
  assert (Hother : forall f i, i <> h ->
            <[h := f]> (client.futures cl ++ [Pending])%list !! i = client.futures cl !! i).
  { intros f i Hi. rewrite list_lookup_insert_ne by congruence.
    destruct (decide (i < h)%nat) as [Hlt|Hge].
    - now rewrite lookup_app_l.
    - rewrite !lookup_ge_None_2; [reflexivity | unfold h in *; lia |].
      rewrite length_app. simpl. unfold h in *. lia. }
  destruct Hcor as [(data & ->)|(err & ->)].
  - eexists. split; [|split; [|split; [|split]]].
    + unfold client._listen. rewrite Hframe. cbn.
      rewrite lookup_insert_eq. cbn. rewrite Hpend. reflexivity.
    + unfold client._listen. rewrite Hframe. cbn.
      rewrite lookup_delete_eq. reflexivity.
    + cbn. apply delete_insert_eq.
    + intros i Hi. cbn. now apply Hother.
    + left. exists data. split; [reflexivity|]. cbn.
      now apply list_lookup_insert_eq.
  - eexists. split; [|split; [|split; [|split]]].
    + unfold client._listen. rewrite Hframe. cbn.
      rewrite lookup_insert_eq. cbn. rewrite Hpend. reflexivity.
    + unfold client._listen. rewrite Hframe. cbn.
      rewrite lookup_delete_eq. reflexivity.
    + cbn. apply delete_insert_eq.
    + intros i Hi. cbn. now apply Hother.
    + right. exists err. split; [reflexivity|]. cbn.
      now apply list_lookup_insert_eq.
Qed.

Lemma reply_resolves_its_call_witness :
  exists reply,
    sent (events_of (run sample_world 1
                       (@_handle_message sample_py sample_manager sample_get_state_frame)))
    = [reply]
    /\ reply = ok_response (JStr "x1") (snapshot bedroom).
Proof.
  destruct (@reply_resolves_its_call sample_py sample_world sample_manager 0%nat "x1"
              (client.get_state "bedroom")
              {| client._pending := ∅; client.futures := [] |}
              sample_get_state_frame eq_refl) as (reply & Hsent & _).
  exists reply. split; [exact Hsent|].
  vm_compute in Hsent. now injection Hsent as <-.
Defined.

(** ** One connection, frame after frame *)


#[local] Arguments run : simpl nomatch.

Lemma handler_answers_frames `{PyBuiltins} (w : World) (mgr : SnoozManager) (n : nat)
    (frames : list string) :
  Forall (fun raw => json_loads raw = None \/ exists msg, json_loads raw = Some (JObj msg))
    frames ->
  forall rest,
    exists evs,
      _handler w mgr (S n) (frames ++ rest)
      = ((evs ++ fst (_handler w mgr (S n) rest))%list, snd (_handler w mgr (S n) rest))
      /\ Forall2 answers frames (sent evs).
Proof.
  induction 1 as [|raw frames Hraw _ IH]; intros rest.
  - exists []. split; [|constructor].
    change (([] ++ rest)%list) with rest. now destruct (_handler w mgr (S n) rest).
  - destruct (IH rest) as (evs' & Hh & Hans).
    assert (Hone : exists evs p, run w (S n) (_handle_message mgr raw) = (evs, S n, Returned tt)
                                 /\ sent evs = [p] /\ answers raw p).
    { destruct Hraw as [Hbad|[msg Hl]].
      - exists [EvSend (error_response JNull "invalid_json")], (error_response JNull "invalid_json").
        unfold _handle_message. rewrite Hbad. repeat split. now left.
      - destruct (run_answers_once _ w false _ (handle_message_answers mgr raw msg Hl) n)
          as (evs & p & Hrun & Hs & Hp).
        exists evs, p. repeat split; try assumption. right. eauto. }
    destruct Hone as (evs & p & Hrun & Hs & Hp).
    exists (evs ++ evs')%list. split.
    + change ((raw :: frames) ++ rest)%list with (raw :: (frames ++ rest))%list.
      rewrite (handler_continues w mgr (S n) (S n) raw _ evs Hrun), Hh. cbn [fst snd].
      now rewrite app_assoc.
    + rewrite sent_app, Hs. now constructor.
Qed.

(** X16. On one connection the server answers frame after frame in the
    order received: as long as every frame decodes to an object or does
    not decode at all, each frame gets exactly one response (the one with
    its request id, or [invalid_json]), nothing else is sent, and the
    handler ends only when the peer closes. The first frame that
    decodes to something else than an object ends the handler with an
    [AttributeError]: the frames before it have been answered, that
    frame and every frame after it get no response. *)
Theorem handler_answers_in_order `{PyBuiltins} (w : World) (mgr : SnoozManager) (n : nat)
    (frames : list string) :
  Forall (fun raw => json_loads raw = None \/ exists msg, json_loads raw = Some (JObj msg))
    frames ->
  (exists evs,
     _handler w mgr (S n) frames = (evs, PeerClosed)
     /\ Forall2 answers frames (sent evs))
  /\ (forall bad v later,
        json_loads bad = Some v ->
        (forall msg, v <> JObj msg) ->
        exists evs,
          _handler w mgr (S n) (frames ++ bad :: later)
          = (evs,
             HandlerError
               (AttributeError ("'" ++ type_name v ++ "' object has no attribute 'get'")))
          /\ Forall2 answers frames (sent evs)).
Proof.
  intros Hok. split.
  - destruct (handler_answers_frames w mgr n frames Hok []) as (evs & Hh & Hans).
    rewrite app_nil_r in Hh. cbn in Hh. rewrite app_nil_r in Hh. eauto.
  - intros bad v later Hl Hv.
    destruct (handler_answers_frames w mgr n frames Hok (bad :: later)) as (evs & Hh & Hans).
    exists evs. split; [|assumption]. rewrite Hh.
    assert (Hbad : _handler w mgr (S n) (bad :: later)
                   = ([], HandlerError
                            (AttributeError
                               ("'" ++ type_name v ++ "' object has no attribute 'get'")))).
    { cbn [_handler]. unfold _handle_message. rewrite Hl.
      destruct v; try reflexivity. now contradiction (Hv kvs). }
    rewrite Hbad. cbn [fst snd]. now rewrite app_nil_r.
Qed.

Lemma handler_answers_in_order_witness :
  exists evs,
    @_handler sample_py sample_world sample_manager 1
      ["{oops"; sample_get_state_frame; sample_set_volume_frame]
    = (evs, PeerClosed)
    /\ length (sent evs) = 3%nat.
Proof.
  assert (Hok : Forall (fun raw => @json_loads sample_py raw = None
                                   \/ exists msg, @json_loads sample_py raw = Some (JObj msg))
                  ["{oops"; sample_get_state_frame; sample_set_volume_frame]).
  { constructor; [now left|]. constructor; [right; eexists; reflexivity|].
    constructor; [right; eexists; reflexivity | constructor]. }
  destruct (@handler_answers_in_order sample_py sample_world sample_manager 0%nat _ Hok)
    as [(evs & Hh & Hans) _].
  exists evs. split; [exact Hh|]. apply Forall2_length in Hans. now rewrite <- Hans.
Defined.

(** ** Shutdown *)

Lemma stop_fields (disconnected : SnoozDevice) (self : BleSnooz) :
  same_identity self (stop disconnected self)
  /\ _discovered (stop disconnected self) = _discovered self
  /\ address (stop disconnected self) = address self
  /\ is_ready (stop disconnected self) = is_ready self
  /\ forall k, _event_task (stop disconnected self) = Some k -> task_status k <> Sleeping.
Proof.
  unfold stop, is_ready.
  destruct (_event_task self) as [t|] eqn:Ht; cbn [with_event_task _device].
  - destruct (_device self) as [d|] eqn:Hd; cbn; rewrite ?Hd; repeat split; auto;
      intros k [= <-]; unfold task_done, task_cancel;
      destruct (task_status t) eqn:Es; cbn; congruence.
  - destruct (_device self) as [d|] eqn:Hd; cbn; rewrite ?Hd, ?Ht; repeat split; auto;
      discriminate.
Qed.

(** X17. Stopping a session cancels the emission that is still asleep:
    whatever time passes afterwards nothing more is emitted, so a state
    change notified less than 250 ms before the stop is never reported,
    although without the stop it would have been, at the end of its
    delay. The session itself stays bound: it is as ready as before,
    with the same discovery, address, name, matchName and password.
    Stopping the manager does this to every session, keeps the names,
    and the rescan loop makes no further pass. *)
Theorem stop_drops_pending_event `{PySnooz} (L : SessionLoop) (disconnected : SnoozDevice)
    (t : Z) :
  loop_settled L ->
  emitted (run_until t (loop_stop disconnected L)) = emitted L
  /\ (forall k, _event_task (session L) = Some k -> task_status k = Sleeping ->
                clock L <= t -> wake_at k <= t ->
                emitted (run_until t L)
                = (emitted L ++ [(wake_at k, emit_event (session L))])%list)
  /\ is_ready (session (loop_stop disconnected L)) = is_ready (session L)
  /\ _discovered (session (loop_stop disconnected L)) = _discovered (session L)
  /\ same_identity (session L) (session (loop_stop disconnected L))
  /\ (forall (self : SnoozManager) (gone : string -> SnoozDevice) (ticks : list Tick),
        get_device_names (SnoozManager_stop gone self) = get_device_names self
        /\ _rescan_loop ticks (SnoozManager_stop gone self) = SnoozManager_stop gone self
        /\ forall n dev, _devices self !! n = Some dev ->
             _devices (SnoozManager_stop gone self) !! n = Some (stop (gone (device_name dev)) dev)
             /\ is_ready (stop (gone (device_name dev)) dev) = is_ready dev).
Proof.
  intros [Hd Hk].
  destruct (stop_fields disconnected (session L)) as (Hid & Hdisc & _ & Hready & Htask).
  split.
  { unfold run_until, loop_stop. cbn [session detached emitted clock].
    rewrite (wake_tasks_none _ _ _ Hd).
    destruct (_event_task (stop disconnected (session L))) as [k|] eqn:Ek.
    - specialize (Htask k eq_refl). unfold task_due.
      destruct (task_status k); [congruence| |]; cbn [emitted]; now rewrite !app_nil_r.
    - cbn [emitted]. now rewrite !app_nil_r. }
  split.
  { intros k Hke Hks Hc Hw. now apply run_until_due. }
  split; [exact Hready|]. split; [exact Hdisc|]. split; [exact Hid|].
  intros self gone ticks. split; [reflexivity|]. split.
  { destruct ticks; reflexivity. }
  intros n dev Hn. split.
  - unfold SnoozManager_stop. cbn [_devices]. now rewrite lookup_fmap, Hn.
  - apply stop_fields.
Qed.

Lemma stop_drops_pending_event_witness :
  emitted (run_until 5000 (notify 0 state_loud sample_loop))
  = [(1250, emit_event (store_state state_loud bedroom_bound))]
  /\ emitted (run_until 5000 (loop_stop sample_disconnected (notify 0 state_loud sample_loop)))
     = [].
Proof.
  split; [reflexivity|].
  apply (@stop_drops_pending_event sample_pysnooz (notify 0 state_loud sample_loop)
           sample_disconnected 5000).
  apply notify_settled, loop_init_settled.
Defined.

(** ** The discovery tool and the service *)

Section ToolAndService.
Context `{PySnooz} `{PyEnum}.

Lemma parse_known_firmware (name : string) (adv : AdvertisementData) (pw : string)
    (sa : SnoozAdvertisementData) :
  parse_snooz_advertisement_from_bleak name adv pw = Some sa ->
  exists b0 rest,
    match mfg_get 65535 (manufacturer_data adv) with
    | Some p => Some p
    | None => match manufacturer_data adv with (_, p) :: _ => Some p | [] => None end
    end = Some (b0 :: rest)
    /\ length (b0 :: rest) = SNOOZ_ADVERTISEMENT_LENGTH
    /\ FIRMWARE_VERSION_BY_FLAGS (Z.land b0 (Z.lnot FIRMWARE_PAIRING_FLAGS))
       = Some (firmware_version sa)
    /\ (startswith "breez" (lower name) = true
        \/ startswith "snooz" (lower name) = true
        \/ firmware_version sa = V6).
Proof.
  unfold parse_snooz_advertisement_from_bleak. cbv zeta.
  destruct (match mfg_get 65535 (manufacturer_data adv) with
            | Some p => Some p
            | None => _
            end) as [[|b0 rest]|]; try discriminate.
  destruct (Nat.eqb (length (b0 :: rest)) SNOOZ_ADVERTISEMENT_LENGTH) eqn:Hlen;
    [|discriminate].
  cbn [negb]. unfold _parse_firmware_flags. cbn [fst].
  destruct (FIRMWARE_VERSION_BY_FLAGS _) as [fw|] eqn:Hfw; [|discriminate].
  apply Nat.eqb_eq in Hlen. intros Hsa. exists b0, rest.
  split; [reflexivity|]. split; [assumption|].
  destruct (startswith "breez" (lower name)) eqn:Hb.
  { injection Hsa as <-. auto. }
  destruct (startswith "snooz" (lower name)) eqn:Hs.
  { destruct fw; injection Hsa as <-; auto. }
  destruct (firmware_eqb fw V6) eqn:Hv; [|discriminate].
  injection Hsa as <-. cbn [firmware_version]. split; [assumption|].
  right. right. now destruct fw.
Qed.

End ToolAndService.

(** X18. Provided every firmware version the library knows is a true
    value with a non-empty name, the discovery tool (run without
    [--mac]) lists every advertisement the service can bind a session
    to, whatever the session's password: what can be configured can be
    discovered. The tool lists more than that: a device named snooz or
    breez whose firmware the library does not know is listed but never
    bound. *)
Theorem bindable_devices_are_listed `{PySnooz} `{PyEnum} (self : BleSnooz) (ble : BLEDevice)
    (adv : AdvertisementData) :
  (forall flags fw, FIRMWARE_VERSION_BY_FLAGS flags = Some fw ->
                    firmware_bool fw = true /\ firmware_name fw <> "") ->
  (snd (bind_discovery self ble adv) = true ->
   discover_snooz.listed None (ble, adv) = true
   /\ exists name, discover_snooz.parse_fw adv = Some name /\ name <> "")
  /\ (startswith "snooz" (lower (or_empty (opt_or (local_name adv) (ble_name ble)))) = true ->
      discover_snooz.parse_fw adv = None ->
      discover_snooz.listed None (ble, adv) = true
      /\ snd (bind_discovery self ble adv) = false).
Proof.
  intros Hlib. split.
  - unfold bind_discovery.
    destruct (parse_snooz_advertisement_from_bleak _ adv (password_hex self)) as [sa|] eqn:Hp;
      [|discriminate].
    intros _. destruct (parse_known_firmware _ _ _ _ Hp) as (b0 & rest & Hpay & Hlen & Hfw & _).
    destruct (Hlib _ _ Hfw) as [Hbool Hname].
    assert (Hpf : discover_snooz.parse_fw adv = Some (firmware_name (firmware_version sa))).
    { unfold discover_snooz.parse_fw. cbv zeta. rewrite Hpay.
      apply Nat.eqb_eq in Hlen. rewrite Hlen. cbn [negb]. now rewrite Hfw, Hbool. }
    split; [|eauto].
    unfold discover_snooz.listed. cbn [fst snd opt_truthy andb negb]. rewrite Hpf.
    cbn [opt_truthy]. rewrite (str_truthy_ne _ Hname).
    now rewrite orb_true_r.
  - intros Hs Hnone. split.
    + unfold discover_snooz.listed. cbn [fst snd opt_truthy andb negb].
      rewrite Hs. now rewrite !orb_true_r.
    + unfold bind_discovery.
      destruct (parse_snooz_advertisement_from_bleak _ adv (password_hex self)) as [sa|] eqn:Hp;
        [|reflexivity].
      exfalso. destruct (parse_known_firmware _ _ _ _ Hp) as (b0 & rest & Hpay & Hlen & Hfw & _).
      destruct (Hlib _ _ Hfw) as [Hbool _].
      unfold discover_snooz.parse_fw in Hnone. cbv zeta in Hnone. rewrite Hpay in Hnone.
      apply Nat.eqb_eq in Hlen. rewrite Hlen in Hnone. cbn [negb] in Hnone.
      rewrite Hfw, Hbool in Hnone. discriminate.
Qed.

Lemma bindable_devices_are_listed_witness :
  snd (@bind_discovery sample_pysnooz nursery nursery_ble nursery_adv) = true
  /\ @discover_snooz.listed sample_pysnooz sample_enum None (nursery_ble, nursery_adv) = true.
Proof.
  split; [reflexivity|].
  assert (Hlib : forall flags fw,
            @FIRMWARE_VERSION_BY_FLAGS sample_pysnooz flags = Some fw ->
            @firmware_bool sample_enum fw = true /\ firmware_name fw <> "").
  { intros flags fw. cbn. destruct (flags =? 12); [|discriminate].
    intros [= <-]. split; [reflexivity | discriminate]. }
  destruct (@bindable_devices_are_listed sample_pysnooz sample_enum nursery nursery_ble
              nursery_adv Hlib) as [Hbound _].
  apply Hbound. reflexivity.
Defined.

(** ** Scanning longer *)

Lemma in_time_prefix (t1 t2 : Z) (detections : list (Z * Detection)) :
  t1 <= t2 -> exists more, in_time t2 detections = (in_time t1 detections ++ more)%list.
Proof.
  intros Hle. induction detections as [|[t d] rest [more IH]]; [exists []; reflexivity|].
  cbn [in_time]. destruct (t1 <=? t) eqn:E1.
  - eexists. reflexivity.
  - apply Z.leb_gt in E1. assert (E2 : (t2 <=? t) = false) by (apply Z.leb_gt; lia).
    rewrite E2, IH. exists more. reflexivity.
Qed.

Lemma first_match_app (a2d n2d : gmap string string) (pre more : list Detection) (t : string) :
  first_match a2d n2d (pre ++ more) t
  = match first_match a2d n2d pre t with
    | Some x => Some x
    | None => first_match a2d n2d more t
    end.
Proof.
  induction pre as [|x pre IH]; [reflexivity|]. cbn [app first_match].
  destruct (records a2d n2d t x); [reflexivity | exact IH].
Qed.

Lemma heard_prefix (t1 t2 : Z) (detections : list (Z * Detection)) (k : nat) :
  t1 <= t2 -> (k <= length (in_time t1 detections))%nat ->
  heard t2 detections k = heard t1 detections k.
Proof.
  intros Hle Hk. unfold heard. destruct (in_time_prefix t1 t2 detections Hle) as [more ->].
  now rewrite take_app_le.
Qed.

Lemma take_add_drop {A : Type} (k m : nat) :
  forall l : list A, take (k + m) l = (take k l ++ take m (drop k l))%list.
Proof.
  induction k as [|k IH]; intros l; [reflexivity|].
  destruct l as [|x l]; [now destruct m|]. cbn. now rewrite IH.
Qed.

Lemma heard_extends (t : Z) (detections : list (Z * Detection)) (k1 k2 : nat) :
  (k1 <= k2)%nat ->
  exists more, heard t detections k2 = (heard t detections k1 ++ more)%list.
Proof.
  intros Hle. unfold heard.
  exists (List.map snd (take (k2 - k1) (drop k1 (in_time t detections)))).
  rewrite <- List.map_app. f_equal.
  replace k2 with (k1 + (k2 - k1))%nat at 1 by lia. apply take_add_drop.
Qed.

(** X19. Scanning longer never changes what a shorter scan found: over
    the same advertisements, a scan with a longer timeout runs the
    callback on at least as many of them, and every name the shorter
    scan bound is bound to the same advertisement by the longer one. So
    the 12 s scan of start-up finds whatever the 8 s rescan would have
    found. *)
Theorem longer_scan_keeps_bindings (self : SnoozManager) (targets : list string)
    (t1 t2 : Z) (detections : list (Z * Detection)) (r1 r2 : ScanResult) :
  t1 <= t2 ->
  targets <> [] ->
  _scan_for_targets self targets t1 detections = inr r1 ->
  _scan_for_targets self targets t2 detections = inr r2 ->
  (callbacks_run r1 <= callbacks_run r2)%nat
  /\ (forall n d, assoc_get n (found_devices r1) = Some d ->
                  assoc_get n (found_devices r2) = Some d)
  /\ (forall n, in_found n (found_devices r1) = true -> in_found n (found_devices r2) = true).
Proof.
  intros Hle Hne H1 H2. unfold _scan_for_targets in H1, H2.
  destruct (build_lookup (_devices self) targets ∅ ∅) as [e|[a2d n2d]]; [discriminate|].
  injection H1 as <-. injection H2 as <-.
  destruct (scan_wait_spec a2d n2d targets t1 detections [] 0%nat []
              (fun t => eq_refl) (complete_nil a2d n2d targets Hne))
    as (k1 & Hk1 & Hrun1 & Hag1 & Hbefore1 & Hend1).
  destruct (scan_wait_spec a2d n2d targets t2 detections [] 0%nat []
              (fun t => eq_refl) (complete_nil a2d n2d targets Hne))
    as (k2 & Hk2 & Hrun2 & Hag2 & Hbefore2 & Hend2).
  cbn [app Nat.add] in *.
  change (List.map snd (take ?k (in_time ?t detections))) with (heard t detections k) in *.
  assert (Hk : (k1 <= k2)%nat).
  { destruct (Nat.le_gt_cases k1 k2) as [Hok|Hgt]; [assumption|exfalso].
    pose proof (Hbefore1 k2 Hgt) as Hinc.
    rewrite <- (heard_prefix t1 t2 detections k2 Hle) in Hinc by lia.
    destruct Hend2 as [[Hc _]|[-> _]]; [congruence|].
    destruct (in_time_prefix t1 t2 detections Hle) as [more Hmore].
    rewrite Hmore, length_app in Hgt. lia. }
  assert (Hkeep : forall n d, assoc_get n (found_devices (scan_wait a2d n2d targets t1
                                                             detections [] 0)) = Some d ->
                    assoc_get n (found_devices (scan_wait a2d n2d targets t2
                                                  detections [] 0)) = Some d).
  { intros n d Hn. rewrite Hag1 in Hn. rewrite Hag2.
    rewrite <- (heard_prefix t1 t2 detections k1 Hle Hk1) in Hn.
    destruct (heard_extends t2 detections k1 k2 Hk) as [more ->].
    now rewrite first_match_app, Hn. }
  split; [rewrite Hrun1, Hrun2; exact Hk|]. split; [exact Hkeep|].
  intros n. unfold in_found.
  destruct (assoc_get n (found_devices (scan_wait a2d n2d targets t1 detections [] 0)))
    as [d|] eqn:Hd; [|discriminate].
  now rewrite (Hkeep n d Hd).
Qed.

Lemma longer_scan_keeps_bindings_witness :
  exists r1 r2,
    _scan_for_targets sample_manager ["bedroom"; "nursery"] 250 sample_detections = inr r1
    /\ _scan_for_targets sample_manager ["bedroom"; "nursery"] 12000 sample_detections = inr r2
    /\ (callbacks_run r1 <= callbacks_run r2)%nat
    /\ assoc_get "bedroom" (found_devices r2) = Some (bedroom_ble, snooz_adv_payload).
Proof.
  eexists. eexists. split; [reflexivity|]. split; [reflexivity|].
  destruct (longer_scan_keeps_bindings sample_manager ["bedroom"; "nursery"] 250 12000
              sample_detections _ _ ltac:(lia) ltac:(discriminate) eq_refl eq_refl)
    as (Hruns & Hkeep & _).
  split; [exact Hruns|]. apply Hkeep. reflexivity.
Defined.

(** ** A command on a ready session *)

#[local] Arguments run : simpl nomatch.

Lemma still_bound_refl (mgr : SnoozManager) : still_bound mgr mgr.
Proof.
  intros name dev Hdev Hready. exists dev. split; [assumption|].
  unfold is_ready in Hready. now destruct (_device dev).
Qed.

Lemma still_bound_rescan `{PySnooz} (ticks : list Tick) (mgr : SnoozManager) :
  still_bound mgr (_rescan_loop ticks mgr).
Proof.
  intros name dev Hdev Hready. exists dev.
  split; [now apply rescan_loop_keeps_ready|].
  unfold is_ready in Hready. now destruct (_device dev).
Qed.

Lemma float_duration_accepted `{PyBuiltins} (dn : json) (q : Q) :
  radio_command (NoiseOff dn (JFloat q)) = inr (turn_off (Some q))
  <-> - MAX_DELTA_DAYS <= timedelta_days q <= MAX_DELTA_DAYS.
Proof.
  unfold radio_command, _sec_to_timedelta, py_float, timedelta. cbv zeta.
  change (2 ^ 31) with 2147483648. unfold MAX_DELTA_DAYS.
  repeat match goal with
         | |- context [?a <? ?b] => destruct (Z.ltb_spec a b)
         | |- context [?a <=? ?b] => destruct (Z.leb_spec a b)
         end;
    cbn [orb]; split; intros Hx; try discriminate; try lia; reflexivity.
Qed.

(** X20. A device command on a registered, ready session with its
    argument in range always goes through the gate: it acquires it,
    hands exactly one command object to the device library, releases
    the gate and ends as the library call ended, with its result or its
    exception. The assertion on the device inside the gate cannot fail
    as long as sessions that were ready stay bound, which discovery and
    the rescan loop guarantee. The one exception is [noise_off] with a
    duration from which no timedelta can be built: [_sec_to_timedelta]
    runs after the gate has been acquired, and when [float] rejects the
    duration or [timedelta] rejects the float (an infinity, a NaN, or
    seconds whose days exceed 999999999 in magnitude, about 8.64e13
    seconds) the exception leaves the gate released and no transaction
    takes place. A float duration is handed over exactly when its days
    are within that bound. *)
Theorem ready_command_reaches_radio `{PyBuiltins} (w : World) (mgr : SnoozManager) (n : nat)
    (c : DeviceCommand) (name : string) (dev : BleSnooz) :
  get_device mgr (command_device c) = inr (name, dev) ->
  is_ready dev = true ->
  argument_in_range c ->
  still_bound mgr (sessions w) ->
  run w (S n) (run_command mgr c)
  = match radio_command c with
    | inr rc =>
        ([EvAcquire; EvExecute name rc; EvRelease], S n,
         match exec_outcome w name rc with
         | inl e => Raised e
         | inr result => Returned result
         end)
    | inl e => ([EvAcquire; EvRelease], S n, Raised e)
    end
  /\ (forall (lib : PySnooz) (ticks : list Tick),
        still_bound mgr (@_rescan_loop lib ticks mgr))
  /\ (forall dn q,
        radio_command (NoiseOff dn (JFloat q)) = inr (turn_off (Some q))
        <-> - MAX_DELTA_DAYS <= timedelta_days q <= MAX_DELTA_DAYS)
  /\ (forall dn x, exists e, radio_command (NoiseOff dn (JNonFinite x)) = inl e).
Proof.
  intros Hget Hready Hrange Hstill.
  split; [|split; [intros lib ticks; apply still_bound_rescan|split]].
  2:{ intros dn q. apply float_duration_accepted. }
  2:{ intros dn [ | | ]; eexists; reflexivity. }
  assert (Hreg : _devices mgr !! name = Some dev).
  { unfold get_device in Hget. destruct (command_device c); try discriminate.
    destruct (_devices mgr !! s) eqn:E; [|discriminate]. now injection Hget as <- <-. }
  destruct (Hstill name dev Hreg Hready) as (dev' & Hdev' & Hbound).
  destruct (_device dev') as [d|] eqn:Hd; [|congruence].
  assert (Hexec : forall rc,
            run w (S n) (_with_ble_lock name "" (execute_on name rc))
            = ([EvAcquire; EvExecute name rc; EvRelease], S n,
               match exec_outcome w name rc with
               | inl e => Raised e
               | inr result => Returned result
               end)).
  { intros rc. cbv beta iota zeta delta [run sem_exit _with_ble_lock execute_on].
    rewrite Hdev', Hd.
    destruct (exec_outcome w name rc); reflexivity. }
  unfold _with_ble_lock in Hexec.
  destruct c as [dn v|dn du|dn v|dn|dn|dn b]; cbn [command_device] in Hget;
    cbn [radio_command argument_in_range] in *;
    unfold run_command, cmd_noise_on, cmd_noise_off, cmd_set_volume, cmd_light_on, cmd_light_off,
      cmd_set_light_brightness;
    rewrite Hget, Hready; cbn [negb];
    try apply Hexec.
  - destruct du; try apply Hexec;
      cbv beta iota zeta delta [run sem_exit _with_ble_lock]; rewrite Hdev', Hd;
      (destruct (_sec_to_timedelta _) as [e|dur]; [reflexivity|]);
      destruct (exec_outcome w name (turn_off dur)); reflexivity.
  - assert (Hr : (0 <=? v) && (v <=? 100) = true)
      by (apply andb_true_iff; split; apply Z.leb_le; lia).
    rewrite Hr. cbn [negb]. apply Hexec.
  - assert (Hr : (0 <=? b) && (b <=? 100) = true)
      by (apply andb_true_iff; split; apply Z.leb_le; lia).
    rewrite Hr. cbn [negb]. apply Hexec.
Qed.

(** A duration of 1e14 seconds: the timedelta cannot be built, the gate
    is acquired and released, and nothing reaches the radio. *)
Example long_duration_releases_gate :
  run sample_world 1
    (@run_command decimal_py sample_bound_manager
       (NoiseOff (JStr "bedroom") sample_long_duration))
  = ([EvAcquire; EvRelease], 1%nat,
     Raised (OverflowError "days=1157407407; must have magnitude <= 999999999")).
Proof. reflexivity. Qed.

Lemma ready_command_reaches_radio_witness :
  run sample_world 1 (@run_command sample_py sample_bound_manager (SetVolume (JStr "bedroom") 40))
  = ([EvAcquire; EvExecute "bedroom" (set_volume 40); EvRelease], 1%nat,
     Returned sample_result).
Proof.
  assert (Hrange : @argument_in_range (SetVolume (JStr "bedroom") 40)) by (cbn; lia).
  apply (@ready_command_reaches_radio sample_py sample_world sample_bound_manager 0%nat
           (SetVolume (JStr "bedroom") 40) "bedroom" bedroom_bound eq_refl eq_refl Hrange
           (still_bound_refl sample_bound_manager)).
Defined.
